(** * TROFIC: scripts/fetch_tuya.py

    A shallow embedding of the Tuya polling script: the request signer
    (SHA-256, HMAC-SHA-256, hexadecimal digests), the API client, the
    temperature / humidity extractor, the per-device loop and the output
    sinks (storage POST, daily CSV file, manifest).

    Python strings are modelled by [string], read as the UTF-8 bytes of the
    text, so that [str.encode()] is the list of the character codes.
    Python integers are [Z]; Python floats are IEEE-754 binary64 values,
    modelled by [spec_float] at precision 53 and maximal exponent 1024. *)

From Stdlib Require Import ZArith List String Ascii Bool Lia.
From Stdlib Require Import Floats.SpecFloat.
From stdpp Require Import base option list strings gmap pretty sorting.

Set Warnings "-register-all".
Local Open Scope Z_scope.

(** ** Bytes and words *)

Module Bytes.

  (** A byte string is a list of integers in [0, 256). *)
Definition bytes := list Z.

Definition is_byte (b : Z) : Prop := 0 <= b < 256.

Definition byte_of_ascii (c : ascii) : Z := Z.of_N (N_of_ascii c).

  (** [s.encode()] *)
Fixpoint encode (s : string) : bytes :=
    match s with
    | EmptyString => []
    | String c s' => byte_of_ascii c :: encode s'
    end.

Definition hex_digits : list ascii :=
    ["0"; "1"; "2"; "3"; "4"; "5"; "6"; "7";
     "8"; "9"; "a"; "b"; "c"; "d"; "e"; "f"]%char.

Definition hex_digit (n : Z) : ascii :=
    nth (Z.to_nat n) hex_digits "0"%char.

  (** [bytes.hex()]: two lowercase digits per byte, high nibble first. *)
Fixpoint hex (bs : bytes) : string :=
    match bs with
    | [] => EmptyString
    | b :: bs' =>
        String (hex_digit (Z.shiftr (Z.land b 255) 4))
          (String (hex_digit (Z.land b 15)) (hex bs'))
    end.

  (** [str.upper()] on the ASCII range: a..z become A..Z. *)
Definition upper_ascii (c : ascii) : ascii :=
    let n := N_of_ascii c in
    if ((97 <=? n) && (n <=? 122))%N then ascii_of_N (n - 32) else c.

Fixpoint upper (s : string) : string :=
    match s with
    | EmptyString => EmptyString
    | String c s' => String (upper_ascii c) (upper s')
    end.

Definition is_upper_hex (c : ascii) : bool :=
    let n := N_of_ascii c in
    (((48 <=? n) && (n <=? 57)) || ((65 <=? n) && (n <=? 70)))%N.

Fixpoint all_chars (p : ascii -> bool) (s : string) : bool :=
    match s with
    | EmptyString => true
    | String c s' => p c && all_chars p s'
    end.

End Bytes.

(** ** SHA-256 (FIPS 180-4), as computed by [hashlib.sha256] *)

Module SHA256.
Import Bytes.

Definition w32 (x : Z) : Z := x mod 2 ^ 32.
Definition add32 (x y : Z) : Z := w32 (x + y).
Definition rotr (n x : Z) : Z :=
    Z.lor (Z.shiftr x n) (w32 (Z.shiftl x (32 - n))).
Definition not32 (x : Z) : Z := Z.lxor x (2 ^ 32 - 1).

Definition Ch (x y z : Z) : Z := Z.lxor (Z.land x y) (Z.land (not32 x) z).
Definition Maj (x y z : Z) : Z :=
    Z.lxor (Z.lxor (Z.land x y) (Z.land x z)) (Z.land y z).
Definition Sigma0 (x : Z) : Z :=
    Z.lxor (Z.lxor (rotr 2 x) (rotr 13 x)) (rotr 22 x).
Definition Sigma1 (x : Z) : Z :=
    Z.lxor (Z.lxor (rotr 6 x) (rotr 11 x)) (rotr 25 x).
Definition sigma0 (x : Z) : Z :=
    Z.lxor (Z.lxor (rotr 7 x) (rotr 18 x)) (Z.shiftr x 3).
Definition sigma1 (x : Z) : Z :=
    Z.lxor (Z.lxor (rotr 17 x) (rotr 19 x)) (Z.shiftr x 10).

Definition K : list Z :=
  [1116352408; 1899447441; 3049323471; 3921009573; 961987163; 1508970993;
   2453635748; 2870763221; 3624381080; 310598401; 607225278; 1426881987;
   1925078388; 2162078206; 2614888103; 3248222580; 3835390401; 4022224774;
   264347078; 604807628; 770255983; 1249150122; 1555081692; 1996064986;
   2554220882; 2821834349; 2952996808; 3210313671; 3336571891; 3584528711;
   113926993; 338241895; 666307205; 773529912; 1294757372; 1396182291;
   1695183700; 1986661051; 2177026350; 2456956037; 2730485921; 2820302411;
   3259730800; 3345764771; 3516065817; 3600352804; 4094571909; 275423344;
   430227734; 506948616; 659060556; 883997877; 958139571; 1322822218;
   1537002063; 1747873779; 1955562222; 2024104815; 2227730452; 2361852424;
   2428436474; 2756734187; 3204031479; 3329325298].

  (** The eight working variables / chaining value. *)
Record state := State {
    ha : Z; hb : Z; hc : Z; hd : Z; he : Z; hf : Z; hg : Z; hh : Z
  }.

Definition H0 : state :=
    State 0x6a09e667 0xbb67ae85 0x3c6ef372 0xa54ff53a
          0x510e527f 0x9b05688c 0x1f83d9ab 0x5be0cd19.

  (** Big-endian encodings. *)
Definition word_bytes (w : Z) : bytes :=
    [Z.land (Z.shiftr w 24) 255; Z.land (Z.shiftr w 16) 255;
     Z.land (Z.shiftr w 8) 255; Z.land w 255].

Definition word_of_bytes (b3 b2 b1 b0 : Z) : Z :=
    Z.lor (Z.lor (Z.shiftl b3 24) (Z.shiftl b2 16)) (Z.lor (Z.shiftl b1 8) b0).

Fixpoint words_of_bytes (bs : bytes) : list Z :=
    match bs with
    | b3 :: b2 :: b1 :: b0 :: rest =>
        word_of_bytes b3 b2 b1 b0 :: words_of_bytes rest
    | _ => []
    end.

  (** Padding: 0x80, zeros up to 56 modulo 64, then the bit length on
      eight bytes. *)
Definition pad (msg : bytes) : bytes :=
    let len := Z.of_nat (length msg) in
    let zeros := Z.to_nat ((55 - len) mod 64) in
    let bits := 8 * len in
    msg ++ [128] ++ repeat 0 zeros
        ++ word_bytes (w32 (Z.shiftr bits 32)) ++ word_bytes (w32 bits).

  (** Message schedule: sixteen block words extended to sixty-four. *)
Fixpoint schedule (n : nat) (w : list Z) : list Z :=
    match n with
    | O => w
    | S n' =>
        let t := length w in
        let x := add32 (add32 (sigma1 (nth (t - 2) w 0)) (nth (t - 7) w 0))
                       (add32 (sigma0 (nth (t - 15) w 0)) (nth (t - 16) w 0)) in
        schedule n' (w ++ [x])
    end.

Definition round (s : state) (kw : Z * Z) : state :=
    let t1 := add32 (add32 (add32 (hh s) (Sigma1 (he s)))
                           (add32 (Ch (he s) (hf s) (hg s)) (fst kw)))
                    (snd kw) in
    let t2 := add32 (Sigma0 (ha s)) (Maj (ha s) (hb s) (hc s)) in
    State (add32 t1 t2) (ha s) (hb s) (hc s)
          (add32 (hd s) t1) (he s) (hf s) (hg s).

Definition compress (h : state) (block : bytes) : state :=
    let w := schedule 48 (words_of_bytes block) in
    let s := fold_left round (combine K w) h in
    State (add32 (ha h) (ha s)) (add32 (hb h) (hb s))
          (add32 (hc h) (hc s)) (add32 (hd h) (hd s))
          (add32 (he h) (he s)) (add32 (hf h) (hf s))
          (add32 (hg h) (hg s)) (add32 (hh h) (hh s)).

Fixpoint blocks (n : nat) (h : state) (bs : bytes) : state :=
    match n with
    | O => h
    | S n' => blocks n' (compress h (firstn 64 bs)) (skipn 64 bs)
    end.

Definition state_bytes (s : state) : bytes :=
    word_bytes (ha s) ++ word_bytes (hb s) ++ word_bytes (hc s)
      ++ word_bytes (hd s) ++ word_bytes (he s) ++ word_bytes (hf s)
      ++ word_bytes (hg s) ++ word_bytes (hh s).

  (** [hashlib.sha256(msg).digest()] *)
Definition digest (msg : bytes) : bytes :=
    let p := pad msg in
    state_bytes (blocks (Nat.div (length p) 64) H0 p).

  (** [hashlib.sha256(msg).hexdigest()] *)
Definition hexdigest (msg : bytes) : string := hex (digest msg).

End SHA256.

(** ** HMAC-SHA-256 (RFC 2104), as computed by [hmac.new(key, msg, sha256)] *)

Module HMAC.
Import Bytes.

Definition block_size : nat := 64.

Definition block_key (key : bytes) : bytes :=
    let k := if (block_size <? length key)%nat then SHA256.digest key else key in
    k ++ repeat 0 (block_size - length k).

Definition xor_pad (p : Z) (k : bytes) : bytes := map (Z.lxor p) k.

Definition digest (key msg : bytes) : bytes :=
    let k := block_key key in
    SHA256.digest (xor_pad 0x5c k ++ SHA256.digest (xor_pad 0x36 k ++ msg)).

Definition hexdigest (key msg : bytes) : string := hex (digest key msg).

End HMAC.

(** ** Python values, exceptions and floats *)

Module Py.

  (** Exceptions the script can meet.  The first four are raised by the
      interpreter itself; [LibraryError] stands for an exception raised by
      a library call ([requests], [open], [os]) and carries its text. *)
Inductive exn :=
  | AttributeError
  | KeyError
  | TypeError
  | OverflowError
  | LibraryError (msg : string).

Inductive result (A : Type) :=
  | Ok (a : A)
  | Raise (e : exn).
Arguments Ok {A} a.
Arguments Raise {A} e.

Definition rbind {A B} (r : result A) (k : A -> result B) : result B :=
    match r with
    | Ok a => k a
    | Raise e => Raise e
    end.

Definition is_ok {A} (r : result A) : bool :=
    match r with Ok _ => true | Raise _ => false end.

Definition str_of_exn (e : exn) : string :=
    match e with
    | LibraryError msg => msg
    | AttributeError => "AttributeError"
    | KeyError => "KeyError"
    | TypeError => "TypeError"
    | OverflowError => "int too large to convert to float"
    end.

  (** A value as produced by [json.loads]: [None], [bool], [int], [float],
      [str], [list] and [dict] (the items in insertion order). *)
Inductive value :=
  | VNone
  | VBool (b : bool)
  | VInt (z : Z)
  | VFloat (f : spec_float)
  | VStr (s : string)
  | VList (l : list value)
  | VDict (d : list (string * value)).

  (** binary64 *)
Definition prec : Z := 53.
Definition emax : Z := 1024.

Definition is_zero (f : spec_float) : bool :=
    match f with S754_zero _ => true | _ => false end.

Definition is_infinity (f : spec_float) : bool :=
    match f with S754_infinity _ => true | _ => false end.

  (** The nearest float of an integer (ties to even); an integer that
      rounds beyond the largest float gives [OverflowError]. *)
Definition float_of_int (z : Z) : result spec_float :=
    let f := binary_normalize prec emax z 0 false in
    if is_infinity f then Raise OverflowError else Ok f.

  (** Integers well inside the exactly representable range. *)
Definition small_float (z : Z) : spec_float :=
    binary_normalize prec emax z 0 false.

  (** Truth value of [if v:] / [v or ...] / [not v]. *)
Definition truthy (v : value) : bool :=
    match v with
    | VNone => false
    | VBool b => b
    | VInt z => negb (z =? 0)
    | VFloat f => negb (is_zero f)
    | VStr s => negb (String.eqb s EmptyString)
    | VList l => negb (Nat.eqb (length l) 0)
    | VDict d => negb (Nat.eqb (length d) 0)
    end.

Definition is_none (v : value) : bool :=
    match v with VNone => true | _ => false end.

  (** [isinstance(v, (int, float))]; [bool] is a subclass of [int]. *)
Definition isinstance_int_float (v : value) : bool :=
    match v with
    | VBool _ | VInt _ | VFloat _ => true
    | _ => false
    end.

Definition isinstance_dict (v : value) : bool :=
    match v with VDict _ => true | _ => false end.

Fixpoint assoc (k : string) (d : list (string * value)) : option value :=
    match d with
    | [] => None
    | (k', v) :: d' => if String.eqb k k' then Some v else assoc k d'
    end.

  (** [v.get(k)]: only a dict has the method. *)
Definition get (v : value) (k : string) : result value :=
    match v with
    | VDict d => Ok (default VNone (assoc k d))
    | _ => Raise AttributeError
    end.

  (** [v[k]] for a string key [k]. *)
Definition getitem (v : value) (k : string) : result value :=
    match v with
    | VDict d =>
        match assoc k d with
        | Some x => Ok x
        | None => Raise KeyError
        end
    | _ => Raise TypeError
    end.

Fixpoint chars (s : string) : list value :=
    match s with
    | EmptyString => []
    | String c s' => VStr (String c EmptyString) :: chars s'
    end.

  (** The elements a [for] loop visits. *)
Definition iter (v : value) : result (list value) :=
    match v with
    | VList l => Ok l
    | VDict d => Ok (map (fun kv => VStr (fst kv)) d)
    | VStr s => Ok (chars s)
    | _ => Raise TypeError
    end.

  (** [code in (c1, c2, c3)]: equality with one of the strings. *)
Definition in_strs (v : value) (cs : list string) : bool :=
    match v with
    | VStr s => existsb (String.eqb s) cs
    | _ => false
    end.

  (** [abs(v)] of a number. *)
Definition abs (v : value) : value :=
    match v with
    | VBool b => VInt (if b then 1 else 0)
    | VInt z => VInt (Z.abs z)
    | VFloat f => VFloat (SFabs f)
    | _ => v
    end.

  (** [v > n] for a number [v] and a small integer literal [n]: the
      comparison is exact, on integers as on floats. *)
Definition gt_int (v : value) (n : Z) : bool :=
    match v with
    | VBool b => n <? (if b then 1 else 0)
    | VInt z => n <? z
    | VFloat f => SFltb (small_float n) f
    | _ => false
    end.

  (** [v / d] for a number [v] and a float [d]: true division in
      binary64, the integer operand converted first. *)
Definition truediv_float (v : value) (d : spec_float) : result value :=
    match v with
    | VBool b =>
        rbind (float_of_int (if b then 1 else 0))
              (fun f => Ok (VFloat (SFdiv prec emax f d)))
    | VInt z =>
        rbind (float_of_int z) (fun f => Ok (VFloat (SFdiv prec emax f d)))
    | VFloat f => Ok (VFloat (SFdiv prec emax f d))
    | _ => Raise TypeError
    end.

  (** The rational [n / d] a finite float stands for. *)
Definition denotes (f : spec_float) (n d : Z) : Prop :=
    match f with
    | S754_zero _ => n = 0
    | S754_finite s m e =>
        if e <? 0 then cond_Zopp s (Zpos m) * d = n * 2 ^ (- e)
        else cond_Zopp s (Zpos m) * 2 ^ e * d = n
    | _ => False
    end.

End Py.

Notation "'let!' x ':=' r 'in' k" := (Py.rbind r (fun x => k))
  (at level 10, x name, r at level 100, k at level 200).

(** ** Reading extractor *)

Section Extractor.
Import Py.

Definition temperature_codes : list string :=
    ["temp_current"; "temperature"; "va_temperature"].

Definition humidity_codes : list string :=
    ["humidity_value"; "humidity"; "va_humidity"].

Definition ten : spec_float := small_float 10.

  (** One iteration of the loop of [extract_temp_humidity], on the pair
      (temp, humidity). *)
Definition extract_step (st : value * value) (dp : value)
    : result (value * value) :=
    let! code := get dp "code" in
    let! value := get dp "value" in
    if in_strs code temperature_codes then
      if isinstance_int_float value then
        let! temp := (if gt_int (abs value) 50 then truediv_float value ten
                 else Ok value) in
        Ok (temp, snd st)
      else Ok (value, snd st)
    else if in_strs code humidity_codes then
      if isinstance_int_float value then
        let! humidity := (if gt_int value 100 then truediv_float value ten
                     else Ok value) in
        Ok (fst st, humidity)
      else Ok (fst st, value)
    else Ok st.

Fixpoint extract_loop (st : value * value) (dps : list value)
    : result (value * value) :=
    match dps with
    | [] => Ok st
    | dp :: rest => let! st' := extract_step st dp in extract_loop st' rest
    end.

Definition extract_temp_humidity (status_result : value)
    : result (value * value) :=
    let! dps := iter status_result in
    extract_loop (VNone, VNone) dps.

  (** A status point [{"code": c, "value": v}]. *)
Definition point (c : string) (v : value) : value :=
    VDict [("code", VStr c); ("value", v)].

End Extractor.

(** ** The script's state and environment *)

(** The line feed. *)
Definition nl : string := String (ascii_of_nat 10) EmptyString.

(** The header dict built by [_sign_request]. *)
Record headers := Headers {
  client_id : string;
  sign : string;
  t : string;
  sign_method : string;
  access_token : string
}.

(** A reading dict of [main]. *)
Record reading := Reading {
  timestamp : string;
  device_id : string;
  temperature_c : Py.value;
  humidity_percent : Py.value
}.

(** A [requests] response: the status code and what [response.json()]
    gives (the parsed body, or the exception of a body that is not JSON). *)
Record response := Response {
  status_code : Z;
  json : Py.result Py.value
}.

Inductive request :=
| GET (url : string) (h : headers)
| POST (url : string) (body : list reading).

Inductive os_call :=
| Makedirs (path : string)
| Open (path : string) (mode : string)
| Listdir (path : string).

(** What the script reads from outside: the environment variables, the
    clock (indexed by the number of clock reads made so far), the answers
    of the network, and the operating-system calls that fail (with the
    text of their exception). *)
Record environment := Environment {
  TUYA_ACCESS_ID : option string;
  TUYA_ACCESS_KEY : option string;
  STORAGE_URL : string;
  (** [datetime.now().strftime("%Y-%m-%d %H:%M:%S")] *)
  datetime_now : nat -> string;
  (** [date.today().strftime("%Y%m%d")] *)
  date_today : nat -> string;
  (** [int(time.time() * 1000)] *)
  time_ms : nat -> Z;
  requests_get : string -> headers -> Py.result response;
  requests_post : string -> list reading -> Py.result response;
  os_error : os_call -> option string
}.

(** What the script changes: the regular files (path to content), the
    console, the clock reads made and the requests sent. *)
Record world := World {
  fs : gmap string string;
  console : list string;
  ticks : nat;
  sent : list request
}.

(** [SimpleTuyaAPI] *)
Record SimpleTuyaAPI := API {
  endpoint : string;
  access_id : string;
  access_key : string;
  token : Py.value
}.

(** Computations over a state [S] that may raise: the state reached is
    kept when an exception is raised. *)
Module Run.
Import Py.

Definition M (S A : Type) : Type := S -> result A * S.

Definition ret {S A} (a : A) : M S A := fun s => (Ok a, s).

Definition raise {S A} (e : exn) : M S A := fun s => (Raise e, s).

Definition lift {S A} (r : result A) : M S A := fun s => (r, s).

Definition bind {S A B} (m : M S A) (k : A -> M S B) : M S B :=
    fun s =>
      match m s with
      | (Ok a, s') => k a s'
      | (Raise e, s') => (Raise e, s')
      end.

  (** [try: m  except Exception as e: h e] *)
Definition try_except {S A} (m : M S A) (h : exn -> M S A) : M S A :=
    fun s =>
      match m s with
      | (Ok a, s') => (Ok a, s')
      | (Raise e, s') => h e s'
      end.

  (** A computation on the world, run inside a method of the client. *)
Definition on_world {A} (m : M world A) : M (SimpleTuyaAPI * world) A :=
    fun s =>
      match m (snd s) with
      | (r, w') => (r, (fst s, w'))
      end.

Definition self : M (SimpleTuyaAPI * world) SimpleTuyaAPI :=
    fun s => (Ok (fst s), s).

Definition set_token (v : value) : M (SimpleTuyaAPI * world) unit :=
    fun s =>
      (Ok tt,
       (API (endpoint (fst s)) (access_id (fst s)) (access_key (fst s)) v,
        snd s)).

  (** [print(line)] *)
Definition print (line : string) : M world unit :=
    fun w => (Ok tt, World (fs w) (console w ++ [line]) (ticks w) (sent w)).

  (** One read of the clock: the index of the read. *)
Definition tick : M world nat :=
    fun w => (Ok (ticks w), World (fs w) (console w) (S (ticks w)) (sent w)).

Definition send (r : request) : M world unit :=
    fun w => (Ok tt, World (fs w) (console w) (ticks w) (sent w ++ [r])).

Definition get_fs : M world (gmap string string) :=
    fun w => (Ok (fs w), w).

Definition put_fs (f : gmap string string) : M world unit :=
    fun w => (Ok tt, World f (console w) (ticks w) (sent w)).

End Run.

Notation "'do!' x ':=' m 'in' k" := (Run.bind m (fun x => k))
  (at level 10, x name, m at level 100, k at level 200).
Notation "m ';;' k" := (Run.bind m (fun _ => k))
  (at level 100, k at level 200, right associativity).

(** ** The script *)

Definition ENDPOINT : string := "https://openapi.tuyaeu.com".

Definition DEVICE_IDS : list string :=
  ["bf7ecfc010164c849dwpqp";
   "bf58e5674b50680432umav";
   "bfefd09a22241b31b10cpo"].

Definition token_path : string := "/v1.0/token?grant_type=1".

(** The path of the CSV file of the day [today]. *)
Definition csv_path_of (today : string) : string :=
  "data" +:+ "/" +:+ "TROFICDORD" +:+ today +:+ ".csv".

Definition manifest_path : string := "data" +:+ "/" +:+ "manifest.json".

Definition str_of_bool (b : bool) : string := if b then "True" else "False".

Definition startswith (s p : string) : bool := String.prefix p s.

Definition endswith (s p : string) : bool :=
  let n := String.length s in
  let k := String.length p in
  (k <=? n)%nat && String.eqb (String.substring (n - k) k s) p.

Definition has_slash (s : string) : bool :=
  existsb (Ascii.eqb "/"%char) (list_ascii_of_string s).

(** A byte that continues a character of the UTF-8 text (10xxxxxx). *)
Definition is_continuation (c : ascii) : bool :=
  let n := N_of_ascii c in ((128 <=? n) && (n <? 192))%N.

(** [s[:n]]: the first [n] characters of the text, each with all its
    bytes. *)
Fixpoint take_chars (n : nat) (s : string) : string :=
  match s with
  | EmptyString => EmptyString
  | String c s' =>
      if is_continuation c then String c (take_chars n s')
      else match n with
           | O => EmptyString
           | S n' => String c (take_chars n' s')
           end
  end.

(** The part of a relative path before its first slash. *)
Fixpoint first_component (s : string) : string :=
  match s with
  | EmptyString => EmptyString
  | String c s' =>
      if Ascii.eqb "/"%char c then EmptyString
      else String c (first_component s')
  end.

(** The entry of the directory [dir] (given with its final slash) that
    the path lies in or is: the name of a file directly under [dir], or
    of the sub-directory of [dir] that holds the path. *)
Definition entry_under (dir path : string) : option string :=
  if startswith path dir then
    let name := first_component
                  (String.substring (String.length dir)
                     (String.length path - String.length dir) path) in
    if String.eqb name EmptyString then None else Some name
  else None.

Definition str_le (a b : string) : Prop := String.leb a b = true.

Global Instance str_le_dec a b : Decision (str_le a b).
Proof. unfold str_le. apply _. Defined.

Section Script.
Import Py Run.

  (** [json.dumps] and [str] are taken from the library. *)
Variable json_dumps : value -> string.
Variable py_str : value -> string.
Variable env : environment.

  (** *** SimpleTuyaAPI *)

  (** [self.token or <empty string>], as used in a string concatenation. *)
Definition token_or_empty (tok : value) : result string :=
    if truthy tok then
      match tok with
      | VStr s => Ok s
      | _ => Raise TypeError
      end
    else Ok EmptyString.

  (** [content.encode()] of the body to hash. *)
Definition body_content (body : value) : result string :=
    let content := if isinstance_dict body then VStr (json_dumps body)
                   else body in
    match content with
    | VStr s => Ok s
    | _ => Raise AttributeError
    end.

  (** The string [str_to_sign] of [_sign_request]. *)
Definition str_to_sign (method path : string) (body : value)
    : result string :=
    let s := method +:+ nl in
    let! s :=
      (if truthy body then
         let! content := body_content body in
         Ok (s +:+ SHA256.hexdigest (Bytes.encode content) +:+ nl)
       else Ok (s +:+ SHA256.hexdigest [] +:+ nl)) in
    let s := s +:+ nl in
    let s := s +:+ path in
    Ok s.

  (** [_sign_request] with the millisecond clock read [ms]. *)
Definition sign_request_at (ms : Z) (api : SimpleTuyaAPI)
      (method path : string) (body : value) : result headers :=
    let t := pretty ms in
    let! str_to_sign := str_to_sign method path body in
    let! tok := token_or_empty (token api) in
    let sign_str := access_id api +:+ tok +:+ t +:+ str_to_sign in
    let signature :=
      Bytes.upper (HMAC.hexdigest (Bytes.encode (access_key api))
                                  (Bytes.encode sign_str)) in
    Ok (Headers (access_id api) signature t "HMAC-SHA256" tok).

Definition _sign_request (method path : string) (body : value)
    : M (SimpleTuyaAPI * world) headers :=
    do! n := on_world tick in
    do! api := self in
    lift (sign_request_at (time_ms env n) api method path body).

  (** [requests.get(url, headers=headers, timeout=15)] *)
Definition http_get (url : string) (h : headers) : M world response :=
    send (GET url h) ;;
    lift (requests_get env url h).

Definition connect : M (SimpleTuyaAPI * world) bool :=
    let path := token_path in
    do! headers := _sign_request "GET" path VNone in
    do! api := self in
    do! response := on_world (http_get (endpoint api +:+ path) headers) in
    do! parsed :=
      try_except
        (do! result := lift (json response) in ret (Some result))
        (fun e =>
           on_world (print ("ERROR: Token response not JSON: "
                            +:+ str_of_exn e)) ;;
           ret None) in
    match parsed with
    | None => ret false
    | Some result =>
        do! success := lift (get result "success") in
        if truthy success then
          do! r := lift (getitem result "result") in
          do! tok := lift (getitem r "access_token") in
          set_token tok ;;
          ret true
        else
          on_world (print ("ERROR: token call failed: " +:+ py_str result)) ;;
          ret false
    end.

Definition api_get (path : string) : M (SimpleTuyaAPI * world) value :=
    do! headers := _sign_request "GET" path VNone in
    do! api := self in
    do! response := on_world (http_get (endpoint api +:+ path) headers) in
    try_except
      (lift (json response))
      (fun e =>
         on_world (print ("ERROR: response not JSON: " +:+ str_of_exn e)) ;;
         ret (VDict [("success", VBool false);
                     ("msg", VStr "invalid response")])).

  (** *** Output sinks *)

Definition send_to_storage (readings : list reading) : M world unit :=
    if negb (String.eqb (STORAGE_URL env) EmptyString) then
      try_except
        (send (POST (STORAGE_URL env) readings) ;;
         do! response := lift (requests_post env (STORAGE_URL env) readings) in
         print ("Sent to storage: " +:+ pretty (status_code response)))
        (fun e => print ("Storage error: " +:+ str_of_exn e))
    else ret tt.

  (** An operating-system call that may fail. *)
Definition os (c : os_call) : M world unit :=
    match os_error env c with
    | Some msg => raise (LibraryError msg)
    | None => ret tt
    end.

Definition ensure_dir (path : string) : M world unit :=
    try_except
      (os (Makedirs path))
      (fun e =>
         print ("Could not create directory " +:+ path +:+ " "
                +:+ str_of_exn e)).

Definition csv_header : string :=
    "timestamp,device_id,temperature_c,humidity_percent" +:+ nl.

Definition csv_line (r : reading) : string :=
    timestamp r +:+ "," +:+ device_id r +:+ ","
      +:+ py_str (temperature_c r) +:+ ","
      +:+ py_str (humidity_percent r) +:+ nl.

  (** The writes of the loop over [rows], on the text written so far. *)
Fixpoint write_rows (written : string) (rows : list reading) : string :=
    match rows with
    | [] => written
    | r :: rest => write_rows (written +:+ csv_line r) rest
    end.

Definition append_to_csv (csv_path : string) (rows : list reading)
    : M world unit :=
    let header := csv_header in
    do! files := get_fs in
    let exists_ := bool_decide (is_Some (files !! csv_path)) in
    os (Open csv_path "a") ;;
    let f := default EmptyString (files !! csv_path) in
    let f := if negb exists_ then f +:+ header else f in
    let f := write_rows f rows in
    put_fs (<[csv_path := f]> files).

  (** [os.listdir(d)]: the names of the entries of [d], files and
      sub-directories alike, each once.  The world records the regular
      files by their paths; a directory is there through the paths under
      it (an empty one through its own path followed by a slash). *)
Definition listdir (d : string) : M world (list string) :=
    os (Listdir d) ;;
    do! files := get_fs in
    let dir := d +:+ "/" in
    ret (remove_dups
           (omap (fun kv => entry_under dir (fst kv)) (map_to_list files))).

Definition update_manifest (outdir : string) : M world unit :=
    try_except
      (do! names := listdir outdir in
       let files :=
         merge_sort str_le
           (filter (fun f => startswith f "TROFICDORD" && endswith f ".csv")
                   names) in
       let path := outdir +:+ "/" +:+ "manifest.json" in
       os (Open path "w") ;;
       do! old := get_fs in
       put_fs (<[path := json_dumps (VList (map VStr files))]> old))
      (fun e =>
         print ("Could not update manifest on main branch: "
                +:+ str_of_exn e)).

Fixpoint print_rows (rows : list reading) : M world unit :=
    match rows with
    | [] => ret tt
    | r :: rest =>
        print (timestamp r +:+ "," +:+ device_id r +:+ ","
               +:+ py_str (temperature_c r) +:+ ","
               +:+ py_str (humidity_percent r)) ;;
        print_rows rest
    end.

  (** *** main *)

  (** The body of the loop over the devices, on [all_readings]. *)
Definition fetch_device (timestamp : string) (all_readings : list reading)
      (device_id : string) : M (SimpleTuyaAPI * world) (list reading) :=
    on_world (print ("--- Fetching device: " +:+ device_id +:+ " ---")) ;;
    do! status_response :=
      api_get ("/v1.0/devices/" +:+ device_id +:+ "/status") in
    do! success := lift (get status_response "success") in
    if negb (truthy success) then
      on_world (print ("ERROR: Failed to get status for " +:+ device_id
                       +:+ " - " +:+ py_str status_response)) ;;
      ret all_readings
    else
      do! status_result := lift (getitem status_response "result") in
      do! th := lift (extract_temp_humidity status_result) in
      let temp := fst th in
      let humidity := snd th in
      do! all_readings :=
        (if negb (is_none temp) && negb (is_none humidity) then
           let reading := Reading timestamp device_id temp humidity in
           on_world (print ("SUCCESS: Temp: " +:+ py_str temp
                            +:+ "C, Humidity: " +:+ py_str humidity +:+ "%")) ;;
           ret (all_readings ++ [reading])
         else
           on_world (print ("WARNING: Could not extract temperature or "
                            +:+ "humidity for " +:+ device_id)) ;;
           ret all_readings) in
      on_world (print EmptyString) ;;
      ret all_readings.

Fixpoint fetch_devices (timestamp : string) (all_readings : list reading)
      (device_ids : list string) : M (SimpleTuyaAPI * world) (list reading) :=
    match device_ids with
    | [] => ret all_readings
    | device_id :: rest =>
        do! all_readings := fetch_device timestamp all_readings device_id in
        fetch_devices timestamp all_readings rest
    end.

  (** The branch [if all_readings:] of [main], after the storage sink:
      the daily CSV file, the manifest and the echo on the console. *)
Definition write_files (all_readings : list reading) : M world unit :=
    do! n := tick in
    let today := date_today env n in
    let filename := "TROFICDORD" +:+ today +:+ ".csv" in
    let outdir := "data" in
    ensure_dir outdir ;;
    let csv_path := outdir +:+ "/" +:+ filename in
    append_to_csv csv_path all_readings ;;
    print ("Wrote/updated CSV: " +:+ csv_path) ;;
    update_manifest outdir ;;
    print (nl +:+ "--- CSV Format ---") ;;
    print "timestamp,device_id,temperature_c,humidity_percent" ;;
    print_rows all_readings.

  (** The branch [if all_readings:] of [main]. *)
Definition write_outputs (all_readings : list reading) : M world unit :=
    send_to_storage all_readings ;;
    write_files all_readings.

  (** [main] from the summary on; the value is the exit code. *)
Definition summarize (all_readings : list reading) : M world Z :=
    print "--- Summary ---" ;;
    print ("Successfully read " +:+ pretty (length all_readings) +:+ "/"
           +:+ pretty (length DEVICE_IDS) +:+ " devices") ;;
    (if negb (Nat.eqb (length all_readings) 0) then
       write_outputs all_readings
     else print "No readings collected; nothing to write.") ;;
    ret 0.

Definition present (v : option string) : bool :=
    match v with
    | Some s => negb (String.eqb s EmptyString)
    | None => false
    end.

  (** The run of the loop with a fresh client, back on the world. *)
Definition with_api {A} (api : SimpleTuyaAPI)
      (m : M (SimpleTuyaAPI * world) A) : M world A :=
    fun w =>
      match m (api, w) with
      | (r, s) => (r, snd s)
      end.

Definition main : M world Z :=
    do! n := tick in
    let timestamp := datetime_now env n in
    print (nl +:+ "[" +:+ timestamp +:+ "] Starting IoT data fetch for "
           +:+ pretty (length DEVICE_IDS) +:+ " devices...") ;;
    if negb (present (TUYA_ACCESS_ID env))
       || negb (present (TUYA_ACCESS_KEY env)) then
      print "ERROR: TUYA_ACCESS_ID and TUYA_ACCESS_KEY must be set" ;;
      print ("DEBUG: ACCESS_ID present: "
             +:+ str_of_bool (present (TUYA_ACCESS_ID env))
             +:+ ", ACCESS_KEY present: "
             +:+ str_of_bool (present (TUYA_ACCESS_KEY env))) ;;
      ret 1
    else
      let ACCESS_ID := default EmptyString (TUYA_ACCESS_ID env) in
      let ACCESS_KEY := default EmptyString (TUYA_ACCESS_KEY env) in
      print ("DEBUG: Using ACCESS_ID: " +:+ take_chars 8 ACCESS_ID
             +:+ "... (truncated for security)") ;;
      do! collected :=
        with_api (API ENDPOINT ACCESS_ID ACCESS_KEY VNone)
          (do! connected := connect in
           if negb connected then
             on_world (print "ERROR: Could not connect to Tuya API") ;;
             ret None
           else
             on_world (print ("Connected successfully" +:+ nl)) ;;
             do! all_readings := fetch_devices timestamp [] DEVICE_IDS in
             ret (Some all_readings)) in
      match collected with
      | None => ret 2
      | Some all_readings => summarize all_readings
      end.

  (** [main] from its first [print] up to the summary, with the
      timestamp read at the start: the exit code of an early return, or
      the readings collected. *)
Definition gather_at (timestamp : string) : M world (Z + list reading) :=
    print (nl +:+ "[" +:+ timestamp +:+ "] Starting IoT data fetch for "
           +:+ pretty (length DEVICE_IDS) +:+ " devices...") ;;
    if negb (present (TUYA_ACCESS_ID env))
       || negb (present (TUYA_ACCESS_KEY env)) then
      print "ERROR: TUYA_ACCESS_ID and TUYA_ACCESS_KEY must be set" ;;
      print ("DEBUG: ACCESS_ID present: "
             +:+ str_of_bool (present (TUYA_ACCESS_ID env))
             +:+ ", ACCESS_KEY present: "
             +:+ str_of_bool (present (TUYA_ACCESS_KEY env))) ;;
      ret (inl 1)
    else
      let ACCESS_ID := default EmptyString (TUYA_ACCESS_ID env) in
      let ACCESS_KEY := default EmptyString (TUYA_ACCESS_KEY env) in
      print ("DEBUG: Using ACCESS_ID: " +:+ take_chars 8 ACCESS_ID
             +:+ "... (truncated for security)") ;;
      with_api (API ENDPOINT ACCESS_ID ACCESS_KEY VNone)
        (do! connected := connect in
         if negb connected then
           on_world (print "ERROR: Could not connect to Tuya API") ;;
           ret (inl 2)
         else
           on_world (print ("Connected successfully" +:+ nl)) ;;
           do! all_readings := fetch_devices timestamp [] DEVICE_IDS in
           ret (inr all_readings)).

  (** [main] up to the summary. *)
Definition gather : M world (Z + list reading) :=
    do! n := tick in
    gather_at (datetime_now env n).

  (** The exit status of the process: the value [main] returns, or 1
      when an exception escapes. *)
Definition exit_code (r : result Z) : Z :=
    match r with
    | Ok n => n
    | Raise _ => 1
    end.

End Script.

(** ** Relations between the world before and after a computation *)

(** The storage requests among the requests sent. *)
Fixpoint posts_of (rs : list request) : list (string * list reading) :=
  match rs with
  | [] => []
  | GET _ _ :: rest => posts_of rest
  | POST url body :: rest => (url, body) :: posts_of rest
  end.

(** Nothing written and nothing posted. *)
Definition quiet (w w' : world) : Prop :=
  fs w' = fs w /\ posts_of (sent w') = posts_of (sent w).

(** A computation on a state that holds a world keeps the relation [R]
    between the world it starts from and the world it ends in. *)
Definition keeps {S A : Type} (R : world -> world -> Prop)
    (wof : S -> world) (m : Run.M S A) : Prop :=
  forall s, R (wof s) (wof (snd (m s))).

(** Two worlds with the same files and the same clock. *)
Definition same_files (w1 w2 : world) : Prop :=
  fs w1 = fs w2 /\ ticks w1 = ticks w2.


(** No request sent. *)
Definition no_send (w w' : world) : Prop := sent w' = sent w.

(** Every request sent satisfies [P]. *)
Definition only_sends (P : request -> Prop) (w w' : world) : Prop :=
  exists l, sent w' = sent w ++ l /\ Forall P l.

(** Every value the computation returns satisfies [P]. *)
Definition yields {S A : Type} (P : A -> Prop) (m : Run.M S A) : Prop :=
  forall s a s', m s = (Py.Ok a, s') -> P a.

(** All the readings carry the timestamp [ts]. *)
Definition stamped (ts : string) (rs : list reading) : Prop :=
  Forall (fun r => timestamp r = ts) rs.

(** The rest of [main] after [gather]. *)
Definition finish (json_dumps py_str : Py.value -> string)
    (env : environment) (g : Z + list reading) : Run.M world Z :=
  match g with
  | inl code => Run.ret code
  | inr all_readings => summarize json_dumps py_str env all_readings
  end.

(** ** The token response as the specification words it *)

(** The parsed response reports success. *)
Definition reports_success (result : Py.value) : Prop :=
  exists d s,
    result = Py.VDict d /\ Py.assoc "success" d = Some s
    /\ Py.truthy s = true.

(** The parsed response contains the token field [tok]. *)
Definition has_token (result tok : Py.value) : Prop :=
  exists d r,
    result = Py.VDict d /\ Py.assoc "result" d = Some (Py.VDict r)
    /\ Py.assoc "access_token" r = Some tok.

(** A point whose code is in neither recognized set. *)
Definition unrecognized (dp : Py.value) : Prop :=
  exists d,
    dp = Py.VDict d
    /\ Py.in_strs (default Py.VNone (Py.assoc "code" d)) temperature_codes
       = false
    /\ Py.in_strs (default Py.VNone (Py.assoc "code" d)) humidity_codes
       = false.

(** ** Reference instances of the library functions *)

(** [str] on [None], booleans, integers and strings; floats and
    containers are rendered by a fixed mark (their printers are not
    needed by any statement below). *)
Definition str_basic (v : Py.value) : string :=
  match v with
  | Py.VNone => "None"
  | Py.VBool b => str_of_bool b
  | Py.VInt z => pretty z
  | Py.VStr s => s
  | Py.VFloat _ => "<float>"
  | Py.VList _ => "<list>"
  | Py.VDict _ => "<dict>"
  end.

Definition dquote : ascii := ascii_of_nat 34.

(** [json.dumps] on lists of plain strings, as the manifest needs it. *)
Fixpoint dumps_items (l : list Py.value) : string :=
  match l with
  | [] => EmptyString
  | Py.VStr s :: rest =>
      String.append (String.append (String dquote s) (String dquote EmptyString))
        (match rest with
         | [] => EmptyString
         | _ => String.append ", " (dumps_items rest)
         end)
  | _ :: rest => dumps_items rest
  end.

Definition dumps_basic (v : Py.value) : string :=
  match v with
  | Py.VList l => String.append "[" (String.append (dumps_items l) "]")
  | Py.VDict [] => "{}"
  | _ => str_basic v
  end.

(** ** The canonical string as the specification words it *)

(** method, line feed, hash, line feed, line feed for the empty header
    block, line feed, path. *)
Definition spec_canonical (method hash path : string) : string :=
  method +:+ nl +:+ hash +:+ nl +:+ nl +:+ nl +:+ path.

(** What [_sign_request] builds: two line feeds between hash and path. *)
Definition canonical (method hash path : string) : string :=
  method +:+ nl +:+ hash +:+ nl +:+ nl +:+ path.

Definition signature_of (secret access token ms canon : string) : string :=
  Bytes.upper
    (HMAC.hexdigest (Bytes.encode secret)
       (Bytes.encode (access +:+ token +:+ ms +:+ canon))).

(** The arguments a caller gives for the body and holds for the token. *)
Inductive body_arg :=
| NoBody
| TextBody (s : string)
| DictBody (d : list (string * Py.value)).

Definition body_value (b : body_arg) : Py.value :=
  match b with
  | NoBody => Py.VNone
  | TextBody s => Py.VStr s
  | DictBody d => Py.VDict d
  end.

(** The text hashed for a body: nothing for an absent or empty one. *)
Definition body_text (json_dumps : Py.value -> string) (b : body_arg)
  : string :=
  match b with
  | NoBody => EmptyString
  | TextBody s => s
  | DictBody [] => EmptyString
  | DictBody d => json_dumps (Py.VDict d)
  end.

Definition token_value (tok : option string) : Py.value :=
  match tok with
  | None => Py.VNone
  | Some s => Py.VStr s
  end.

(** ** The scaling rules as the specification words them *)

(** The float a number stands for in a division. *)
Definition to_float (v : Py.value) : spec_float :=
  match v with
  | Py.VBool b => Py.small_float (if b then 1 else 0)
  | Py.VInt z => Py.small_float z
  | Py.VFloat f => f
  | _ => S754_nan
  end.

(** The number can be converted to a float: an integer must not round
    beyond the largest float. *)
Definition converts (v : Py.value) : bool :=
  match v with
  | Py.VInt z => Py.is_ok (Py.float_of_int z)
  | _ => true
  end.

(** [v / 10]. *)
Definition tenth (v : Py.value) : Py.value :=
  Py.VFloat (SFdiv Py.prec Py.emax (to_float v) ten).

(** The value exceeds [n] in absolute value. *)
Definition abs_exceeds (v : Py.value) (n : Z) : bool :=
  match v with
  | Py.VBool b => n <? (if b then 1 else 0)
  | Py.VInt z => n <? Z.abs z
  | Py.VFloat f => SFltb (Py.small_float n) (SFabs f)
  | _ => false
  end.

(** The value exceeds [n]. *)
Definition exceeds (v : Py.value) (n : Z) : bool :=
  match v with
  | Py.VBool b => n <? (if b then 1 else 0)
  | Py.VInt z => n <? z
  | Py.VFloat f => SFltb (Py.small_float n) f
  | _ => false
  end.

(** Temperature: tenths when the absolute value exceeds 50. *)
Definition spec_temperature (v : Py.value) : Py.value :=
  if abs_exceeds v 50 then tenth v else v.

(** Humidity: tenths when the value exceeds 100. *)
Definition spec_humidity (v : Py.value) : Py.value :=
  if exceeds v 100 then tenth v else v.

(** The status of a device that reports the single point [c], [v]. *)
Definition status1 (c : string) (v : Py.value) : Py.value :=
  Py.VList [point c v].

(** 23.5, -6.0, 45.5 and -15.0 in binary64. *)
Definition f_23_5 : spec_float := S754_finite false 6614661952700416 (-48).
Definition f_m6 : spec_float := S754_finite true 6755399441055744 (-50).
Definition f_45_5 : spec_float := S754_finite false 6403555720167424 (-47).
Definition f_m15 : spec_float := S754_finite true 8444249301319680 (-49).

(** The outputs a point without a value leaves: the quantity its code
    names is reset to [None]. *)
Definition reset_by (code : Py.value) (st : Py.value * Py.value)
  : Py.value * Py.value :=
  if Py.in_strs code temperature_codes then (Py.VNone, snd st)
  else if Py.in_strs code humidity_codes then (fst st, Py.VNone)
  else st.

(** ** The CSV text as the specification words it *)

(** One line per reading, in order. *)
Fixpoint data_lines (py_str : Py.value -> string) (rows : list reading)
  : string :=
  match rows with
  | [] => EmptyString
  | r :: rest => csv_line py_str r +:+ data_lines py_str rest
  end.

(** The content of the file after an append. *)
Definition appended (py_str : Py.value -> string) (old : option string)
    (rows : list reading) : string :=
  match old with
  | Some text => text +:+ data_lines py_str rows
  | None => csv_header +:+ data_lines py_str rows
  end.

(** ** A sample run *)

Definition sample_token_body : Py.value :=
  Py.VDict [("success", Py.VBool true);
            ("result", Py.VDict [("access_token", Py.VStr "tok")])].

Definition sample_status_body : Py.value :=
  Py.VDict [("success", Py.VBool true);
            ("result", Py.VList [point "va_temperature" (Py.VInt 23);
                                 point "va_humidity" (Py.VInt 45);
                                 point "battery_state" (Py.VStr "high")])].

(** Valid credentials, a vendor that answers every device with 23 degrees
    and 45 percent, a storage endpoint that times out, and a file system
    that refuses nothing. *)
Definition sample_env : environment :=
  Environment (Some "id") (Some "key") "https://storage.example/hook"
    (fun n => "2024-01-02 03:04:0" +:+ pretty n)
    (fun _ => "20240102")
    (fun n => 1700000000000 + Z.of_nat n)
    (fun url _ =>
       if String.eqb url (ENDPOINT +:+ token_path)
       then Py.Ok (Response 200 (Py.Ok sample_token_body))
       else Py.Ok (Response 200 (Py.Ok sample_status_body)))
    (fun _ _ => Py.Raise (Py.LibraryError "timed out"))
    (fun _ => None).

(** The same, with a vendor that answers every device with a failure. *)
Definition failing_status_body : Py.value :=
  Py.VDict [("success", Py.VBool false); ("msg", Py.VStr "device offline")].

Definition offline_env : environment :=
  Environment (Some "id") (Some "key") "https://storage.example/hook"
    (fun n => "2024-01-02 03:04:0" +:+ pretty n)
    (fun _ => "20240102")
    (fun n => 1700000000000 + Z.of_nat n)
    (fun url _ =>
       if String.eqb url (ENDPOINT +:+ token_path)
       then Py.Ok (Response 200 (Py.Ok sample_token_body))
       else Py.Ok (Response 200 (Py.Ok failing_status_body)))
    (fun _ _ => Py.Raise (Py.LibraryError "timed out"))
    (fun _ => None).

Definition empty_world : world := World ∅ [] 0 [].

(** ** The device loop and the requests of a run *)

(** The path of the status of a device, as [main] builds it. *)
Definition status_path (device_id : string) : string :=
  "/v1.0/devices/" +:+ device_id +:+ "/status".

(** The answer [get] makes up for a body that is not JSON. *)
Definition invalid_response : Py.value :=
  Py.VDict [("success", Py.VBool false); ("msg", Py.VStr "invalid response")].

(** The headers of a body-less GET signed at [ms] with the token text
    [tk]. *)
Definition get_headers (api : SimpleTuyaAPI) (tk : string) (ms : Z)
    (path : string) : headers :=
  Headers (access_id api)
    (signature_of (access_key api) (access_id api) tk (pretty ms)
       (canonical "GET" (SHA256.hexdigest []) path))
    (pretty ms) "HMAC-SHA256" tk.

(** Credentials, a storage endpoint that answers 500, and a vendor that
    gives [tok] to the token request and [status] to every other one. *)
Definition answering (tok status : Py.result response)
    (oserr : os_call -> option string) : environment :=
  Environment (Some "id") (Some "key") "https://storage.example/hook"
    (fun n => "2024-01-02 03:04:0" +:+ pretty n)
    (fun _ => "20240102")
    (fun n => 1700000000000 + Z.of_nat n)
    (fun url _ =>
       if String.eqb url (ENDPOINT +:+ token_path) then tok else status)
    (fun _ _ => Py.Ok (Response 500 (Py.Raise (Py.LibraryError "no body"))))
    oserr.

Definition granted : Py.result response :=
  Py.Ok (Response 200 (Py.Ok sample_token_body)).

Definition no_os_error (c : os_call) : option string := None.

(** A world with one more line on the console. *)
Definition say (w : world) (line : string) : world :=
  World (fs w) (console w ++ [line]) (ticks w) (sent w).

(** A status answer that reports success and carries no result. *)
Definition resultless_body : Py.value :=
  Py.VDict [("success", Py.VBool true); ("msg", Py.VStr "no data")].

(** An environment with credentials whose network is down. *)
Definition down_env : environment :=
  answering (Py.Raise (Py.LibraryError "connection refused"))
            (Py.Raise (Py.LibraryError "connection refused")) no_os_error.

(** The client [main] creates from the environment. *)
Definition fresh_client (env : environment) : SimpleTuyaAPI :=
  API ENDPOINT (default EmptyString (TUYA_ACCESS_ID env))
      (default EmptyString (TUYA_ACCESS_KEY env)) Py.VNone.

(** The credentials test of [main]. *)
Definition credentials_missing (env : environment) : bool :=
  negb (present (TUYA_ACCESS_ID env)) || negb (present (TUYA_ACCESS_KEY env)).

(** The world in which [main] calls [connect]. *)
Definition started (env : environment) (w : world) : world :=
  World (fs w)
    ((console w
      ++ [nl +:+ "[" +:+ datetime_now env (ticks w)
          +:+ "] Starting IoT data fetch for "
          +:+ pretty (length DEVICE_IDS) +:+ " devices..."])
     ++ ["DEBUG: Using ACCESS_ID: "
         +:+ take_chars 8 (default EmptyString (TUYA_ACCESS_ID env))
         +:+ "... (truncated for security)"])
    (S (ticks w)) (sent w).

Definition request_url (r : request) : string :=
  match r with
  | GET url _ => url
  | POST url _ => url
  end.

(** A GET of the client [api]: sent to its endpoint, with the headers
    [_sign_request] gives for that path at some read of the clock. *)
Definition signed_get (json_dumps : Py.value -> string) (env : environment)
    (api : SimpleTuyaAPI) (r : request) : Prop :=
  exists path n h,
    r = GET (endpoint api +:+ path) h
    /\ sign_request_at json_dumps (time_ms env n) api "GET" path Py.VNone
       = Py.Ok h.

(** The requests a run may send: the token request, the status request
    of a listed device, the POST to the configured storage address. *)
Definition expected_request (env : environment) (r : request) : Prop :=
  match r with
  | GET url _ =>
      url = ENDPOINT +:+ token_path
      \/ exists d, In d DEVICE_IDS /\ url = ENDPOINT +:+ status_path d
  | POST url _ => url = STORAGE_URL env /\ url <> EmptyString
  end.

(** A client whose token is the number 5. *)
Definition odd_client : SimpleTuyaAPI := API ENDPOINT "id" "key" (Py.VInt 5).

(** The storage request of a batch: none for an empty batch or without a
    storage address. *)
Definition storage_posts (env : environment) (rs : list reading)
  : list request :=
  if negb (Nat.eqb (length rs) 0)
     && negb (String.eqb (STORAGE_URL env) EmptyString)
  then [POST (STORAGE_URL env) rs] else [].

(** The name of the CSV file of the day [today]. *)
Definition csv_name_of (today : string) : string :=
  "TROFICDORD" +:+ today +:+ ".csv".

(** A name the manifest keeps. *)
Definition is_daily_csv (name : string) : bool :=
  startswith name "TROFICDORD" && endswith name ".csv".

(** A world with one daily file and one other file under data. *)
Definition archive_world : world :=
  World (<["data/TROFICDORD20240101.csv" := "old"]>
           (<["data/notes.txt" := "n"]> ∅))
        [] 0 [].

(** ** The output stage *)

(** The text of a reading on the console: its CSV line without the line
    feed. *)
Definition row_text (py_str : Py.value -> string) (r : reading) : string :=
  timestamp r +:+ "," +:+ device_id r +:+ ","
    +:+ py_str (temperature_c r) +:+ "," +:+ py_str (humidity_percent r).

(** The lines, each followed by a line feed. *)
Fixpoint unlines (lines : list string) : string :=
  match lines with
  | [] => EmptyString
  | line :: rest => line +:+ nl +:+ unlines rest
  end.

(** A file system on which no file can be opened. *)
Definition read_only (c : os_call) : option string :=
  match c with
  | Open _ _ => Some "Read-only file system"
  | _ => None
  end.

(** A file system whose directories cannot be listed. *)
Definition unlistable (c : os_call) : option string :=
  match c with
  | Listdir _ => Some "Permission denied"
  | _ => None
  end.

Definition sample_reading : reading :=
  Reading "2024-01-02 03:04:00" "bf7ecfc010164c849dwpqp"
          (Py.VInt 23) (Py.VInt 45).

(** A file system on which data is a regular file: the directory cannot
    be created and no file can be opened under it. *)
Definition blocked_dir (c : os_call) : option string :=
  match c with
  | Makedirs _ => Some "File exists"
  | Open _ _ => Some "Not a directory"
  | Listdir _ => Some "Not a directory"
  end.

(** A token answer that reports success and carries no token. *)
Definition tokenless_body : Py.value :=
  Py.VDict [("success", Py.VBool true); ("result", Py.VDict [])].

(** A world whose data directory holds a daily file, another file and a
    sub-directory named like a daily file. *)
Definition nested_world : world :=
  World (<["data/TROFICDORD20240101.csv" := "old"]>
           (<["data/notes.txt" := "n"]>
              (<["data/TROFICDORD_sub.csv/inner.txt" := "i"]> ∅)))
        [] 0 [].

Example sha256_empty :
  SHA256.hexdigest [] =
  "e3b0c44298fc1c149afbf4c8996fb92427ae41e4649b934ca495991b7852b855"%string.
Proof. vm_compute. reflexivity. Qed.

Example sha256_abc :
  SHA256.hexdigest (Bytes.encode "abc") =
  "ba7816bf8f01cfea414140de5dae2223b00361a396177a9cb410ff61f20015ad"%string.
Proof. vm_compute. reflexivity. Qed.

Example hmac_fox :
  Bytes.upper (HMAC.hexdigest (Bytes.encode "key")
     (Bytes.encode "The quick brown fox jumps over the lazy dog")) =
  "F7BC83F430538424B13298E6AA6FB143EF4D59A14946175997479DBC2D1A3CD8"%string.
Proof. vm_compute. reflexivity. Qed.

Example extract_235 :
  extract_temp_humidity (Py.VList [point "temp_current" (Py.VInt 235)])
  = Py.Ok (Py.VFloat (S754_finite false 6614661952700416 (-48)), Py.VNone).
Proof. vm_compute. reflexivity. Qed.

Example sign_token_request :
  sign_request_at dumps_basic 1700000000000
    (API ENDPOINT "id" "key" Py.VNone) "GET" "/v1.0/token?grant_type=1"
    Py.VNone
  = Py.Ok (Headers "id"
      "75DFC2AE6D5341FE03E32A2890C41947B9011AF0ED39DCCC7E2D739049E843E8"
      "1700000000000" "HMAC-SHA256" EmptyString).
Proof. vm_compute. reflexivity. Qed.

(** A key longer than a block is hashed first; a text body is hashed. *)
Example sign_long_key :
  sign_request_at dumps_basic 1700000000000
    (API ENDPOINT "id"
       "kkkkkkkkkkkkkkkkkkkkkkkkkkkkkkkkkkkkkkkkkkkkkkkkkkkkkkkkkkkkkkkkkkkkkk"
       (Py.VStr "tok"))
    "POST" "/x"
    (Py.VStr ("{" +:+ String dquote ("a" +:+ String dquote ": 1}")))
  = Py.Ok (Headers "id"
      "5A30B8DB0FC82AE47FC52FC4BCC0C1901FE821D46B65BEA04F11D7167F02E479"
      "1700000000000" "HMAC-SHA256" "tok").
Proof. vm_compute. reflexivity. Qed.

(** * Properties *)

(** ** Strings and digests *)

Lemma app_cons (c : ascii) (s1 s2 : string) :
  String c s1 +:+ s2 = String c (s1 +:+ s2).
Proof. reflexivity. Qed.

Lemma app_assoc_str (s1 s2 s3 : string) :
  (s1 +:+ s2) +:+ s3 = s1 +:+ s2 +:+ s3.
Proof.
  induction s1 as [|c s1 IH]; [reflexivity|].
  rewrite !app_cons. f_equal. exact IH.
Qed.

Lemma app_empty_r (s : string) : s +:+ EmptyString = s.
Proof.
  induction s as [|c s IH]; [reflexivity|].
  rewrite app_cons. f_equal. exact IH.
Qed.

Lemma length_hex (bs : Bytes.bytes) :
  String.length (Bytes.hex bs) = (2 * length bs)%nat.
Proof.
  induction bs as [|b bs IH]; simpl; [reflexivity|].
  rewrite IH. lia.
Qed.

Lemma length_upper (s : string) :
  String.length (Bytes.upper s) = String.length s.
Proof. induction s as [|c s IH]; simpl; congruence. Qed.

Lemma hex_digit_upper (k : nat) :
  Bytes.is_upper_hex (Bytes.upper_ascii (nth k Bytes.hex_digits "0"%char))
  = true.
Proof.
  unfold Bytes.hex_digits.
  do 16 (destruct k as [|k]; [reflexivity|]).
  destruct k; reflexivity.
Qed.

Lemma upper_hex_is_upper_hex (bs : Bytes.bytes) :
  Bytes.all_chars Bytes.is_upper_hex (Bytes.upper (Bytes.hex bs)) = true.
Proof.
  induction bs as [|b bs IH]; [reflexivity|].
  cbn [Bytes.hex Bytes.upper Bytes.all_chars].
  unfold Bytes.hex_digit. rewrite !hex_digit_upper. exact IH.
Qed.

Lemma length_sha256_digest (msg : Bytes.bytes) :
  length (SHA256.digest msg) = 32%nat.
Proof. reflexivity. Qed.

Lemma length_hmac_digest (key msg : Bytes.bytes) :
  length (HMAC.digest key msg) = 32%nat.
Proof. apply length_sha256_digest. Qed.

Lemma signature_of_shape (secret access token ms canon : string) :
  String.length (signature_of secret access token ms canon) = 64%nat
  /\ Bytes.all_chars Bytes.is_upper_hex
       (signature_of secret access token ms canon) = true.
Proof.
  unfold signature_of, HMAC.hexdigest. split.
  - rewrite length_upper, length_hex, length_hmac_digest. reflexivity.
  - apply upper_hex_is_upper_hex.
Qed.

(** ** C1: the signer *)

Lemma str_to_sign_canonical (json_dumps : Py.value -> string)
    (method path : string) (b : body_arg) :
  str_to_sign json_dumps method path (body_value b)
  = Py.Ok (canonical method
             (SHA256.hexdigest (Bytes.encode (body_text json_dumps b))) path).
Proof.
  unfold str_to_sign, canonical.
  destruct b as [|s|d]; [|destruct s as [|c s]|destruct d as [|kv d]];
    cbn [body_value body_text Py.truthy String.eqb negb length Nat.eqb
         body_content Py.isinstance_dict Py.rbind Bytes.encode];
    rewrite !app_assoc_str; reflexivity.
Qed.

Lemma token_or_empty_value (tok : option string) :
  token_or_empty (token_value tok) = Py.Ok (default EmptyString tok).
Proof.
  destruct tok as [[|c s]|]; reflexivity.
Qed.

(** C1 (as the code has it): the canonical string is method, line feed,
    hex SHA-256 of the body text (of the empty byte string for an absent
    or empty body), line feed, ONE line feed for the empty header block,
    then the path; the signature is the uppercase hexadecimal
    HMAC-SHA-256, keyed by the access secret, of access id, token (or
    nothing), decimal millisecond timestamp and canonical string; it has
    64 characters, all of them among 0-9 and A-F, and depends on the
    clock only through the timestamp given. *)
Theorem C1_sign_request (json_dumps : Py.value -> string) (ms : Z)
    (ep id secret : string) (tok : option string)
    (method path : string) (b : body_arg) :
  let canon :=
    canonical method
      (SHA256.hexdigest (Bytes.encode (body_text json_dumps b))) path in
  let tk := default EmptyString tok in
  str_to_sign json_dumps method path (body_value b) = Py.Ok canon
  /\ exists h,
       sign_request_at json_dumps ms (API ep id secret (token_value tok))
         method path (body_value b) = Py.Ok h
       /\ sign h = signature_of secret id tk (pretty ms) canon
       /\ t h = pretty ms
       /\ client_id h = id
       /\ access_token h = tk
       /\ sign_method h = "HMAC-SHA256"
       /\ String.length (sign h) = 64%nat
       /\ Bytes.all_chars Bytes.is_upper_hex (sign h) = true.
Proof.
  intros canon tk. split; [apply str_to_sign_canonical|].
  unfold sign_request_at.
  rewrite str_to_sign_canonical.
  cbn [Py.rbind token]. rewrite token_or_empty_value.
  cbn [Py.rbind access_id access_key].
  eexists. split; [reflexivity|].
  cbn [sign t client_id access_token sign_method].
  fold tk. fold canon.
  change (Bytes.upper _) with (signature_of secret id tk (pretty ms) canon).
  pose proof (signature_of_shape secret id tk (pretty ms) canon) as [Hl Hh].
  repeat split; assumption.
Qed.

(** C1, as stated, fails: with three line feeds between the hash and the
    path the signature of the token request differs from the one the
    code sends. *)
Lemma C1_three_line_feeds_refuted :
  let path := "/v1.0/token?grant_type=1" in
  let ms := 1700000000000 in
  ~ exists h,
      sign_request_at dumps_basic ms (API ENDPOINT "id" "key" Py.VNone)
        "GET" path Py.VNone = Py.Ok h
      /\ sign h = signature_of "key" "id" EmptyString (pretty ms)
                    (spec_canonical "GET" (SHA256.hexdigest []) path).
Proof.
  intros path ms [h [Hh Hs]].
  vm_compute in Hh. injection Hh as <-.
  vm_compute in Hs. discriminate Hs.
Qed.

(** ** The extractor on one point *)

Lemma temperature_code_in (c : string) :
  In c temperature_codes ->
  Py.in_strs (Py.VStr c) temperature_codes = true.
Proof.
  intros [<- | [<- | [<- | []]]]; reflexivity.
Qed.

Lemma humidity_code_in (c : string) :
  In c humidity_codes ->
  Py.in_strs (Py.VStr c) temperature_codes = false
  /\ Py.in_strs (Py.VStr c) humidity_codes = true.
Proof.
  intros [<- | [<- | [<- | []]]]; split; reflexivity.
Qed.

Lemma get_point_code (c : string) (v : Py.value) :
  Py.get (point c v) "code" = Py.Ok (Py.VStr c).
Proof. reflexivity. Qed.

Lemma get_point_value (c : string) (v : Py.value) :
  Py.get (point c v) "value" = Py.Ok v.
Proof. reflexivity. Qed.

Lemma extract_step_temperature (c : string) (v : Py.value)
    (st : Py.value * Py.value) :
  In c temperature_codes ->
  extract_step st (point c v)
  = if Py.isinstance_int_float v then
      Py.rbind (if Py.gt_int (Py.abs v) 50 then Py.truediv_float v ten
                else Py.Ok v)
               (fun temp => Py.Ok (temp, snd st))
    else Py.Ok (v, snd st).
Proof.
  intros Hc. unfold extract_step.
  rewrite get_point_code, get_point_value. cbn [Py.rbind].
  rewrite (temperature_code_in c Hc). reflexivity.
Qed.

Lemma extract_step_humidity (c : string) (v : Py.value)
    (st : Py.value * Py.value) :
  In c humidity_codes ->
  extract_step st (point c v)
  = if Py.isinstance_int_float v then
      Py.rbind (if Py.gt_int v 100 then Py.truediv_float v ten
                else Py.Ok v)
               (fun humidity => Py.Ok (fst st, humidity))
    else Py.Ok (fst st, v).
Proof.
  intros Hc. unfold extract_step.
  rewrite get_point_code, get_point_value. cbn [Py.rbind].
  destruct (humidity_code_in c Hc) as [-> ->]. reflexivity.
Qed.

Lemma extract_status1 (c : string) (v : Py.value) :
  extract_temp_humidity (status1 c v)
  = Py.rbind (extract_step (Py.VNone, Py.VNone) (point c v))
             (fun st => Py.Ok st).
Proof.
  unfold extract_temp_humidity, status1. cbn [Py.iter Py.rbind extract_loop].
  destruct (extract_step _ _); reflexivity.
Qed.

Lemma truediv_converts (v : Py.value) :
  Py.isinstance_int_float v = true ->
  converts v = true ->
  Py.truediv_float v ten = Py.Ok (tenth v).
Proof.
  intros Hn Hc. destruct v as [|b|z|f|s|l|d]; try discriminate Hn.
  - destruct b; reflexivity.
  - unfold converts, Py.float_of_int in Hc.
    unfold Py.truediv_float, Py.float_of_int, tenth, to_float, Py.small_float.
    destruct (Py.is_infinity _); [discriminate Hc|reflexivity].
  - reflexivity.
Qed.

Lemma gt_int_abs (v : Py.value) (n : Z) :
  Py.isinstance_int_float v = true ->
  Py.gt_int (Py.abs v) n = abs_exceeds v n.
Proof.
  intros Hn. destruct v as [|b|z|f|s|l|d]; try discriminate Hn; reflexivity.
Qed.

Lemma gt_int_exceeds (v : Py.value) (n : Z) : Py.gt_int v n = exceeds v n.
Proof. destruct v; reflexivity. Qed.

Lemma temperature_of_number (c : string) (v : Py.value) :
  In c temperature_codes ->
  Py.isinstance_int_float v = true ->
  converts v = true ->
  extract_temp_humidity (status1 c v) = Py.Ok (spec_temperature v, Py.VNone).
Proof.
  intros Hc Hn Hv.
  rewrite extract_status1, (extract_step_temperature c v _ Hc), Hn.
  rewrite (gt_int_abs v 50 Hn). unfold spec_temperature.
  destruct (abs_exceeds v 50); [|reflexivity].
  rewrite (truediv_converts v Hn Hv). reflexivity.
Qed.

Lemma humidity_of_number (c : string) (v : Py.value) :
  In c humidity_codes ->
  Py.isinstance_int_float v = true ->
  extract_temp_humidity (status1 c v)
  = if exceeds v 100 then
      Py.rbind (Py.truediv_float v ten) (fun h => Py.Ok (Py.VNone, h))
    else Py.Ok (Py.VNone, v).
Proof.
  intros Hc Hn.
  rewrite extract_status1, (extract_step_humidity c v _ Hc), Hn.
  rewrite gt_int_exceeds.
  destruct (exceeds v 100); [|reflexivity].
  destruct (Py.truediv_float v ten); reflexivity.
Qed.

Lemma truediv_is_tenth (v r : Py.value) :
  Py.truediv_float v ten = Py.Ok r -> r = tenth v.
Proof.
  destruct v as [|b|z|f|s|l|d]; cbn [Py.truediv_float]; try discriminate.
  - destruct b; intros [= <-]; reflexivity.
  - unfold Py.float_of_int, tenth, to_float, Py.small_float.
    destruct (Py.is_infinity _); [discriminate|].
    intros [= <-]. reflexivity.
  - intros [= <-]. reflexivity.
Qed.

(** ** C2: temperature scaling *)

(** C2 (as the code has it): for a recognized temperature code, a numeric
    value that converts to a float (every float and boolean, every
    integer that does not round beyond the largest float) comes out as
    [v / 10] when its absolute value exceeds 50 and unchanged otherwise;
    235 gives 23.5, 23 gives 23 and -60 gives -6.0; a value that is not a
    number passes through unchanged. *)
Theorem C2_temperature_scaling (c : string) (v : Py.value) :
  In c temperature_codes ->
  (Py.isinstance_int_float v = true -> converts v = true ->
   extract_temp_humidity (status1 c v)
   = Py.Ok (spec_temperature v, Py.VNone))
  /\ (Py.isinstance_int_float v = false ->
      extract_temp_humidity (status1 c v) = Py.Ok (v, Py.VNone))
  /\ extract_temp_humidity (status1 c (Py.VInt 235))
     = Py.Ok (Py.VFloat f_23_5, Py.VNone)
  /\ Py.denotes f_23_5 47 2
  /\ extract_temp_humidity (status1 c (Py.VInt 23))
     = Py.Ok (Py.VInt 23, Py.VNone)
  /\ extract_temp_humidity (status1 c (Py.VInt (-60)))
     = Py.Ok (Py.VFloat f_m6, Py.VNone)
  /\ Py.denotes f_m6 (-6) 1.
Proof.
  intros Hc. repeat split.
  - intros Hn Hv. apply temperature_of_number; assumption.
  - intros Hn.
    rewrite extract_status1, (extract_step_temperature c v _ Hc), Hn.
    reflexivity.
  - rewrite (temperature_of_number c (Py.VInt 235) Hc); reflexivity.
  - rewrite (temperature_of_number c (Py.VInt 23) Hc); reflexivity.
  - rewrite (temperature_of_number c (Py.VInt (-60)) Hc); reflexivity.
Qed.

Lemma C2_temperature_scaling_witness :
  extract_temp_humidity (status1 "temp_current" (Py.VInt 235))
  = Py.Ok (spec_temperature (Py.VInt 235), Py.VNone).
Proof.
  refine (proj1 (C2_temperature_scaling "temp_current" (Py.VInt 235) _) _ _).
  - left. reflexivity.
  - reflexivity.
  - reflexivity.
Defined.

(** C2, as stated, fails: the integer 2^1024 is numeric and exceeds 50 in
    absolute value, yet the extractor returns nothing: the division
    raises [OverflowError]. *)
Lemma C2_huge_integer_raises :
  Py.isinstance_int_float (Py.VInt (2 ^ 1024)) = true
  /\ abs_exceeds (Py.VInt (2 ^ 1024)) 50 = true
  /\ extract_temp_humidity (status1 "temp_current" (Py.VInt (2 ^ 1024)))
     = Py.Raise Py.OverflowError
  /\ ~ exists r,
         extract_temp_humidity (status1 "temp_current" (Py.VInt (2 ^ 1024)))
         = Py.Ok r.
Proof.
  assert (H : extract_temp_humidity
                (status1 "temp_current" (Py.VInt (2 ^ 1024)))
              = Py.Raise Py.OverflowError) by (vm_compute; reflexivity).
  repeat split; try (vm_compute; reflexivity); try exact H.
  intros [r Hr]. rewrite H in Hr. discriminate Hr.
Qed.

(** ** C3: humidity scaling *)

(** C3: for a recognized humidity code, a numeric value that does not
    exceed 100 comes out unchanged, whatever its sign; the output differs
    from the input only when the value exceeds 100, and is then [v / 10];
    455 gives 45.5, 45 gives 45 and -150 gives -150, whereas a
    temperature code turns -150 into -15.0. *)
Theorem C3_humidity_scaling (c : string) (v : Py.value) :
  In c humidity_codes ->
  Py.isinstance_int_float v = true ->
  (exceeds v 100 = false ->
   extract_temp_humidity (status1 c v) = Py.Ok (Py.VNone, v))
  /\ (exceeds v 100 = true -> converts v = true ->
      extract_temp_humidity (status1 c v) = Py.Ok (Py.VNone, tenth v))
  /\ (forall t h,
        extract_temp_humidity (status1 c v) = Py.Ok (t, h) ->
        h <> v -> exceeds v 100 = true /\ h = tenth v)
  /\ extract_temp_humidity (status1 c (Py.VInt 455))
     = Py.Ok (Py.VNone, Py.VFloat f_45_5)
  /\ Py.denotes f_45_5 91 2
  /\ extract_temp_humidity (status1 c (Py.VInt 45))
     = Py.Ok (Py.VNone, Py.VInt 45)
  /\ extract_temp_humidity (status1 c (Py.VInt (-150)))
     = Py.Ok (Py.VNone, Py.VInt (-150))
  /\ (forall ct, In ct temperature_codes ->
        extract_temp_humidity (status1 ct (Py.VInt (-150)))
        = Py.Ok (Py.VFloat f_m15, Py.VNone)
        /\ Py.denotes f_m15 (-15) 1).
Proof.
  intros Hc Hn. repeat split.
  - intros He. rewrite (humidity_of_number c v Hc Hn), He. reflexivity.
  - intros He Hv. rewrite (humidity_of_number c v Hc Hn), He.
    rewrite (truediv_converts v Hn Hv). reflexivity.
  - rewrite (humidity_of_number c v Hc Hn) in H.
    destruct (exceeds v 100); [reflexivity|].
    injection H as _ Hh. congruence.
  - rewrite (humidity_of_number c v Hc Hn) in H.
    destruct (exceeds v 100).
    + destruct (Py.truediv_float v ten) as [r|e] eqn:Hd; [|discriminate H].
      injection H as _ Hh. subst h. apply truediv_is_tenth. exact Hd.
    + injection H as _ Hh. congruence.
  - rewrite (humidity_of_number c (Py.VInt 455) Hc); reflexivity.
  - rewrite (humidity_of_number c (Py.VInt 45) Hc); reflexivity.
  - rewrite (humidity_of_number c (Py.VInt (-150)) Hc); reflexivity.
  - rewrite (temperature_of_number ct (Py.VInt (-150))); auto.
Qed.

Lemma C3_humidity_scaling_witness :
  extract_temp_humidity (status1 "humidity" (Py.VInt (-150)))
  = Py.Ok (Py.VNone, Py.VInt (-150)).
Proof.
  refine (proj1 (C3_humidity_scaling "humidity" (Py.VInt (-150)) _ _) _).
  - right. left. reflexivity.
  - reflexivity.
  - reflexivity.
Defined.

(** ** C10: points without a code or without a value *)

Lemma extract_step_no_code (d : list (string * Py.value))
    (st : Py.value * Py.value) :
  Py.assoc "code" d = None ->
  extract_step st (Py.VDict d) = Py.Ok st.
Proof.
  intros Hd. unfold extract_step. cbn [Py.get]. rewrite Hd.
  reflexivity.
Qed.

Lemma extract_step_no_value (d : list (string * Py.value))
    (st : Py.value * Py.value) :
  Py.assoc "value" d = None ->
  extract_step st (Py.VDict d)
  = Py.Ok (reset_by (default Py.VNone (Py.assoc "code" d)) st).
Proof.
  intros Hd. unfold extract_step, reset_by. cbn [Py.get]. rewrite Hd.
  cbn [Py.rbind default Py.isinstance_int_float].
  destruct (Py.in_strs _ temperature_codes); [reflexivity|].
  destruct (Py.in_strs _ humidity_codes); reflexivity.
Qed.

Lemma reset_by_none (code : Py.value) :
  reset_by code (Py.VNone, Py.VNone) = (Py.VNone, Py.VNone).
Proof.
  unfold reset_by.
  destruct (Py.in_strs code temperature_codes); [reflexivity|].
  destruct (Py.in_strs code humidity_codes); reflexivity.
Qed.

Lemma extract_loop_malformed (ds : list (list (string * Py.value))) :
  Forall (fun d => Py.assoc "code" d = None \/ Py.assoc "value" d = None) ds ->
  extract_loop (Py.VNone, Py.VNone) (map Py.VDict ds)
  = Py.Ok (Py.VNone, Py.VNone).
Proof.
  induction 1 as [|d ds Hd _ IH]; [reflexivity|].
  cbn [map extract_loop].
  destruct Hd as [Hd | Hd].
  - rewrite (extract_step_no_code d _ Hd). exact IH.
  - rewrite (extract_step_no_value d _ Hd), reset_by_none. exact IH.
Qed.

(** C10 (as the code has it): a point without the code key raises no
    exception and leaves both outputs unchanged; a point without the
    value key raises no exception either, and resets to [None] the output
    its code names (temperature or humidity), leaving the outputs
    unchanged only when the code is not recognized; a status made of
    such points alone yields (None, None). *)
Theorem C10_malformed_points (d : list (string * Py.value))
    (st : Py.value * Py.value) :
  (Py.assoc "code" d = None -> extract_step st (Py.VDict d) = Py.Ok st)
  /\ (Py.assoc "value" d = None ->
      extract_step st (Py.VDict d)
      = Py.Ok (reset_by (default Py.VNone (Py.assoc "code" d)) st))
  /\ (forall ds,
        Forall (fun d => Py.assoc "code" d = None
                         \/ Py.assoc "value" d = None) ds ->
        extract_temp_humidity (Py.VList (map Py.VDict ds))
        = Py.Ok (Py.VNone, Py.VNone)).
Proof.
  split; [apply extract_step_no_code|].
  split; [apply extract_step_no_value|].
  intros ds Hds. unfold extract_temp_humidity. cbn [Py.iter Py.rbind].
  apply extract_loop_malformed. exact Hds.
Qed.

Lemma C10_malformed_points_witness :
  extract_step (Py.VInt 23, Py.VInt 45) (Py.VDict [("value", Py.VInt 7)])
  = Py.Ok (Py.VInt 23, Py.VInt 45)
  /\ extract_step (Py.VInt 23, Py.VInt 45)
       (Py.VDict [("code", Py.VStr "humidity")])
     = Py.Ok (Py.VInt 23, Py.VNone).
Proof.
  split.
  - refine (proj1 (C10_malformed_points [("value", Py.VInt 7)] _) _).
    reflexivity.
  - refine (proj1 (proj2 (C10_malformed_points
                            [("code", Py.VStr "humidity")]
                            (Py.VInt 23, Py.VInt 45))) _).
    reflexivity.
Defined.

(** C10, as stated, fails: a point that names a temperature code and has
    no value does not leave the temperature unchanged: the 23 read from
    the point before it is lost. *)
Lemma C10_missing_value_overwrites :
  let dp := Py.VDict [("code", Py.VStr "temperature")] in
  extract_temp_humidity (Py.VList [point "temperature" (Py.VInt 23)])
  = Py.Ok (Py.VInt 23, Py.VNone)
  /\ extract_temp_humidity (Py.VList [point "temperature" (Py.VInt 23); dp])
     = Py.Ok (Py.VNone, Py.VNone)
  /\ extract_step (Py.VInt 23, Py.VNone) dp <> Py.Ok (Py.VInt 23, Py.VNone).
Proof.
  repeat split; try reflexivity.
  vm_compute. discriminate.
Qed.

(** ** C8: the CSV append *)

Section Csv.
Variable py_str : Py.value -> string.
Variable env : environment.

Lemma write_rows_data_lines (written : string) (rows : list reading) :
  write_rows py_str written rows = written +:+ data_lines py_str rows.
Proof.
  revert written. induction rows as [|r rows IH]; intros written.
  - cbn [write_rows data_lines]. symmetry. apply app_empty_r.
  - cbn [write_rows data_lines]. rewrite IH. apply app_assoc_str.
Qed.

Lemma append_to_csv_opened (p : string) (rows : list reading) (w : world) :
  os_error env (Open p "a") = None ->
  append_to_csv py_str env p rows w
  = (Py.Ok tt,
     World (<[p := appended py_str (fs w !! p) rows]> (fs w))
           (console w) (ticks w) (sent w)).
Proof.
  intros Hopen.
  unfold append_to_csv, Run.bind, Run.get_fs, os, Run.put_fs.
  rewrite Hopen. cbn [Run.ret fs console ticks sent].
  rewrite write_rows_data_lines.
  destruct (fs w !! p) as [old|] eqn:Hp; cbn [appended default].
  - rewrite bool_decide_eq_true_2 by eauto. reflexivity.
  - rewrite bool_decide_eq_false_2 by (intros [? ?]; discriminate).
    reflexivity.
Qed.

Lemma append_to_csv_refused (p : string) (rows : list reading) (w : world)
    (msg : string) :
  os_error env (Open p "a") = Some msg ->
  append_to_csv py_str env p rows w = (Py.Raise (Py.LibraryError msg), w).
Proof.
  intros Hopen.
  unfold append_to_csv, Run.bind, Run.get_fs, os.
  rewrite Hopen. reflexivity.
Qed.

(** The line written for a reading is its text followed by a line
    feed. *)
Lemma csv_line_row_text (r : reading) :
  csv_line py_str r = row_text py_str r +:+ nl.
Proof.
  unfold csv_line, row_text. rewrite !app_assoc_str. reflexivity.
Qed.

Lemma data_lines_unlines (rows : list reading) :
  data_lines py_str rows = unlines (map (row_text py_str) rows).
Proof.
  induction rows as [|r rows IH]; [reflexivity|].
  cbn [data_lines map unlines].
  rewrite csv_line_row_text, IH. apply app_assoc_str.
Qed.

(** C8: when the file can be opened, the append writes the header line
    only if the file did not exist, then one line per reading, in order:
    the timestamp, the device id, the temperature and the humidity
    separated by commas, followed by a line feed; the other files are
    untouched; a second append to the same file adds its lines after
    those of the first, without a second header. *)
Theorem C8_csv_append (p : string) (rows rows2 : list reading) (w : world) :
  os_error env (Open p "a") = None ->
  let lines := map (row_text py_str) rows in
  let lines2 := map (row_text py_str) rows2 in
  let run1 := append_to_csv py_str env p rows w in
  let run2 := append_to_csv py_str env p rows2 (snd run1) in
  csv_header
  = "timestamp,device_id,temperature_c,humidity_percent" +:+ nl
  /\ (forall r,
        row_text py_str r
        = timestamp r +:+ "," +:+ device_id r +:+ ","
            +:+ py_str (temperature_c r) +:+ ","
            +:+ py_str (humidity_percent r))
  /\ length lines = length rows
  /\ fst run1 = Py.Ok tt
  /\ (fs w !! p = None ->
      fs (snd run1) !! p = Some (csv_header +:+ unlines lines))
  /\ (forall old, fs w !! p = Some old ->
      fs (snd run1) !! p = Some (old +:+ unlines lines))
  /\ (forall q, q <> p -> fs (snd run1) !! q = fs w !! q)
  /\ fst run2 = Py.Ok tt
  /\ (fs w !! p = None ->
      fs (snd run2) !! p
      = Some (csv_header +:+ unlines lines +:+ unlines lines2)).
Proof.
  intros Hopen lines lines2 run1 run2. subst run2 run1 lines lines2.
  rewrite (append_to_csv_opened p rows w Hopen). cbn [fst snd].
  rewrite (append_to_csv_opened p rows2 _ Hopen). cbn [fst snd fs].
  rewrite <- !data_lines_unlines.
  split; [reflexivity|]. split; [intros r; reflexivity|].
  split; [apply length_map|]. split; [reflexivity|].
  split; [intros Hp; rewrite lookup_insert_eq, Hp; reflexivity|].
  split; [intros old Hp; rewrite lookup_insert_eq, Hp; reflexivity|].
  split; [intros q Hq; apply lookup_insert_ne; congruence|].
  split; [reflexivity|].
  intros Hp. rewrite !lookup_insert_eq, Hp. cbn [appended].
  rewrite app_assoc_str. reflexivity.
Qed.

End Csv.

Lemma C8_csv_append_witness :
  let r1 := Reading "2024-01-02 03:04:05" "bf7ecfc010164c849dwpqp"
              (Py.VInt 23) (Py.VInt 45) in
  let r2 := Reading "2024-01-02 09:00:00" "bf7ecfc010164c849dwpqp"
              (Py.VInt 24) (Py.VInt 44) in
  let p := csv_path_of "20240102" in
  fs (snd (append_to_csv str_basic sample_env p [r2]
             (snd (append_to_csv str_basic sample_env p [r1] empty_world))))
    !! p
  = Some ("timestamp,device_id,temperature_c,humidity_percent" +:+ nl
          +:+ "2024-01-02 03:04:05,bf7ecfc010164c849dwpqp,23,45" +:+ nl
          +:+ "2024-01-02 09:00:00,bf7ecfc010164c849dwpqp,24,44" +:+ nl).
Proof.
  intros r1 r2 p.
  refine (eq_trans
            (proj2 (proj2 (proj2 (proj2 (proj2 (proj2 (proj2 (proj2
               (C8_csv_append str_basic sample_env p [r1] [r2] empty_world
                  eq_refl)))))))) eq_refl)
            _).
  vm_compute. reflexivity.
Defined.

(** ** Computations that keep a relation on the world *)

Section Keeps.
Context {S : Type} (R : world -> world -> Prop) (wof : S -> world).
Context `{!Reflexive R, !Transitive R}.

Lemma keeps_ret {A} (a : A) : keeps R wof (Run.ret a).
Proof. intros s. reflexivity. Qed.

Lemma keeps_raise {A} (e : Py.exn) : keeps R wof (@Run.raise S A e).
Proof. intros s. reflexivity. Qed.

Lemma keeps_lift {A} (r : Py.result A) : keeps R wof (Run.lift r).
Proof. intros s. reflexivity. Qed.

Lemma keeps_bind {A B} (m : Run.M S A) (k : A -> Run.M S B) :
  keeps R wof m -> (forall a, keeps R wof (k a)) ->
  keeps R wof (Run.bind m k).
Proof.
  intros Hm Hk s. unfold Run.bind. specialize (Hm s).
  destruct (m s) as [[a|e] s']; cbn [snd] in *.
  - transitivity (wof s'); [exact Hm | apply Hk].
  - exact Hm.
Qed.

Lemma keeps_try {A} (m : Run.M S A) (h : Py.exn -> Run.M S A) :
  keeps R wof m -> (forall e, keeps R wof (h e)) ->
  keeps R wof (Run.try_except m h).
Proof.
  intros Hm Hh s. unfold Run.try_except. specialize (Hm s).
  destruct (m s) as [[a|e] s']; cbn [snd] in *.
  - exact Hm.
  - transitivity (wof s'); [exact Hm | apply Hh].
Qed.

End Keeps.

Section KeepsClient.
Context (R : world -> world -> Prop) `{!Reflexive R, !Transitive R}.

Lemma keeps_on_world {A} (m : Run.M world A) :
  keeps R (fun w => w) m -> keeps R snd (Run.on_world m).
Proof.
  intros Hm [api w]. unfold Run.on_world. cbn [snd fst].
  specialize (Hm w). destruct (m w) as [r w']. exact Hm.
Qed.

Lemma keeps_self : keeps R snd Run.self.
Proof. intros s. reflexivity. Qed.

Lemma keeps_set_token (v : Py.value) : keeps R snd (Run.set_token v).
Proof. intros s. reflexivity. Qed.

Lemma keeps_with_api {A} (api : SimpleTuyaAPI)
    (m : Run.M (SimpleTuyaAPI * world) A) :
  keeps R snd m -> keeps R (fun w => w) (with_api api m).
Proof.
  intros Hm w. unfold with_api. specialize (Hm (api, w)).
  destruct (m (api, w)) as [r s]. exact Hm.
Qed.

End KeepsClient.

(** *** Nothing written, nothing posted *)

Global Instance quiet_refl : Reflexive quiet.
Proof. intros w. split; reflexivity. Qed.

Global Instance quiet_trans : Transitive quiet.
Proof. intros a b c [H1 H2] [H3 H4]. split; congruence. Qed.

Lemma posts_of_app (l1 l2 : list request) :
  posts_of (l1 ++ l2) = posts_of l1 ++ posts_of l2.
Proof.
  induction l1 as [|[u h|u b] l1 IH]; cbn [posts_of app]; [reflexivity|exact IH|].
  rewrite IH. reflexivity.
Qed.

Lemma quiet_print (line : string) :
  keeps quiet (fun w => w) (Run.print line).
Proof. intros w. split; reflexivity. Qed.

Lemma quiet_tick : keeps quiet (fun w => w) Run.tick.
Proof. intros w. split; reflexivity. Qed.

Lemma quiet_send_get (url : string) (h : headers) :
  keeps quiet (fun w => w) (Run.send (GET url h)).
Proof.
  intros w. split; [reflexivity|]. cbn [Run.send snd sent].
  rewrite posts_of_app. cbn [posts_of]. apply app_nil_r.
Qed.

Ltac keeps_lemma l := apply l; try exact _.

Ltac keeps_step :=
  first
    [ keeps_lemma @keeps_ret; fail
    | keeps_lemma @keeps_raise; fail
    | keeps_lemma @keeps_lift; fail
    | keeps_lemma @keeps_self; fail
    | keeps_lemma @keeps_set_token; fail
    | apply quiet_print
    | apply quiet_tick
    | apply quiet_send_get
    | keeps_lemma @keeps_on_world
    | keeps_lemma @keeps_with_api
    | keeps_lemma @keeps_bind; [|intros ?]
    | keeps_lemma @keeps_try; [|intros ?]
    | match goal with
      | |- keeps _ _ (if ?b then _ else _) => destruct b
      | |- keeps _ _ (match ?x with _ => _ end) => destruct x
      end ].

Section Quiet.
Variable json_dumps : Py.value -> string.
Variable py_str : Py.value -> string.
Variable env : environment.

Lemma quiet_sign_request (method path : string) (body : Py.value) :
  keeps quiet snd (_sign_request json_dumps env method path body).
Proof. unfold _sign_request. repeat keeps_step. Qed.

Lemma quiet_http_get (url : string) (h : headers) :
  keeps quiet (fun w => w) (http_get env url h).
Proof. unfold http_get. repeat keeps_step. Qed.

Lemma quiet_api_get (path : string) :
  keeps quiet snd (api_get json_dumps env path).
Proof.
  unfold api_get.
  keeps_lemma @keeps_bind; [apply quiet_sign_request|intros h].
  keeps_lemma @keeps_bind; [repeat keeps_step|intros api].
  keeps_lemma @keeps_bind;
    [keeps_lemma @keeps_on_world; apply quiet_http_get|intros r].
  repeat keeps_step.
Qed.

Lemma quiet_connect : keeps quiet snd (connect json_dumps py_str env).
Proof.
  unfold connect.
  keeps_lemma @keeps_bind; [apply quiet_sign_request|intros h].
  keeps_lemma @keeps_bind; [repeat keeps_step|intros api].
  keeps_lemma @keeps_bind;
    [keeps_lemma @keeps_on_world; apply quiet_http_get|intros r].
  repeat keeps_step.
Qed.

Lemma quiet_fetch_device (ts : string) (rs : list reading) (dev : string) :
  keeps quiet snd (fetch_device json_dumps py_str env ts rs dev).
Proof.
  unfold fetch_device.
  keeps_lemma @keeps_bind; [repeat keeps_step|intros _].
  keeps_lemma @keeps_bind; [apply quiet_api_get|intros r].
  repeat keeps_step.
Qed.

Lemma quiet_fetch_devices (ts : string) (devs : list string)
    (rs : list reading) :
  keeps quiet snd (fetch_devices json_dumps py_str env ts rs devs).
Proof.
  revert rs. induction devs as [|dev devs IH]; intros rs;
    cbn [fetch_devices].
  - repeat keeps_step.
  - keeps_lemma @keeps_bind; [apply quiet_fetch_device|intros rs'].
    apply IH.
Qed.

Lemma quiet_gather :
  keeps quiet (fun w => w) (gather json_dumps py_str env).
Proof.
  unfold gather.
  keeps_lemma @keeps_bind; [apply quiet_tick|intros n].
  unfold gather_at.
  keeps_lemma @keeps_bind; [apply quiet_print|intros _].
  destruct (negb (present (TUYA_ACCESS_ID env))
            || negb (present (TUYA_ACCESS_KEY env))).
  - repeat keeps_step.
  - keeps_lemma @keeps_bind; [apply quiet_print|intros _].
    keeps_lemma @keeps_with_api.
    keeps_lemma @keeps_bind; [apply quiet_connect|intros c].
    destruct (negb c); [repeat keeps_step|].
    keeps_lemma @keeps_bind; [repeat keeps_step|intros _].
    keeps_lemma @keeps_bind; [apply quiet_fetch_devices|intros rs].
    repeat keeps_step.
Qed.

End Quiet.

(** ** Values returned *)

Section Yields.
Context {S : Type}.

Lemma bind_ok {A B} (m : Run.M S A) (k : A -> Run.M S B) (s s' : S) (a : A) :
  m s = (Py.Ok a, s') -> Run.bind m k s = k a s'.
Proof. intros H. unfold Run.bind. rewrite H. reflexivity. Qed.

Lemma bind_raise {A B} (m : Run.M S A) (k : A -> Run.M S B) (s s' : S)
    (e : Py.exn) :
  m s = (Py.Raise e, s') -> Run.bind m k s = (Py.Raise e, s').
Proof. intros H. unfold Run.bind. rewrite H. reflexivity. Qed.

Lemma yields_ret {A} (P : A -> Prop) (a : A) :
  P a -> yields P (@Run.ret S A a).
Proof. intros Ha s a' s' [= <- _]. exact Ha. Qed.

Lemma yields_bind {A B} (Q : A -> Prop) (P : B -> Prop)
    (m : Run.M S A) (k : A -> Run.M S B) :
  yields Q m -> (forall a, Q a -> yields P (k a)) ->
  yields P (Run.bind m k).
Proof.
  intros Hm Hk s b s'. unfold Run.bind.
  destruct (m s) as [[a|e] s1] eqn:Hs; [|discriminate].
  apply (Hk a (Hm s a s1 Hs)).
Qed.

Lemma yields_any {A} (m : Run.M S A) : yields (fun _ => True) m.
Proof. intros s a s' _. exact I. Qed.

End Yields.

(** ** C9: one timestamp for the whole batch *)

Section Stamps.
Variable json_dumps : Py.value -> string.
Variable py_str : Py.value -> string.
Variable env : environment.

Lemma main_gather (w : world) :
  main json_dumps py_str env w
  = Run.bind (gather json_dumps py_str env) (finish json_dumps py_str env) w.
Proof.
  unfold main, gather, gather_at, finish, Run.bind, with_api, Run.on_world,
    Run.ret, Run.print, Run.tick.
  cbn [fst snd fs console ticks sent].
  destruct (negb (present (TUYA_ACCESS_ID env))
            || negb (present (TUYA_ACCESS_KEY env))); [reflexivity|].
  destruct (connect json_dumps py_str env _) as [[[|]|e] [api1 w1]];
    cbn [negb fst snd]; try reflexivity.
  destruct (fetch_devices json_dumps py_str env _ _ _ _)
    as [[rs|e] [api2 w2]]; reflexivity.
Qed.

Lemma stamped_snoc (ts dev : string) (temp hum : Py.value)
    (rs : list reading) :
  stamped ts rs -> stamped ts (rs ++ [Reading ts dev temp hum]).
Proof.
  intros H. apply Forall_app. split; [exact H|].
  constructor; [reflexivity|constructor].
Qed.

Lemma fetch_device_stamped (ts dev : string) (rs : list reading) :
  stamped ts rs ->
  yields (stamped ts) (fetch_device json_dumps py_str env ts rs dev).
Proof.
  intros Hrs. unfold fetch_device.
  apply (yields_bind (fun _ => True)); [apply yields_any|intros _ _].
  apply (yields_bind (fun _ => True)); [apply yields_any|intros resp _].
  apply (yields_bind (fun _ => True)); [apply yields_any|intros ok _].
  destruct (negb (Py.truthy ok)).
  - apply (yields_bind (fun _ => True)); [apply yields_any|intros _ _].
    apply yields_ret. exact Hrs.
  - apply (yields_bind (fun _ => True)); [apply yields_any|intros res _].
    apply (yields_bind (fun _ => True)); [apply yields_any|intros th _].
    apply (yields_bind (stamped ts)).
    + destruct (negb (Py.is_none (fst th)) && negb (Py.is_none (snd th)));
        (apply (yields_bind (fun _ => True)); [apply yields_any|intros _ _]);
        apply yields_ret; [apply stamped_snoc|]; exact Hrs.
    + intros rs' Hrs'.
      apply (yields_bind (fun _ => True)); [apply yields_any|intros _ _].
      apply yields_ret. exact Hrs'.
Qed.

Lemma fetch_devices_stamped (ts : string) (devs : list string)
    (rs : list reading) :
  stamped ts rs ->
  yields (stamped ts) (fetch_devices json_dumps py_str env ts rs devs).
Proof.
  revert rs. induction devs as [|dev devs IH]; intros rs Hrs;
    cbn [fetch_devices].
  - apply yields_ret. exact Hrs.
  - apply (yields_bind (stamped ts)).
    + apply fetch_device_stamped. exact Hrs.
    + intros rs' Hrs'. apply IH. exact Hrs'.
Qed.

Lemma yields_with_api {A} (P : A -> Prop) (api : SimpleTuyaAPI)
    (m : Run.M (SimpleTuyaAPI * world) A) :
  yields P m -> yields P (with_api api m).
Proof.
  intros Hm w a w'. unfold with_api.
  destruct (m (api, w)) as [r s] eqn:Hs. intros [= -> _].
  exact (Hm _ _ _ Hs).
Qed.

Lemma gather_at_stamped (ts : string) :
  yields (fun g => match g with
                   | inl _ => True
                   | inr rs => stamped ts rs
                   end)
         (gather_at json_dumps py_str env ts).
Proof.
  unfold gather_at.
  apply (yields_bind (fun _ => True)); [apply yields_any|intros _ _].
  destruct (negb (present (TUYA_ACCESS_ID env))
            || negb (present (TUYA_ACCESS_KEY env))).
  - apply (yields_bind (fun _ => True)); [apply yields_any|intros _ _].
    apply (yields_bind (fun _ => True)); [apply yields_any|intros _ _].
    apply yields_ret. exact I.
  - apply (yields_bind (fun _ => True)); [apply yields_any|intros _ _].
    apply yields_with_api.
    apply (yields_bind (fun _ => True)); [apply yields_any|intros c _].
    destruct (negb c).
    + apply (yields_bind (fun _ => True)); [apply yields_any|intros _ _].
      apply yields_ret. exact I.
    + apply (yields_bind (fun _ => True)); [apply yields_any|intros _ _].
      apply (yields_bind (stamped ts)).
      * apply fetch_devices_stamped. constructor.
      * intros rs' Hrs'. apply yields_ret. exact Hrs'.
Qed.

Lemma gather_stamped (w w' : world) (rs : list reading) :
  gather json_dumps py_str env w = (Py.Ok (inr rs), w') ->
  stamped (datetime_now env (ticks w)) rs.
Proof.
  unfold gather, Run.bind, Run.tick. intros H.
  exact (gather_at_stamped _ _ _ _ H).
Qed.

End Stamps.

(** ** The output stage *)

Lemma csv_path_not_manifest (today : string) :
  csv_path_of today <> manifest_path.
Proof. unfold csv_path_of, manifest_path. intros H. discriminate H. Qed.

(** *** Computations that do not look at the console *)

Section Oblivious.









End Oblivious.


(** *** No request sent *)

Global Instance no_send_refl : Reflexive no_send.
Proof. intros w. reflexivity. Qed.

Global Instance no_send_trans : Transitive no_send.
Proof. intros a b c H1 H2. unfold no_send in *. congruence. Qed.

Lemma no_send_print (line : string) :
  keeps no_send (fun w => w) (Run.print line).
Proof. intros w. reflexivity. Qed.

Lemma no_send_tick : keeps no_send (fun w => w) Run.tick.
Proof. intros w. reflexivity. Qed.

Lemma no_send_get_fs : keeps no_send (fun w => w) Run.get_fs.
Proof. intros w. reflexivity. Qed.

Lemma no_send_put_fs (f : gmap string string) :
  keeps no_send (fun w => w) (Run.put_fs f).
Proof. intros w. reflexivity. Qed.

Ltac no_send_step :=
  first
    [ keeps_lemma @keeps_ret; fail
    | keeps_lemma @keeps_raise; fail
    | apply no_send_print
    | apply no_send_tick
    | apply no_send_get_fs
    | apply no_send_put_fs
    | keeps_lemma @keeps_bind; [|intros ?]
    | keeps_lemma @keeps_try; [|intros ?]
    | match goal with
      | |- keeps _ _ (if ?b then _ else _) => destruct b
      | |- keeps _ _ (match ?x with _ => _ end) => destruct x
      end ].

Section Outputs.
Variable json_dumps : Py.value -> string.
Variable py_str : Py.value -> string.
Variable env : environment.


Lemma no_send_os (c : os_call) : keeps no_send (fun w => w) (os env c).
Proof. unfold os. repeat no_send_step. Qed.


Lemma no_send_print_rows (rows : list reading) :
  keeps no_send (fun w => w) (print_rows py_str rows).
Proof.
  induction rows as [|r rows IH]; cbn [print_rows].
  - repeat no_send_step.
  - keeps_lemma @keeps_bind; [apply no_send_print|intros _]. exact IH.
Qed.


Lemma no_send_write_files (rows : list reading) :
  keeps no_send (fun w => w) (write_files json_dumps py_str env rows).
Proof.
  unfold write_files, ensure_dir, append_to_csv, update_manifest, listdir.
  repeat first [ apply no_send_os | apply no_send_print_rows
               | no_send_step ].
Qed.

(** *** The storage sink *)

Lemma send_to_storage_off (rows : list reading) (w : world) :
  STORAGE_URL env = EmptyString ->
  send_to_storage env rows w = (Py.Ok tt, w).
Proof.
  intros Hurl. unfold send_to_storage. rewrite Hurl. reflexivity.
Qed.

Lemma send_to_storage_raised (rows : list reading) (w : world) (e : Py.exn) :
  STORAGE_URL env <> EmptyString ->
  requests_post env (STORAGE_URL env) rows = Py.Raise e ->
  send_to_storage env rows w
  = (Py.Ok tt,
     World (fs w) (console w ++ ["Storage error: " +:+ Py.str_of_exn e])
           (ticks w) (sent w ++ [POST (STORAGE_URL env) rows])).
Proof.
  intros Hurl Hpost. unfold send_to_storage.
  destruct (String.eqb_spec (STORAGE_URL env) EmptyString) as [Heq|_];
    [contradiction|].
  cbn [negb]. unfold Run.try_except, Run.bind, Run.send, Run.lift.
  cbn [fst snd]. rewrite Hpost. reflexivity.
Qed.

Lemma send_to_storage_answered (rows : list reading) (w : world)
    (r : response) :
  STORAGE_URL env <> EmptyString ->
  requests_post env (STORAGE_URL env) rows = Py.Ok r ->
  send_to_storage env rows w
  = (Py.Ok tt,
     World (fs w)
           (console w ++ ["Sent to storage: " +:+ pretty (status_code r)])
           (ticks w) (sent w ++ [POST (STORAGE_URL env) rows])).
Proof.
  intros Hurl Hpost. unfold send_to_storage.
  destruct (String.eqb_spec (STORAGE_URL env) EmptyString) as [Heq|_];
    [contradiction|].
  cbn [negb]. unfold Run.try_except, Run.bind, Run.send, Run.lift.
  cbn [fst snd]. rewrite Hpost. reflexivity.
Qed.

(** Whatever the endpoint does, the sink returns normally and leaves the
    files and the clock as they were. *)
Lemma send_to_storage_safe (rows : list reading) (w : world) :
  fst (send_to_storage env rows w) = Py.Ok tt
  /\ same_files (snd (send_to_storage env rows w)) w.
Proof.
  destruct (String.eqb_spec (STORAGE_URL env) EmptyString) as [Heq|Hne].
  - rewrite (send_to_storage_off rows w Heq). repeat split.
  - destruct (requests_post env (STORAGE_URL env) rows) as [r|e] eqn:Hp.
    + rewrite (send_to_storage_answered rows w r Hne Hp). repeat split.
    + rewrite (send_to_storage_raised rows w e Hne Hp). repeat split.
Qed.

(** *** The files *)

Lemma ensure_dir_runs (path : string) (w : world) :
  exists c, ensure_dir env path w
            = (Py.Ok tt, World (fs w) c (ticks w) (sent w)).
Proof.
  unfold ensure_dir, Run.try_except, os.
  destruct (os_error env (Makedirs path)) as [msg|].
  - eexists. reflexivity.
  - exists (console w). destruct w. reflexivity.
Qed.

Lemma print_rows_runs (rows : list reading) (w : world) :
  exists c, print_rows py_str rows w
            = (Py.Ok tt, World (fs w) c (ticks w) (sent w)).
Proof.
  revert w. induction rows as [|r rows IH]; intros w; cbn [print_rows].
  - exists (console w). destruct w. reflexivity.
  - unfold Run.bind, Run.print. cbn [fst snd].
    destruct (IH (World (fs w)
                    (console w ++
                     [timestamp r +:+ "," +:+ device_id r +:+ ","
                      +:+ py_str (temperature_c r) +:+ ","
                      +:+ py_str (humidity_percent r)])
                    (ticks w) (sent w))) as [c Hc].
    exists c. exact Hc.
Qed.

Lemma update_manifest_runs (w : world) :
  exists f c,
    update_manifest json_dumps env "data" w
    = (Py.Ok tt, World f c (ticks w) (sent w))
    /\ forall q, q <> manifest_path -> f !! q = fs w !! q.
Proof.
  unfold update_manifest, listdir, Run.try_except, Run.bind, os, Run.get_fs,
    Run.put_fs, Run.print, Run.ret, Run.raise.
  destruct (os_error env (Listdir "data")) as [m1|]; cbn [fst snd].
  - eexists _, _. split; [reflexivity|]. intros q _. reflexivity.
  - destruct (os_error env (Open _ "w")) as [m2|]; cbn [fst snd fs].
    + eexists _, _. split; [reflexivity|]. intros q _. reflexivity.
    + eexists _, _. split; [reflexivity|]. intros q Hq.
      apply lookup_insert_ne. intros Heq. apply Hq. symmetry. exact Heq.
Qed.

Lemma bind_tick {B} (k : nat -> Run.M world B) (w : world) :
  Run.bind Run.tick k w
  = k (ticks w) (World (fs w) (console w) (Datatypes.S (ticks w)) (sent w)).
Proof. reflexivity. Qed.

Lemma bind_print {B} (line : string) (k : unit -> Run.M world B)
    (w : world) :
  Run.bind (Run.print line) k w
  = k tt (World (fs w) (console w ++ [line]) (ticks w) (sent w)).
Proof. reflexivity. Qed.


End Outputs.

(** *** Requests sent *)

Global Instance only_sends_refl (P : request -> Prop) :
  Reflexive (only_sends P).
Proof. intros w. exists []. split; [symmetry; apply app_nil_r|constructor]. Qed.

Global Instance only_sends_trans (P : request -> Prop) :
  Transitive (only_sends P).
Proof.
  intros a b c (l1 & H1 & P1) (l2 & H2 & P2). exists (l1 ++ l2). split.
  - rewrite H2, H1. symmetry. apply app_assoc.
  - apply Forall_app. split; assumption.
Qed.

Lemma no_send_only_sends (P : request -> Prop) (w w' : world) :
  no_send w w' -> only_sends P w w'.
Proof.
  intros H. exists []. split; [|constructor].
  rewrite app_nil_r. exact H.
Qed.

Lemma keeps_weaken {S A} (R R' : world -> world -> Prop) (wof : S -> world)
    (m : Run.M S A) :
  (forall w w', R w w' -> R' w w') -> keeps R wof m -> keeps R' wof m.
Proof. intros HR Hm s. apply HR, Hm. Qed.

Lemma only_sends_send (P : request -> Prop) (r : request) :
  P r -> keeps (only_sends P) (fun w => w) (Run.send r).
Proof.
  intros Hr w. exists [r]. split; [reflexivity|].
  constructor; [exact Hr|constructor].
Qed.

Section Summary.
Variable json_dumps : Py.value -> string.
Variable py_str : Py.value -> string.
Variable env : environment.

Lemma summarize_empty (w : world) :
  summarize json_dumps py_str env [] w
  = (Py.Ok 0,
     World (fs w)
       (((console w ++ ["--- Summary ---"])
         ++ ["Successfully read 0/3 devices"])
        ++ ["No readings collected; nothing to write."])
       (ticks w) (sent w)).
Proof. reflexivity. Qed.

(** The world in which the outputs are written. *)
Lemma summarize_nonempty (rs : list reading) (w : world) :
  rs <> [] ->
  exists c,
    summarize json_dumps py_str env rs w
    = Run.bind (write_outputs json_dumps py_str env rs)
        (fun _ => Run.ret 0) (World (fs w) c (ticks w) (sent w)).
Proof.
  intros Hrs. destruct rs as [|r rs]; [contradiction|].
  unfold summarize. rewrite !bind_print. cbn [fs console ticks sent].
  eexists. reflexivity.
Qed.

Lemma only_sends_summarize (rs : list reading) :
  keeps (only_sends (fun r => r = POST (STORAGE_URL env) rs)) (fun w => w)
        (summarize json_dumps py_str env rs).
Proof.
  assert (Hp : forall line,
             keeps (only_sends (fun r => r = POST (STORAGE_URL env) rs))
                   (fun w => w) (Run.print line)).
  { intros line. apply (keeps_weaken no_send); [apply no_send_only_sends|].
    apply no_send_print. }
  unfold summarize.
  keeps_lemma @keeps_bind; [apply Hp|intros _].
  keeps_lemma @keeps_bind; [apply Hp|intros _].
  keeps_lemma @keeps_bind; [|intros _; keeps_lemma @keeps_ret].
  destruct (negb (Nat.eqb (length rs) 0)); [|apply Hp].
  unfold write_outputs.
  keeps_lemma @keeps_bind.
  - unfold send_to_storage.
    destruct (negb (String.eqb (STORAGE_URL env) EmptyString));
      [|keeps_lemma @keeps_ret].
    keeps_lemma @keeps_try; [|intros e; apply Hp].
    keeps_lemma @keeps_bind; [apply only_sends_send; reflexivity|intros _].
    keeps_lemma @keeps_bind; [keeps_lemma @keeps_lift|intros r]. apply Hp.
  - intros _. apply (keeps_weaken no_send); [apply no_send_only_sends|].
    apply no_send_write_files.
Qed.

Lemma posts_of_only (url : string) (rs : list reading) (l : list request) :
  Forall (fun r => r = POST url rs) l ->
  forall u b, In (u, b) (posts_of l) -> b = rs.
Proof.
  induction 1 as [|r l Hr _ IH]; intros u b; cbn [posts_of In].
  - intros [].
  - subst r. cbn [posts_of In]. intros [[= _ <-]|Hin]; [reflexivity|].
    exact (IH u b Hin).
Qed.

(** ** C9, C7 and C6: the run as a whole *)

(** C9: when the run reaches the summary, every reading of the batch
    carries the text read from the clock by the first statement of
    [main], before anything is sent: the rest of the run receives that
    text and reads no other; and every batch the run posts is that
    batch. *)
Theorem C9_one_timestamp (w0 w : world) (rs : list reading) :
  gather json_dumps py_str env w0 = (Py.Ok (inr rs), w) ->
  let ts := datetime_now env (ticks w0) in
  stamped ts rs
  /\ gather json_dumps py_str env w0
     = gather_at json_dumps py_str env ts
         (World (fs w0) (console w0) (Datatypes.S (ticks w0)) (sent w0))
  /\ (forall batch devs s rs' s',
        stamped ts batch ->
        fetch_devices json_dumps py_str env ts batch devs s
        = (Py.Ok rs', s') ->
        stamped ts rs')
  /\ (forall url body,
        In (url, body)
           (posts_of (sent (snd (main json_dumps py_str env w0)))) ->
        In (url, body) (posts_of (sent w0)) \/ stamped ts body).
Proof.
  intros Hg ts.
  pose proof (gather_stamped json_dumps py_str env w0 w rs Hg) as Hst.
  split; [exact Hst|]. split; [reflexivity|]. split.
  - intros batch devs s rs' s' Hb Hf.
    exact (fetch_devices_stamped json_dumps py_str env ts devs batch Hb
             s rs' s' Hf).
  - intros url body. rewrite main_gather, (bind_ok _ _ _ _ _ Hg).
    cbn [finish].
    destruct (only_sends_summarize rs w) as (l & Hl & Pl).
    rewrite Hl, posts_of_app.
    pose proof (quiet_gather json_dumps py_str env w0) as [_ Hq].
    rewrite Hg in Hq. cbn [snd] in Hq. rewrite Hq.
    intros Hin. apply in_app_or in Hin. destruct Hin as [Hin|Hin].
    + left. exact Hin.
    + right. rewrite (posts_of_only _ _ _ Pl _ _ Hin). exact Hst.
Qed.

(** C7: a run that reaches the summary with no reading writes no file
    (no CSV file, no manifest), posts nothing and returns 0; and no run
    that ends without a reading, the ones that stop before the summary
    included, changes a file or posts anything. *)
Theorem C7_no_readings (w0 w : world) :
  gather json_dumps py_str env w0 = (Py.Ok (inr []), w) ->
  main json_dumps py_str env w0
  = (Py.Ok 0,
     World (fs w)
       (((console w ++ ["--- Summary ---"])
         ++ ["Successfully read 0/3 devices"])
        ++ ["No readings collected; nothing to write."])
       (ticks w) (sent w))
  /\ fs (snd (main json_dumps py_str env w0)) = fs w0
  /\ posts_of (sent (snd (main json_dumps py_str env w0)))
     = posts_of (sent w0)
  /\ exit_code (fst (main json_dumps py_str env w0)) = 0
  /\ (forall w1,
        (forall rs, fst (gather json_dumps py_str env w1) = Py.Ok (inr rs)
                    -> rs = []) ->
        fs (snd (main json_dumps py_str env w1)) = fs w1
        /\ posts_of (sent (snd (main json_dumps py_str env w1)))
           = posts_of (sent w1)).
Proof.
  intros Hg.
  assert (Hm : main json_dumps py_str env w0
               = summarize json_dumps py_str env [] w).
  { rewrite main_gather, (bind_ok _ _ _ _ _ Hg). reflexivity. }
  rewrite Hm, summarize_empty. cbn [fst snd fs sent exit_code].
  pose proof (quiet_gather json_dumps py_str env w0) as [Hf Hq].
  rewrite Hg in Hf, Hq. cbn [snd] in Hf, Hq.
  split; [reflexivity|]. split; [exact Hf|]. split; [exact Hq|].
  split; [reflexivity|].
  intros w1 Hnil. rewrite main_gather.
  pose proof (quiet_gather json_dumps py_str env w1) as Hq1.
  unfold Run.bind.
  destruct (gather json_dumps py_str env w1) as [[[c|rs]|e] w'];
    cbn [fst snd] in Hnil, Hq1 |- *.
  - exact Hq1.
  - rewrite (Hnil rs eq_refl). cbn [finish]. rewrite summarize_empty.
    exact Hq1.
  - exact Hq1.
Qed.


End Summary.

Lemma C9_one_timestamp_witness :
  stamped "2024-01-02 03:04:00"
    [Reading "2024-01-02 03:04:00" "bf7ecfc010164c849dwpqp"
       (Py.VInt 23) (Py.VInt 45);
     Reading "2024-01-02 03:04:00" "bf58e5674b50680432umav"
       (Py.VInt 23) (Py.VInt 45);
     Reading "2024-01-02 03:04:00" "bfefd09a22241b31b10cpo"
       (Py.VInt 23) (Py.VInt 45)].
Proof.
  refine (proj1 (C9_one_timestamp dumps_basic str_basic sample_env
                   empty_world
                   (snd (gather dumps_basic str_basic sample_env empty_world))
                   _ _)).
  vm_compute. reflexivity.
Defined.

Lemma C7_no_readings_witness :
  fs (snd (main dumps_basic str_basic offline_env empty_world))
  = fs empty_world
  /\ exit_code (fst (main dumps_basic str_basic offline_env empty_world)) = 0.
Proof.
  assert (Hg : gather dumps_basic str_basic offline_env empty_world
               = (Py.Ok (inr []),
                  snd (gather dumps_basic str_basic offline_env empty_world)))
    by (vm_compute; reflexivity).
  destruct (C7_no_readings dumps_basic str_basic offline_env empty_world _ Hg)
    as (_ & H1 & _ & H2 & _).
  split; assumption.
Defined.


(** ** C4: connect *)

Lemma truthy_default (o : option Py.value) :
  Py.truthy (default Py.VNone o) = true
  <-> exists s, o = Some s /\ Py.truthy s = true.
Proof.
  destruct o as [s|]; cbn [default].
  - split; [intros H; exists s; split; [reflexivity|exact H]|].
    intros (s' & [= <-] & H). exact H.
  - split; [discriminate|]. intros (s' & H & _). discriminate H.
Qed.

(** The token the code reads from a parsed response, against the words
    of the specification. *)
Lemma granted_iff (result tok : Py.value) :
  (exists success r,
     Py.get result "success" = Py.Ok success
     /\ Py.truthy success = true
     /\ Py.getitem result "result" = Py.Ok r
     /\ Py.getitem r "access_token" = Py.Ok tok)
  <-> reports_success result /\ has_token result tok.
Proof.
  split.
  - intros (success & r & Hs & Ht & Hr & Hk).
    destruct result as [| | | | | |d]; try discriminate Hs.
    cbn [Py.get] in Hs. injection Hs as <-.
    apply truthy_default in Ht. destruct Ht as (s & Hs & Ht).
    cbn [Py.getitem] in Hr.
    destruct (Py.assoc "result" d) as [r'|] eqn:Hd; [|discriminate Hr].
    injection Hr as ->.
    destruct r as [| | | | | |rd]; try discriminate Hk.
    cbn [Py.getitem] in Hk.
    destruct (Py.assoc "access_token" rd) as [tok'|] eqn:Hrd;
      [|discriminate Hk].
    injection Hk as ->.
    split.
    + exists d, s. repeat split; assumption.
    + exists d, rd. repeat split; assumption.
  - intros [(d & s & -> & Hs & Ht) (d' & rd & [= <-] & Hd & Hrd)].
    exists s, (Py.VDict rd). cbn [Py.get Py.getitem].
    rewrite Hs, Hd, Hrd. repeat split. exact Ht.
Qed.

Section Connect.
Variable json_dumps : Py.value -> string.
Variable py_str : Py.value -> string.
Variable env : environment.

Lemma sign_request_run (method path : string) (body : Py.value)
    (api : SimpleTuyaAPI) (w : world) :
  _sign_request json_dumps env method path body (api, w)
  = (sign_request_at json_dumps (time_ms env (ticks w)) api method path body,
     (api, World (fs w) (console w) (Datatypes.S (ticks w)) (sent w))).
Proof. reflexivity. Qed.

(** [connect], case by case. *)
Lemma connect_cases (api : SimpleTuyaAPI) (w : world) (h : headers) :
  sign_request_at json_dumps (time_ms env (ticks w)) api "GET" token_path
    Py.VNone = Py.Ok h ->
  let url := endpoint api +:+ token_path in
  let w2 := World (fs w) (console w) (Datatypes.S (ticks w))
                  (sent w ++ [GET url h]) in
  let say line := World (fs w) (console w ++ [line]) (Datatypes.S (ticks w))
                        (sent w ++ [GET url h]) in
  connect json_dumps py_str env (api, w)
  = match requests_get env url h with
    | Py.Raise e => (Py.Raise e, (api, w2))
    | Py.Ok resp =>
        match json resp with
        | Py.Raise e =>
            (Py.Ok false,
             (api, say ("ERROR: Token response not JSON: "
                        +:+ Py.str_of_exn e)))
        | Py.Ok result =>
            match Py.get result "success" with
            | Py.Raise e => (Py.Raise e, (api, w2))
            | Py.Ok success =>
                if Py.truthy success then
                  match Py.getitem result "result" with
                  | Py.Raise e => (Py.Raise e, (api, w2))
                  | Py.Ok r =>
                      match Py.getitem r "access_token" with
                      | Py.Raise e => (Py.Raise e, (api, w2))
                      | Py.Ok tok =>
                          (Py.Ok true,
                           (API (endpoint api) (access_id api)
                                (access_key api) tok, w2))
                      end
                  end
                else
                  (Py.Ok false,
                   (api, say ("ERROR: token call failed: "
                              +:+ py_str result)))
            end
        end
    end.
Proof.
  intros Hsign url w2 say. unfold connect.
  rewrite (bind_ok _ _ _ _ _ (eq_trans (sign_request_run _ _ _ api w)
                                (f_equal (fun r => (r, _)) Hsign))).
  unfold Run.bind, Run.self, Run.on_world, http_get, Run.bind, Run.send,
    Run.lift, Run.try_except, Run.ret, Run.print, Run.set_token.
  cbn [fst snd fs console ticks sent endpoint].
  fold url. destruct (requests_get env url h) as [resp|e]; [|reflexivity].
  destruct (json resp) as [result|e]; [|reflexivity].
  destruct (Py.get result "success") as [success|e]; [|reflexivity].
  destruct (Py.truthy success); [|reflexivity].
  destruct (Py.getitem result "result") as [r|e]; [|reflexivity].
  destruct (Py.getitem r "access_token") as [tok|e]; reflexivity.
Qed.

(** C4 (as the code has it): [connect] returns success exactly when the
    parsed response reports success and contains a token field, and then
    the client holds that token; it returns failure exactly when the
    body is not JSON or the parsed object does not report success; a
    response that reports success without a token field, a JSON body
    that is not an object and an exception of the HTTP call make it end
    with an exception instead; whenever it does not return success the
    client's token is what it was before (unset for the client [main]
    creates). *)
Theorem C4_connect (api : SimpleTuyaAPI) (w : world) (h : headers) :
  sign_request_at json_dumps (time_ms env (ticks w)) api "GET" token_path
    Py.VNone = Py.Ok h ->
  let url := endpoint api +:+ token_path in
  let out := connect json_dumps py_str env (api, w) in
  (fst out = Py.Ok true <->
   exists resp result tok,
     requests_get env url h = Py.Ok resp /\ json resp = Py.Ok result
     /\ reports_success result /\ has_token result tok)
  /\ (forall resp result tok,
        requests_get env url h = Py.Ok resp -> json resp = Py.Ok result ->
        reports_success result -> has_token result tok ->
        fst out = Py.Ok true /\ token (fst (snd out)) = tok)
  /\ (forall resp e,
        requests_get env url h = Py.Ok resp -> json resp = Py.Raise e ->
        fst out = Py.Ok false /\ token (fst (snd out)) = token api)
  /\ (forall resp d,
        requests_get env url h = Py.Ok resp ->
        json resp = Py.Ok (Py.VDict d) ->
        Py.truthy (default Py.VNone (Py.assoc "success" d)) = false ->
        fst out = Py.Ok false /\ token (fst (snd out)) = token api)
  /\ (fst out <> Py.Ok true -> token (fst (snd out)) = token api)
  /\ (fst out = Py.Ok false <->
      exists resp,
        requests_get env url h = Py.Ok resp
        /\ ((exists e, json resp = Py.Raise e)
            \/ exists d,
                 json resp = Py.Ok (Py.VDict d)
                 /\ Py.truthy (default Py.VNone (Py.assoc "success" d))
                    = false))
  /\ (forall resp result,
        requests_get env url h = Py.Ok resp -> json resp = Py.Ok result ->
        reports_success result -> (forall tok, ~ has_token result tok) ->
        fst out = Py.Raise Py.KeyError \/ fst out = Py.Raise Py.TypeError)
  /\ (forall resp result,
        requests_get env url h = Py.Ok resp -> json resp = Py.Ok result ->
        Py.isinstance_dict result = false ->
        fst out = Py.Raise Py.AttributeError)
  /\ (forall e, requests_get env url h = Py.Raise e -> fst out = Py.Raise e).
Proof.
  intros Hsign url out. subst out.
  rewrite (connect_cases api w h Hsign). fold url.
  assert (Hyes : forall resp result tok,
             requests_get env url h = Py.Ok resp ->
             json resp = Py.Ok result ->
             reports_success result -> has_token result tok ->
             exists success r,
               Py.get result "success" = Py.Ok success
               /\ Py.truthy success = true
               /\ Py.getitem result "result" = Py.Ok r
               /\ Py.getitem r "access_token" = Py.Ok tok).
  { intros resp result tok _ _ Hs Ht. apply granted_iff. split; assumption. }
  split; [split|].
  - destruct (requests_get env url h) as [resp|e]; [|discriminate].
    destruct (json resp) as [result|e] eqn:Hj; [|discriminate].
    destruct (Py.get result "success") as [success|e] eqn:Hs; [|discriminate].
    destruct (Py.truthy success) eqn:Ht; [|discriminate].
    destruct (Py.getitem result "result") as [r|e] eqn:Hr; [|discriminate].
    destruct (Py.getitem r "access_token") as [tok|e] eqn:Hk; [|discriminate].
    intros _. exists resp, result, tok.
    split; [reflexivity|]. split; [exact Hj|].
    apply granted_iff. exists success, r. repeat split; assumption.
  - intros (resp & result & tok & Hg & Hj & Hs & Ht).
    destruct (Hyes resp result tok Hg Hj Hs Ht) as (s & r & H1 & H2 & H3 & H4).
    rewrite Hg, Hj, H1, H2, H3, H4. reflexivity.
  - split; [|split; [|split; [|split; [|split; [|split; [|split]]]]]].
    + intros resp result tok Hg Hj Hs Ht.
      destruct (Hyes resp result tok Hg Hj Hs Ht)
        as (s & r & H1 & H2 & H3 & H4).
      rewrite Hg, Hj, H1, H2, H3, H4. split; reflexivity.
    + intros resp e Hg Hj. rewrite Hg, Hj. split; reflexivity.
    + intros resp d Hg Hj Ht. rewrite Hg, Hj. cbn [Py.get]. rewrite Ht.
      split; reflexivity.
    + destruct (requests_get env url h) as [resp|e]; [|reflexivity].
      destruct (json resp) as [result|e]; [|reflexivity].
      destruct (Py.get result "success") as [success|e]; [|reflexivity].
      destruct (Py.truthy success); [|reflexivity].
      destruct (Py.getitem result "result") as [r|e]; [|reflexivity].
      destruct (Py.getitem r "access_token") as [tok|e]; [|reflexivity].
      intros Hne. exfalso. apply Hne. reflexivity.
    + split.
      * destruct (requests_get env url h) as [resp|e]; [|discriminate].
        destruct (json resp) as [result|e] eqn:Hj.
        -- destruct result as [| | | | | |d]; try discriminate.
           cbn [Py.get].
           destruct (Py.truthy (default Py.VNone (Py.assoc "success" d)))
             eqn:Ht.
           ++ destruct (Py.getitem (Py.VDict d) "result") as [r|e];
                [|discriminate].
              destruct (Py.getitem r "access_token"); discriminate.
           ++ intros _. exists resp. split; [reflexivity|]. right.
              exists d. split; [exact Hj|exact Ht].
        -- intros _. exists resp. split; [reflexivity|]. left.
           exists e. exact Hj.
      * intros (resp & Hg & [[e Hj]|(d & Hj & Ht)]); rewrite Hg, Hj.
        -- reflexivity.
        -- cbn [Py.get]. rewrite Ht. reflexivity.
    + intros resp result Hg Hj (d & ok & -> & Hok & Ht) Hno.
      rewrite Hg, Hj. cbn [Py.get Py.getitem]. rewrite Hok.
      change (default Py.VNone (Some ok)) with ok. rewrite Ht.
      destruct (Py.assoc "result" d) as [r|] eqn:Hr;
        [|left; reflexivity].
      destruct r as [| | | | | |rd]; try (right; reflexivity).
      cbn [Py.getitem].
      destruct (Py.assoc "access_token" rd) as [tok|] eqn:Hk;
        [|left; reflexivity].
      exfalso. apply (Hno tok). exists d, rd. repeat split; assumption.
    + intros resp result Hg Hj Hd. rewrite Hg, Hj.
      destruct result; try reflexivity. discriminate Hd.
    + intros e Hg. rewrite Hg. reflexivity.
Qed.

End Connect.

Lemma C4_connect_witness :
  let out := connect dumps_basic str_basic sample_env
               (API ENDPOINT "id" "key" Py.VNone, empty_world) in
  fst out = Py.Ok true /\ token (fst (snd out)) = Py.VStr "tok".
Proof.
  refine (proj1 (proj2 (C4_connect dumps_basic str_basic sample_env
                          (API ENDPOINT "id" "key" Py.VNone) empty_world
                          (Headers "id"
      "75DFC2AE6D5341FE03E32A2890C41947B9011AF0ED39DCCC7E2D739049E843E8"
                             "1700000000000" "HMAC-SHA256" EmptyString) _))
            (Response 200 (Py.Ok sample_token_body)) sample_token_body
            (Py.VStr "tok") _ _ _ _).
  - vm_compute. reflexivity.
  - reflexivity.
  - reflexivity.
  - eexists _, _. repeat split; reflexivity.
  - eexists _, _. repeat split; reflexivity.
Defined.

(** C4, as stated, fails: an answer that reports success and carries no
    token is a failed connection, on which [connect] does not return
    failure: it ends with a KeyError. *)
Lemma C4_tokenless_success_raises :
  let env := answering (Py.Ok (Response 200 (Py.Ok tokenless_body))) granted
               no_os_error in
  let out := connect dumps_basic str_basic env
               (API ENDPOINT "id" "key" Py.VNone, empty_world) in
  reports_success tokenless_body
  /\ (forall tok, ~ has_token tokenless_body tok)
  /\ fst out <> Py.Ok true
  /\ fst out <> Py.Ok false
  /\ fst out = Py.Raise Py.KeyError.
Proof.
  intros env out.
  assert (Hout : fst out = Py.Raise Py.KeyError) by (vm_compute; reflexivity).
  split; [eexists _, _; repeat split; reflexivity|].
  split.
  - intros tok (d & r & Heq & Hr & Ht). unfold tokenless_body in Heq.
    injection Heq as <-. vm_compute in Hr. injection Hr as <-.
    discriminate Ht.
  - rewrite Hout. repeat split; discriminate.
Qed.

(** ** C5: one device of the loop *)

Lemma extract_step_unrecognized (dp : Py.value) (st : Py.value * Py.value) :
  unrecognized dp -> extract_step st dp = Py.Ok st.
Proof.
  intros (d & -> & Ht & Hh). unfold extract_step. cbn [Py.get Py.rbind].
  rewrite Ht, Hh. reflexivity.
Qed.

Lemma extract_unrecognized (dps : list Py.value) :
  Forall unrecognized dps ->
  extract_temp_humidity (Py.VList dps) = Py.Ok (Py.VNone, Py.VNone).
Proof.
  intros H. unfold extract_temp_humidity. cbn [Py.iter Py.rbind].
  induction H as [|dp dps Hdp _ IH]; [reflexivity|].
  cbn [extract_loop]. rewrite (extract_step_unrecognized dp _ Hdp).
  exact IH.
Qed.

Lemma is_none_false (v : Py.value) : Py.is_none v = false <-> v <> Py.VNone.
Proof.
  destruct v; cbn [Py.is_none]; split; try discriminate; try reflexivity.
  intros H. exfalso. apply H. reflexivity.
Qed.

Lemma snoc_neq {A} (l : list A) (x : A) : l ++ [x] <> l.
Proof.
  intros H. apply (f_equal (@length A)) in H.
  rewrite length_app in H. cbn [length] in H. lia.
Qed.

Section Device.
Variable json_dumps : Py.value -> string.
Variable py_str : Py.value -> string.
Variable env : environment.

Lemma bind_lift_ok {S A B} (r : Py.result A) (a : A)
    (k : A -> Run.M S B) (s : S) :
  r = Py.Ok a -> Run.bind (Run.lift r) k s = k a s.
Proof. intros ->. reflexivity. Qed.

(** C5: for a device whose status was fetched with success and from
    which the extractor returned (temp, humidity), the loop body returns
    normally; it appends a reading, made of the run's timestamp, the
    device and the two values, exactly when both values are present, and
    otherwise returns the batch as it was and prints the warning; a
    status without recognized codes yields (None, None). *)
Theorem C5_reading_iff_both (ts dev : string) (rs : list reading)
    (api api' : SimpleTuyaAPI) (w w2 : world)
    (resp ok res temp hum : Py.value) :
  api_get json_dumps env ("/v1.0/devices/" +:+ dev +:+ "/status")
    (api, World (fs w)
            (console w ++ ["--- Fetching device: " +:+ dev +:+ " ---"])
            (ticks w) (sent w))
  = (Py.Ok resp, (api', w2)) ->
  Py.get resp "success" = Py.Ok ok ->
  Py.truthy ok = true ->
  Py.getitem resp "result" = Py.Ok res ->
  extract_temp_humidity res = Py.Ok (temp, hum) ->
  let out := fetch_device json_dumps py_str env ts rs dev (api, w) in
  let r := Reading ts dev temp hum in
  let warning := "WARNING: Could not extract temperature or "
                 +:+ "humidity for " +:+ dev in
  (temp <> Py.VNone /\ hum <> Py.VNone -> fst out = Py.Ok (rs ++ [r]))
  /\ (temp = Py.VNone \/ hum = Py.VNone ->
      fst out = Py.Ok rs /\ In warning (console (snd (snd out))))
  /\ (fst out = Py.Ok (rs ++ [r]) <-> temp <> Py.VNone /\ hum <> Py.VNone)
  /\ (exists rs', fst out = Py.Ok rs')
  /\ (forall dps, Forall unrecognized dps ->
        extract_temp_humidity (Py.VList dps) = Py.Ok (Py.VNone, Py.VNone)).
Proof.
  intros Hget Hok Ht Hres Hex out r warning.
  assert (Hout : out
    = if negb (Py.is_none temp) && negb (Py.is_none hum) then
        (Py.Ok (rs ++ [r]),
         (api', World (fs w2)
                  ((console w2
                    ++ ["SUCCESS: Temp: " +:+ py_str temp
                        +:+ "C, Humidity: " +:+ py_str hum +:+ "%"])
                   ++ [EmptyString])
                  (ticks w2) (sent w2)))
      else
        (Py.Ok rs,
         (api', World (fs w2) ((console w2 ++ [warning]) ++ [EmptyString])
                  (ticks w2) (sent w2)))).
  { subst out. unfold fetch_device.
    unfold Run.bind at 1. unfold Run.on_world at 1, Run.print at 1.
    cbn [fst snd].
    rewrite (bind_ok _ _ _ _ _ Hget).
    rewrite (bind_lift_ok _ _ _ _ Hok). rewrite Ht. cbn [negb].
    rewrite (bind_lift_ok _ _ _ _ Hres).
    rewrite (bind_lift_ok _ _ _ _ Hex). cbn [fst snd].
    destruct (negb (Py.is_none temp) && negb (Py.is_none hum));
      reflexivity. }
  assert (Hboth : negb (Py.is_none temp) && negb (Py.is_none hum) = true
                  <-> temp <> Py.VNone /\ hum <> Py.VNone).
  { rewrite andb_true_iff, !negb_true_iff, !is_none_false. reflexivity. }
  rewrite Hout.
  destruct (negb (Py.is_none temp) && negb (Py.is_none hum)) eqn:Hb;
    cbn [fst snd console].
  - apply proj1 in Hboth. specialize (Hboth eq_refl).
    destruct Hboth as [Htemp Hhum].
    split; [intros _; reflexivity|].
    split; [intros [E | E]; contradiction|].
    split; [split; [intros _; split; assumption|intros _; reflexivity]|].
    split; [eexists; reflexivity|apply extract_unrecognized].
  - assert (Hnot : ~ (temp <> Py.VNone /\ hum <> Py.VNone)).
    { intros H. apply Hboth in H. discriminate H. }
    split; [intros H; contradiction|].
    split.
    { intros _. split; [reflexivity|].
      apply in_or_app. left. apply in_or_app. right. left. reflexivity. }
    split.
    { split; [|intros H; contradiction].
      intros H. exfalso. injection H as H. symmetry in H.
      exact (snoc_neq rs r H). }
    split; [eexists; reflexivity|apply extract_unrecognized].
Qed.

End Device.

Lemma C5_reading_iff_both_witness :
  fst (fetch_device dumps_basic str_basic sample_env "2024-01-02 03:04:00"
         [] "bf7ecfc010164c849dwpqp"
         (API ENDPOINT "id" "key" (Py.VStr "tok"), empty_world))
  = Py.Ok [Reading "2024-01-02 03:04:00" "bf7ecfc010164c849dwpqp"
             (Py.VInt 23) (Py.VInt 45)].
Proof.
  pose (dev := "bf7ecfc010164c849dwpqp"%string).
  pose (api := API ENDPOINT "id" "key" (Py.VStr "tok")).
  pose (st := snd (api_get dumps_basic sample_env
                     ("/v1.0/devices/" +:+ dev +:+ "/status")
                     (api, World ∅ ["--- Fetching device: " +:+ dev +:+ " ---"]
                             0%nat []))).
  refine (proj1 (C5_reading_iff_both dumps_basic str_basic sample_env
                   "2024-01-02 03:04:00" dev [] api (fst st) empty_world
                   (snd st) sample_status_body (Py.VBool true)
                   (Py.VList [point "va_temperature" (Py.VInt 23);
                              point "va_humidity" (Py.VInt 45);
                              point "battery_state" (Py.VStr "high")])
                   (Py.VInt 23) (Py.VInt 45) _ _ _ _ _) _).
  - vm_compute. reflexivity.
  - reflexivity.
  - reflexivity.
  - reflexivity.
  - vm_compute. reflexivity.
  - split; discriminate.
Defined.

(** A device that reports a temperature only is skipped. *)
Example fetch_device_one_value :
  let env := Environment (Some "id") (Some "key") EmptyString
               (fun _ => "2024-01-02 03:04:00") (fun _ => "20240102")
               (fun _ => 1700000000000)
               (fun _ _ => Py.Ok (Response 200 (Py.Ok (Py.VDict
                  [("success", Py.VBool true);
                   ("result",
                    Py.VList [point "temp_current" (Py.VInt 235)])]))))
               (fun _ _ => Py.Raise (Py.LibraryError "unused"))
               (fun _ => None) in
  let out := fetch_device dumps_basic str_basic env "2024-01-02 03:04:00"
               [] "dev" (API ENDPOINT "id" "key" (Py.VStr "tok"),
                         empty_world) in
  fst out = Py.Ok []
  /\ console (snd (snd out))
     = ["--- Fetching device: dev ---";
        "WARNING: Could not extract temperature or humidity for dev";
        EmptyString].
Proof. vm_compute. split; reflexivity. Qed.

(** * The client's [get] and the device loop *)

Section Get.
Variable json_dumps : Py.value -> string.
Variable py_str : Py.value -> string.
Variable env : environment.

Lemma sign_get (ms : Z) (api : SimpleTuyaAPI) (path tk : string) :
  token_or_empty (token api) = Py.Ok tk ->
  sign_request_at json_dumps ms api "GET" path Py.VNone
  = Py.Ok (get_headers api tk ms path).
Proof.
  intros Htk. unfold sign_request_at.
  change Py.VNone with (body_value NoBody).
  rewrite (str_to_sign_canonical json_dumps "GET" path NoBody).
  cbn [Py.rbind body_text Bytes.encode]. rewrite Htk. reflexivity.
Qed.

Lemma sign_get_raises (ms : Z) (api : SimpleTuyaAPI) (path : string)
    (e : Py.exn) :
  token_or_empty (token api) = Py.Raise e ->
  sign_request_at json_dumps ms api "GET" path Py.VNone = Py.Raise e.
Proof.
  intros Htk. unfold sign_request_at.
  change Py.VNone with (body_value NoBody).
  rewrite (str_to_sign_canonical json_dumps "GET" path NoBody).
  cbn [Py.rbind]. rewrite Htk. reflexivity.
Qed.

(** [get], case by case. *)
Lemma api_get_cases (api : SimpleTuyaAPI) (w : world) (path : string) :
  let url := endpoint api +:+ path in
  let after c l := (api, World (fs w) c (Datatypes.S (ticks w))
                           (sent w ++ l)) in
  api_get json_dumps env path (api, w)
  = match sign_request_at json_dumps (time_ms env (ticks w)) api "GET" path
            Py.VNone with
    | Py.Raise e =>
        (Py.Raise e,
         (api, World (fs w) (console w) (Datatypes.S (ticks w)) (sent w)))
    | Py.Ok h =>
        match requests_get env url h with
        | Py.Raise e => (Py.Raise e, after (console w) [GET url h])
        | Py.Ok resp =>
            match json resp with
            | Py.Ok v => (Py.Ok v, after (console w) [GET url h])
            | Py.Raise e =>
                (Py.Ok invalid_response,
                 after (console w ++ ["ERROR: response not JSON: "
                                      +:+ Py.str_of_exn e])
                       [GET url h])
            end
        end
    end.
Proof.
  intros url after. unfold api_get.
  unfold Run.bind at 1. rewrite sign_request_run.
  destruct (sign_request_at _ _ _ _ _ _) as [h|e]; [|reflexivity].
  unfold Run.bind, Run.self, Run.on_world, http_get, Run.bind, Run.send,
    Run.lift, Run.try_except, Run.ret, Run.print.
  cbn [fst snd fs console ticks sent endpoint].
  fold url. destruct (requests_get env url h) as [resp|e]; [|reflexivity].
  destruct (json resp) as [v|e]; reflexivity.
Qed.

(** X1: once the server has answered, [get] returns normally whatever
    the body: the parsed body, or for a body that is not JSON the dict
    with a false [success], after one line on the console; the client is
    as it was and exactly one GET, to endpoint + path, was sent. *)
Theorem X1_get_answered (api : SimpleTuyaAPI) (w : world) (path : string)
    (h : headers) (resp : response) :
  sign_request_at json_dumps (time_ms env (ticks w)) api "GET" path Py.VNone
  = Py.Ok h ->
  requests_get env (endpoint api +:+ path) h = Py.Ok resp ->
  exists v c,
    api_get json_dumps env path (api, w)
    = (Py.Ok v,
       (api, World (fs w) c (Datatypes.S (ticks w))
               (sent w ++ [GET (endpoint api +:+ path) h])))
    /\ (json resp = Py.Ok v /\ c = console w
        \/ exists e,
             json resp = Py.Raise e /\ v = invalid_response
             /\ Py.get v "success" = Py.Ok (Py.VBool false)
             /\ c = console w ++ ["ERROR: response not JSON: "
                                  +:+ Py.str_of_exn e]).
Proof.
  intros Hsign Hget. rewrite api_get_cases, Hsign, Hget.
  destruct (json resp) as [v|e].
  - exists v, (console w). split; [reflexivity|]. left. split; reflexivity.
  - eexists _, _. split; [reflexivity|]. right. exists e.
    repeat split; reflexivity.
Qed.

End Get.

Lemma X1_get_answered_witness :
  exists c h,
    api_get dumps_basic
      (answering granted
         (Py.Ok (Response 502 (Py.Raise (Py.LibraryError "Expecting value"))))
         no_os_error)
      (status_path "dev") (API ENDPOINT "id" "key" (Py.VStr "tok"), empty_world)
    = (Py.Ok invalid_response,
       (API ENDPOINT "id" "key" (Py.VStr "tok"),
        World ∅ c 1 [GET (ENDPOINT +:+ status_path "dev") h]))
    /\ c = ["ERROR: response not JSON: Expecting value"].
Proof.
  pose (env := answering granted
         (Py.Ok (Response 502 (Py.Raise (Py.LibraryError "Expecting value"))))
         no_os_error).
  pose (api := API ENDPOINT "id" "key" (Py.VStr "tok")).
  destruct (X1_get_answered dumps_basic env api empty_world (status_path "dev")
              (get_headers api "tok" 1700000000000 (status_path "dev"))
              (Response 502 (Py.Raise (Py.LibraryError "Expecting value")))
              (sign_get dumps_basic _ api _ "tok" eq_refl) eq_refl)
    as (v & c & Hrun & [[Hj _]|(e & Hj & -> & _ & ->)]).
  - discriminate Hj.
  - injection Hj as <-. eexists _, _. split; [exact Hrun|reflexivity].
Defined.

Section Loop.
Variable json_dumps : Py.value -> string.
Variable py_str : Py.value -> string.
Variable env : environment.

(** The body of the device loop, case by case. *)
Lemma fetch_device_cases (ts dev : string) (rs : list reading)
    (api : SimpleTuyaAPI) (w : world) :
  fetch_device json_dumps py_str env ts rs dev (api, w)
  = match api_get json_dumps env (status_path dev)
            (api, say w ("--- Fetching device: " +:+ dev +:+ " ---")) with
    | (Py.Raise e, s) => (Py.Raise e, s)
    | (Py.Ok resp, (api', w2)) =>
        match Py.get resp "success" with
        | Py.Raise e => (Py.Raise e, (api', w2))
        | Py.Ok ok =>
            if Py.truthy ok then
              match Py.rbind (Py.getitem resp "result")
                             extract_temp_humidity with
              | Py.Raise e => (Py.Raise e, (api', w2))
              | Py.Ok (temp, hum) =>
                  if negb (Py.is_none temp) && negb (Py.is_none hum) then
                    (Py.Ok (rs ++ [Reading ts dev temp hum]),
                     (api',
                      say (say w2 ("SUCCESS: Temp: " +:+ py_str temp
                                   +:+ "C, Humidity: " +:+ py_str hum
                                   +:+ "%"))
                          EmptyString))
                  else
                    (Py.Ok rs,
                     (api',
                      say (say w2 ("WARNING: Could not extract temperature or "
                                   +:+ "humidity for " +:+ dev))
                          EmptyString))
              end
            else
              (Py.Ok rs,
               (api', say w2 ("ERROR: Failed to get status for " +:+ dev
                              +:+ " - " +:+ py_str resp)))
        end
    end.
Proof.
  unfold fetch_device.
  unfold Run.bind at 1. unfold Run.on_world at 1, Run.print at 1.
  cbn [fst snd]. fold (say w ("--- Fetching device: " +:+ dev +:+ " ---")).
  unfold Run.bind at 1. fold (status_path dev).
  destruct (api_get json_dumps env (status_path dev) _)
    as [[resp|e] [api' w2]]; [|reflexivity].
  unfold Run.bind at 1. unfold Run.lift at 1.
  destruct (Py.get resp "success") as [ok|e]; [|reflexivity].
  destruct (Py.truthy ok); cbn [negb]; [|reflexivity].
  unfold Run.bind at 1. unfold Run.lift at 1.
  destruct (Py.getitem resp "result") as [res|e]; [|reflexivity].
  cbn [Py.rbind]. unfold Run.bind at 1. unfold Run.lift at 1.
  destruct (extract_temp_humidity res) as [[temp hum]|e]; [|reflexivity].
  cbn [fst snd].
  destruct (negb (Py.is_none temp) && negb (Py.is_none hum)); reflexivity.
Qed.

(** X2: a device whose status answer does not report success (a false
    or missing [success], the answer [get] makes up for a body that is
    not JSON included) is skipped: one ERROR line, the batch unchanged,
    no exception, and the loop goes on with the next device. *)
Theorem X2_failed_status_skipped (ts dev : string) (rs : list reading)
    (api api' : SimpleTuyaAPI) (w w2 : world) (resp ok : Py.value) :
  api_get json_dumps env (status_path dev)
    (api, say w ("--- Fetching device: " +:+ dev +:+ " ---"))
  = (Py.Ok resp, (api', w2)) ->
  Py.get resp "success" = Py.Ok ok ->
  Py.truthy ok = false ->
  let s' := (api', say w2 ("ERROR: Failed to get status for " +:+ dev
                           +:+ " - " +:+ py_str resp)) in
  fetch_device json_dumps py_str env ts rs dev (api, w) = (Py.Ok rs, s')
  /\ (forall rest,
        fetch_devices json_dumps py_str env ts rs (dev :: rest) (api, w)
        = fetch_devices json_dumps py_str env ts rs rest s')
  /\ (forall d, Py.assoc "success" d = None ->
        exists missing,
          Py.get (Py.VDict d) "success" = Py.Ok missing
          /\ Py.truthy missing = false)
  /\ Py.get invalid_response "success" = Py.Ok (Py.VBool false).
Proof.
  intros Hget Hok Ht s'.
  assert (H : fetch_device json_dumps py_str env ts rs dev (api, w)
              = (Py.Ok rs, s')).
  { rewrite fetch_device_cases, Hget, Hok, Ht. reflexivity. }
  split; [exact H|]. split; [|split; [|reflexivity]].
  2: { intros d Hd. exists Py.VNone. cbn [Py.get]. rewrite Hd.
       split; reflexivity. }
  intros rest. cbn [fetch_devices].
  exact (bind_ok _ (fun batch => fetch_devices json_dumps py_str env ts
                                   batch rest) _ _ _ H).
Qed.

(** X3: a status answer that reports success but from which no reading
    can be taken because an exception is raised (no [result] key: a
    KeyError; a result that cannot be iterated, a point that is not a
    dict, a number too large for a float) aborts the loop: the exception
    escapes, the devices that follow are not fetched and the batch read
    so far is not returned. *)
Theorem X3_unreadable_status_aborts (ts dev : string) (rs : list reading)
    (api api' : SimpleTuyaAPI) (w w2 : world) (resp ok : Py.value)
    (e : Py.exn) :
  api_get json_dumps env (status_path dev)
    (api, say w ("--- Fetching device: " +:+ dev +:+ " ---"))
  = (Py.Ok resp, (api', w2)) ->
  Py.get resp "success" = Py.Ok ok ->
  Py.truthy ok = true ->
  Py.rbind (Py.getitem resp "result") extract_temp_humidity = Py.Raise e ->
  fetch_device json_dumps py_str env ts rs dev (api, w)
  = (Py.Raise e, (api', w2))
  /\ (forall rest,
        fetch_devices json_dumps py_str env ts rs (dev :: rest) (api, w)
        = (Py.Raise e, (api', w2)))
  /\ (forall d, resp = Py.VDict d -> Py.assoc "result" d = None ->
        e = Py.KeyError).
Proof.
  intros Hget Hok Ht He.
  assert (H : fetch_device json_dumps py_str env ts rs dev (api, w)
              = (Py.Raise e, (api', w2))).
  { rewrite fetch_device_cases, Hget, Hok, Ht, He. reflexivity. }
  split; [exact H|]. split.
  - intros rest. cbn [fetch_devices].
    exact (bind_raise _ (fun batch => fetch_devices json_dumps py_str env ts
                                        batch rest) _ _ _ H).
  - intros d -> Hd. cbn [Py.getitem Py.rbind] in He. rewrite Hd in He.
    cbn [Py.rbind] in He. injection He as <-. reflexivity.
Qed.

End Loop.

Lemma X2_failed_status_skipped_witness :
  fst (fetch_device dumps_basic str_basic offline_env "2024-01-02 03:04:00"
         [] "bf7ecfc010164c849dwpqp"
         (API ENDPOINT "id" "key" (Py.VStr "tok"), empty_world))
  = Py.Ok [].
Proof.
  pose (dev := "bf7ecfc010164c849dwpqp"%string).
  pose (api := API ENDPOINT "id" "key" (Py.VStr "tok")).
  pose (st := snd (api_get dumps_basic offline_env (status_path dev)
                     (api, say empty_world
                             ("--- Fetching device: " +:+ dev +:+ " ---")))).
  refine (f_equal fst
            (proj1 (X2_failed_status_skipped dumps_basic str_basic offline_env
                      "2024-01-02 03:04:00" dev [] api (fst st) empty_world
                      (snd st) failing_status_body (Py.VBool false)
                      _ _ _))).
  - vm_compute. reflexivity.
  - reflexivity.
  - reflexivity.
Defined.

Lemma X3_unreadable_status_aborts_witness :
  fst (fetch_devices dumps_basic str_basic
         (answering granted (Py.Ok (Response 200 (Py.Ok resultless_body)))
            no_os_error)
         "2024-01-02 03:04:00" [] DEVICE_IDS
         (API ENDPOINT "id" "key" (Py.VStr "tok"), empty_world))
  = Py.Raise Py.KeyError.
Proof.
  pose (env := answering granted
                 (Py.Ok (Response 200 (Py.Ok resultless_body))) no_os_error).
  pose (dev := "bf7ecfc010164c849dwpqp"%string).
  pose (api := API ENDPOINT "id" "key" (Py.VStr "tok")).
  pose (st := snd (api_get dumps_basic env (status_path dev)
                     (api, say empty_world
                             ("--- Fetching device: " +:+ dev +:+ " ---")))).
  refine (f_equal fst
            (proj1 (proj2
               (X3_unreadable_status_aborts dumps_basic str_basic env
                  "2024-01-02 03:04:00" dev [] api (fst st) empty_world
                  (snd st) resultless_body (Py.VBool true) Py.KeyError
                  _ _ _ _))
               ["bf58e5674b50680432umav"; "bfefd09a22241b31b10cpo"])).
  - vm_compute. reflexivity.
  - reflexivity.
  - reflexivity.
  - reflexivity.
Defined.

(** * The run up to the summary *)

Section Start.
Variable json_dumps : Py.value -> string.
Variable py_str : Py.value -> string.
Variable env : environment.

Lemma gather_missing (w : world) :
  credentials_missing env = true ->
  exists c,
    gather json_dumps py_str env w
    = (Py.Ok (inl 1), World (fs w) c (S (ticks w)) (sent w)).
Proof.
  unfold credentials_missing. intros Hm.
  unfold gather, gather_at. rewrite bind_tick, bind_print, Hm, !bind_print.
  eexists. reflexivity.
Qed.

Lemma gather_connect (w : world) :
  credentials_missing env = false ->
  gather json_dumps py_str env w
  = match connect json_dumps py_str env (fresh_client env, started env w) with
    | (Py.Raise e, (_, w')) => (Py.Raise e, w')
    | (Py.Ok false, (_, w')) =>
        (Py.Ok (inl 2), say w' "ERROR: Could not connect to Tuya API")
    | (Py.Ok true, (api, w')) =>
        match fetch_devices json_dumps py_str env (datetime_now env (ticks w))
                [] DEVICE_IDS
                (api, say w' ("Connected successfully" +:+ nl)) with
        | (Py.Ok rs, (_, w2)) => (Py.Ok (inr rs), w2)
        | (Py.Raise e, (_, w2)) => (Py.Raise e, w2)
        end
    end.
Proof.
  unfold credentials_missing. intros Hm.
  unfold gather, gather_at. rewrite bind_tick, bind_print, Hm, bind_print.
  cbn [fs console ticks sent]. fold (started env w).
  unfold with_api. fold (fresh_client env).
  unfold Run.bind at 1.
  destruct (connect json_dumps py_str env (fresh_client env, started env w))
    as [[[|]|e] [api w']]; cbn [negb]; try reflexivity.
  unfold Run.bind at 1. unfold Run.on_world at 1, Run.print at 1.
  cbn [fst snd]. fold (say w' ("Connected successfully" +:+ nl)).
  unfold Run.bind at 1.
  destruct (fetch_devices json_dumps py_str env _ _ _ _)
    as [[rs|e] [api2 w2]]; reflexivity.
Qed.

Lemma summarize_yields_zero (rs : list reading) :
  yields (fun c => c = 0) (summarize json_dumps py_str env rs).
Proof.
  unfold summarize.
  apply (yields_bind (fun _ => True)); [apply yields_any|intros _ _].
  apply (yields_bind (fun _ => True)); [apply yields_any|intros _ _].
  apply (yields_bind (fun _ => True)); [apply yields_any|intros _ _].
  apply yields_ret. reflexivity.
Qed.

(** X5: the value [main] returns is 1 exactly when a credential is unset
    or empty, and then nothing was sent and no file touched; it is 2
    exactly when the credentials are there and [connect] returned False;
    any other value it returns is 0. *)
Theorem X5_exit_codes (w : world) :
  let out := main json_dumps py_str env w in
  (fst out = Py.Ok 1 <-> credentials_missing env = true)
  /\ (credentials_missing env = true ->
      sent (snd out) = sent w /\ fs (snd out) = fs w
      /\ ticks (snd out) = S (ticks w))
  /\ (fst out = Py.Ok 2 <->
      credentials_missing env = false
      /\ fst (connect json_dumps py_str env (fresh_client env, started env w))
         = Py.Ok false)
  /\ (forall c, fst out = Py.Ok c -> c = 0 \/ c = 1 \/ c = 2).
Proof.
  intros out. subst out. rewrite main_gather. unfold Run.bind.
  destruct (credentials_missing env) eqn:Hm.
  - destruct (gather_missing w Hm) as [c ->]. cbn [finish Run.ret fst snd].
    split; [split; reflexivity|]. split; [intros _; repeat split|].
    split; [split; [discriminate|intros [H _]; discriminate H]|].
    intros c' [= <-]. right. left. reflexivity.
  - rewrite (gather_connect w Hm).
    destruct (connect json_dumps py_str env (fresh_client env, started env w))
      as [[[|]|e] [api w']]; cbn [fst snd].
    + destruct (fetch_devices json_dumps py_str env _ _ _ _)
        as [[rs|e] [api2 w2]]; cbn [finish fst snd].
      * assert (Hz : forall c,
                   fst (summarize json_dumps py_str env rs w2) = Py.Ok c ->
                   c = 0).
        { intros c Hc.
          destruct (summarize json_dumps py_str env rs w2) as [r w3] eqn:Hs.
          cbn [fst] in Hc. subst r.
          exact (summarize_yields_zero rs _ _ _ Hs). }
        split; [split; [intros H; apply Hz in H; discriminate H
                       |discriminate]|].
        split; [discriminate|].
        split; [split; [intros H; apply Hz in H; discriminate H
                       |intros [_ H]; discriminate H]|].
        intros c Hc. left. exact (Hz c Hc).
      * split; [split; discriminate|]. split; [discriminate|].
        split; [split; [discriminate|intros [_ H]; discriminate H]|].
        discriminate.
    + cbn [finish Run.ret fst].
      split; [split; discriminate|]. split; [discriminate|].
      split; [split; [intros _; split; reflexivity|reflexivity]|].
      intros c [= <-]. right. right. reflexivity.
    + split; [split; discriminate|]. split; [discriminate|].
      split; [split; [discriminate|intros [_ H]; discriminate H]|].
      discriminate.
Qed.

(** X4: an exception of [requests.get] on the token request (no network,
    a timeout) is not caught: with credentials, [main] ends with that
    exception after that single request, the process status being 1; no
    file is touched and nothing is posted. *)
Theorem X4_connect_exception_escapes (w : world) (e : Py.exn) :
  credentials_missing env = false ->
  (forall h, requests_get env (ENDPOINT +:+ token_path) h = Py.Raise e) ->
  let out := main json_dumps py_str env w in
  fst out = Py.Raise e
  /\ exit_code (fst out) = 1
  /\ fs (snd out) = fs w
  /\ sent (snd out)
     = sent w ++ [GET (ENDPOINT +:+ token_path)
                      (get_headers (fresh_client env) EmptyString
                         (time_ms env (S (ticks w))) token_path)].
Proof.
  intros Hm Hdown out. subst out. rewrite main_gather. unfold Run.bind.
  rewrite (gather_connect w Hm).
  rewrite (connect_cases json_dumps py_str env (fresh_client env)
             (started env w) _
             (sign_get json_dumps _ (fresh_client env) token_path EmptyString
                eq_refl)).
  cbn [endpoint fresh_client]. rewrite Hdown. cbn [fst snd fs sent started].
  repeat split.
Qed.

End Start.

Lemma X4_connect_exception_escapes_witness :
  fst (main dumps_basic str_basic down_env empty_world)
  = Py.Raise (Py.LibraryError "connection refused")
  /\ fs (snd (main dumps_basic str_basic down_env empty_world)) = ∅.
Proof.
  destruct (X4_connect_exception_escapes dumps_basic str_basic down_env
              empty_world (Py.LibraryError "connection refused") eq_refl
              (fun h => eq_refl))
    as (H1 & _ & H2 & _).
  split; [exact H1|exact H2].
Defined.

(** * The requests of the device loop *)

Section Requests.
Variable json_dumps : Py.value -> string.
Variable py_str : Py.value -> string.
Variable env : environment.

(** X6: a token that is a true value other than a string (a number, a
    non-empty list) makes every signed request fail with a TypeError
    before anything is sent; a false one (None, the empty string, 0) is
    signed as no token at all. *)
Theorem X6_token_not_text (api : SimpleTuyaAPI) (w : world) (path : string) :
  Py.truthy (token api) = true ->
  (forall s, token api <> Py.VStr s) ->
  api_get json_dumps env path (api, w)
  = (Py.Raise Py.TypeError,
     (api, World (fs w) (console w) (S (ticks w)) (sent w)))
  /\ (forall ts rs dev rest,
        fst (fetch_devices json_dumps py_str env ts rs (dev :: rest) (api, w))
        = Py.Raise Py.TypeError)
  /\ (forall api0 ms,
        Py.truthy (token api0) = false ->
        sign_request_at json_dumps ms api0 "GET" path Py.VNone
        = Py.Ok (get_headers api0 EmptyString ms path)).
Proof.
  intros Ht Hs.
  assert (Htk : token_or_empty (token api) = Py.Raise Py.TypeError).
  { unfold token_or_empty. rewrite Ht.
    destruct (token api) as [| | | |s| |]; try reflexivity.
    exfalso. exact (Hs s eq_refl). }
  assert (Hget : forall p w1,
             api_get json_dumps env p (api, w1)
             = (Py.Raise Py.TypeError,
                (api, World (fs w1) (console w1) (S (ticks w1)) (sent w1)))).
  { intros p w1.
    rewrite api_get_cases, (sign_get_raises json_dumps _ api p _ Htk).
    reflexivity. }
  split; [apply Hget|]. split.
  - intros ts rs dev rest. cbn [fetch_devices]. unfold Run.bind at 1.
    rewrite fetch_device_cases, Hget. reflexivity.
  - intros api0 ms Hf. apply sign_get. unfold token_or_empty.
    rewrite Hf. reflexivity.
Qed.

(** What one turn of the loop sends and returns. *)
Lemma fetch_device_runs (ts dev : string) (rs : list reading)
    (api : SimpleTuyaAPI) (w : world) :
  let out := fetch_device json_dumps py_str env ts rs dev (api, w) in
  fst (snd out) = api
  /\ fs (snd (snd out)) = fs w
  /\ ticks (snd (snd out)) = S (ticks w)
  /\ (forall rs', fst out = Py.Ok rs' ->
        rs' = rs \/ exists temp hum, rs' = rs ++ [Reading ts dev temp hum])
  /\ ((exists e, fst out = Py.Raise e) /\ sent (snd (snd out)) = sent w
      \/ exists h,
           sign_request_at json_dumps (time_ms env (ticks w)) api "GET"
             (status_path dev) Py.VNone = Py.Ok h
           /\ sent (snd (snd out))
              = sent w ++ [GET (endpoint api +:+ status_path dev) h]).
Proof.
  intros out. subst out. rewrite fetch_device_cases, api_get_cases.
  cbn [say fs console ticks sent].
  destruct (sign_request_at _ _ _ _ _ _) as [h|e]; cbn [fst snd fs ticks sent].
  2: { repeat split; [discriminate|]. left. split; [|reflexivity].
       exists e. reflexivity. }
  destruct (requests_get env _ h) as [resp|e]; cbn [fst snd fs ticks sent].
  2: { repeat split; [discriminate|]. right. exists h. split; reflexivity. }
  destruct (json resp) as [v|e];
    (destruct (Py.get _ "success") as [ok|e1]; cbn [fst snd fs ticks sent];
     [|repeat split; [discriminate|]; right; exists h; split; reflexivity]);
    (destruct (Py.truthy ok); cbn [fst snd fs ticks sent say];
     [|repeat split; [intros rs' [= <-]; left; reflexivity|];
       right; exists h; split; reflexivity]);
    (destruct (Py.rbind _ extract_temp_humidity) as [[temp hum]|e2];
     cbn [fst snd fs ticks sent];
     [|repeat split; [discriminate|]; right; exists h; split; reflexivity]);
    (destruct (negb (Py.is_none temp) && negb (Py.is_none hum));
     cbn [fst snd fs ticks sent say];
     (repeat split;
      [intros rs' [= <-];
       first [left; reflexivity | right; eexists _, _; reflexivity]|];
      right; exists h; split; reflexivity)).
Qed.

End Requests.

Lemma X6_token_not_text_witness :
  api_get dumps_basic sample_env (status_path "dev") (odd_client, empty_world)
  = (Py.Raise Py.TypeError, (odd_client, World ∅ [] 1 [])).
Proof.
  refine (proj1 (X6_token_not_text dumps_basic str_basic sample_env odd_client
                   empty_world (status_path "dev") eq_refl _)).
  intros s H. discriminate H.
Defined.

Section LoopRequests.
Variable json_dumps : Py.value -> string.
Variable py_str : Py.value -> string.
Variable env : environment.

(** What the loop sends and returns. *)
Lemma fetch_devices_runs (ts : string) (devs : list string) :
  forall (rs : list reading) (api : SimpleTuyaAPI) (w : world),
    let out := fetch_devices json_dumps py_str env ts rs devs (api, w) in
    fst (snd out) = api
    /\ fs (snd (snd out)) = fs w
    /\ (forall rs', fst out = Py.Ok rs' ->
          exists l, rs' = rs ++ l /\ map device_id l `sublist_of` devs)
    /\ exists l,
         sent (snd (snd out)) = sent w ++ l
         /\ map request_url l
            = map (fun d => endpoint api +:+ status_path d)
                  (take (length l) devs)
         /\ Forall (signed_get json_dumps env api) l
         /\ (length l <= length devs)%nat
         /\ (forall rs', fst out = Py.Ok rs' -> length l = length devs).
Proof.
  induction devs as [|dev rest IH]; intros rs api w out; subst out;
    cbn [fetch_devices].
  - cbn [Run.ret fst snd]. repeat split.
    + intros rs' [= <-]. exists []. split; [symmetry; apply app_nil_r|].
      constructor.
    + exists []. rewrite app_nil_r. repeat split; constructor.
  - unfold Run.bind.
    pose proof (fetch_device_runs json_dumps py_str env ts dev rs api w)
      as (Hapi & Hfs & _ & Hrs & Hsent).
    destruct (fetch_device json_dumps py_str env ts rs dev (api, w))
      as [[rs1|e] [api1 w1]]; cbn [fst snd] in *; subst api1.
    + destruct Hsent as [[[e He] _]|(h & Hsign & Hsent)]; [discriminate He|].
      specialize (IH rs1 api w1). cbn zeta in IH.
      destruct IH as (IHapi & IHfs & IHrs & l & IHsent & IHurl & IHsig
                      & IHlen & IHall).
      split; [exact IHapi|]. split; [congruence|]. split.
      * intros rs' Hrs'. destruct (IHrs rs' Hrs') as (l' & -> & Hsub).
        destruct (Hrs rs1 eq_refl) as [->|(temp & hum & ->)].
        -- exists l'. split; [reflexivity|]. apply sublist_cons. exact Hsub.
        -- exists (Reading ts dev temp hum :: l'). split.
           ++ rewrite <- app_assoc. reflexivity.
           ++ cbn [map device_id]. apply sublist_skip. exact Hsub.
      * exists (GET (endpoint api +:+ status_path dev) h :: l).
        split; [rewrite IHsent, Hsent, <- app_assoc; reflexivity|].
        split; [cbn [map request_url length take]; rewrite IHurl;
                reflexivity|].
        split; [constructor; [exists (status_path dev), (ticks w), h;
                              split; [reflexivity|exact Hsign]
                             |exact IHsig]|].
        split; [cbn [length]; lia|].
        intros rs' Hrs'. cbn [length]. rewrite (IHall rs' Hrs'). reflexivity.
    + split; [reflexivity|]. split; [exact Hfs|].
      split; [discriminate|].
      destruct Hsent as [[_ Hsent]|(h & Hsign & Hsent)].
      * exists []. rewrite app_nil_r.
        repeat split; try constructor; [exact Hsent|cbn [length]; lia
                                       |discriminate].
      * exists [GET (endpoint api +:+ status_path dev) h].
        split; [exact Hsent|]. split; [reflexivity|].
        split; [constructor; [|constructor];
                exists (status_path dev), (ticks w), h;
                split; [reflexivity|exact Hsign]|].
        split; [cbn [length]; lia|discriminate].
Qed.

(** X7: the device loop never changes the client (the token [connect]
    stored stays) nor a file; it sends GET requests only, to the status
    paths of the devices in their order, at most one each and exactly
    one each when it returns normally; every one carries the headers
    [_sign_request] makes for the client, so the client's id and, when
    the token is a text, that token. *)
Theorem X7_loop_requests (ts : string) (devs : list string)
    (rs : list reading) (api : SimpleTuyaAPI) (w : world) :
  let out := fetch_devices json_dumps py_str env ts rs devs (api, w) in
  fst (snd out) = api
  /\ fs (snd (snd out)) = fs w
  /\ exists l,
       sent (snd (snd out)) = sent w ++ l
       /\ map request_url l
          = map (fun d => endpoint api +:+ status_path d)
                (take (length l) devs)
       /\ (forall rs', fst out = Py.Ok rs' -> length l = length devs)
       /\ Forall (fun r =>
                    exists url h,
                      r = GET url h /\ client_id h = access_id api
                      /\ sign_method h = "HMAC-SHA256"
                      /\ forall tk, token api = Py.VStr tk ->
                                    access_token h = tk) l.
Proof.
  intros out. subst out.
  destruct (fetch_devices_runs ts devs rs api w)
    as (Hapi & Hfs & _ & l & Hsent & Hurl & Hsig & _ & Hall).
  split; [exact Hapi|]. split; [exact Hfs|].
  exists l. split; [exact Hsent|]. split; [exact Hurl|].
  split; [exact Hall|].
  apply (Forall_impl _ _ _ Hsig).
  intros r (path & n & h & -> & Hsign). exists (endpoint api +:+ path), h.
  split; [reflexivity|].
  destruct (token_or_empty (token api)) as [tk0|e] eqn:Htk.
  - rewrite (sign_get json_dumps _ api path tk0 Htk) in Hsign.
    injection Hsign as <-. cbn [get_headers client_id sign_method access_token].
    split; [reflexivity|]. split; [reflexivity|].
    intros tk Heq. rewrite Heq in Htk. unfold token_or_empty in Htk.
    cbn [Py.truthy] in Htk. destruct (negb (String.eqb tk EmptyString)) eqn:E.
    + injection Htk as <-. reflexivity.
    + injection Htk as <-. apply negb_false_iff in E.
      apply String.eqb_eq in E. symmetry. exact E.
  - rewrite (sign_get_raises json_dumps _ api path e Htk) in Hsign.
    discriminate Hsign.
Qed.

(** X8: the batch the loop returns is the batch it was given followed by
    at most one reading per device, in the order of the devices; so a
    run that reaches the summary has at most three readings, of distinct
    devices of the list, in the order of the list. *)
Theorem X8_batch_in_device_order (w0 w : world) (rs : list reading) :
  gather json_dumps py_str env w0 = (Py.Ok (inr rs), w) ->
  map device_id rs `sublist_of` DEVICE_IDS
  /\ (length rs <= 3)%nat
  /\ NoDup (map device_id rs)
  /\ (forall ts devs batch s batch',
        fst (fetch_devices json_dumps py_str env ts batch devs s)
        = Py.Ok batch' ->
        exists l, batch' = batch ++ l /\ map device_id l `sublist_of` devs).
Proof.
  intros Hg.
  assert (Hloop : forall ts devs batch s batch',
             fst (fetch_devices json_dumps py_str env ts batch devs s)
             = Py.Ok batch' ->
             exists l, batch' = batch ++ l
                       /\ map device_id l `sublist_of` devs).
  { intros ts devs batch [api w1] batch' H.
    destruct (fetch_devices_runs ts devs batch api w1) as (_ & _ & Hrs & _).
    exact (Hrs batch' H). }
  assert (Hsub : map device_id rs `sublist_of` DEVICE_IDS).
  { destruct (credentials_missing env) eqn:Hm.
    - destruct (gather_missing json_dumps py_str env w0 Hm) as [c Hc].
      rewrite Hc in Hg. discriminate Hg.
    - rewrite (gather_connect json_dumps py_str env w0 Hm) in Hg.
      destruct (connect json_dumps py_str env _) as [[[|]|e] [api w']];
        try discriminate Hg.
      destruct (fetch_devices json_dumps py_str env _ _ _ _)
        as [[rs1|e] [api2 w2]] eqn:Hf; try discriminate Hg.
      injection Hg as -> _.
      destruct (Hloop _ _ _ _ rs (f_equal fst Hf)) as (l & -> & Hl).
      exact Hl. }
  split; [exact Hsub|]. split; [|split; [|exact Hloop]].
  - apply sublist_length in Hsub. rewrite length_map in Hsub. exact Hsub.
  - apply (sublist_NoDup _ DEVICE_IDS); [|exact Hsub]. unfold DEVICE_IDS.
    apply (bool_decide_unpack _). vm_compute. reflexivity.
Qed.

End LoopRequests.

Lemma X8_batch_in_device_order_witness :
  NoDup
    (map device_id
       match fst (gather dumps_basic str_basic sample_env empty_world) with
       | Py.Ok (inr rs) => rs
       | _ => []
       end).
Proof.
  pose (out := gather dumps_basic str_basic sample_env empty_world).
  pose (batch := match fst out with
                 | Py.Ok (inr rs) => rs
                 | _ => []
                 end).
  assert (Hg : out = (Py.Ok (inr batch), snd out))
    by (vm_compute; reflexivity).
  exact (proj1 (proj2 (proj2
           (X8_batch_in_device_order dumps_basic str_basic sample_env
              empty_world (snd out) batch Hg)))).
Defined.

(** * The requests of a whole run *)

Section RunRequests.
Variable json_dumps : Py.value -> string.
Variable py_str : Py.value -> string.
Variable env : environment.

(** X10: the storage sink always returns normally and touches neither
    the files nor the clock; without a storage address it does nothing
    at all; with one it sends exactly one POST, of the whole batch, and
    prints exactly one line: any answer of the server, an error status
    included, is logged as sent with its status code, and only an
    exception is logged as a storage error. *)
Theorem X10_storage_sink (rows : list reading) (w : world) :
  let out := send_to_storage env rows w in
  fst out = Py.Ok tt
  /\ fs (snd out) = fs w
  /\ ticks (snd out) = ticks w
  /\ (STORAGE_URL env = EmptyString -> snd out = w)
  /\ (STORAGE_URL env <> EmptyString ->
      sent (snd out) = sent w ++ [POST (STORAGE_URL env) rows]
      /\ console (snd out)
         = console w
           ++ [match requests_post env (STORAGE_URL env) rows with
               | Py.Ok r => "Sent to storage: " +:+ pretty (status_code r)
               | Py.Raise e => "Storage error: " +:+ Py.str_of_exn e
               end]).
Proof.
  intros out. subst out.
  destruct (String.eqb_spec (STORAGE_URL env) EmptyString) as [Heq|Hne].
  - rewrite (send_to_storage_off env rows w Heq). cbn [fst snd].
    split; [reflexivity|]. split; [reflexivity|]. split; [reflexivity|].
    split; [intros _; reflexivity|intros H; contradiction].
  - destruct (requests_post env (STORAGE_URL env) rows) as [r|e] eqn:Hp.
    + rewrite (send_to_storage_answered env rows w r Hne Hp).
      cbn [fst snd fs ticks sent console].
      split; [reflexivity|]. split; [reflexivity|]. split; [reflexivity|].
      split; [intros H; contradiction|intros _; split; reflexivity].
    + rewrite (send_to_storage_raised env rows w e Hne Hp).
      cbn [fst snd fs ticks sent console].
      split; [reflexivity|]. split; [reflexivity|]. split; [reflexivity|].
      split; [intros H; contradiction|intros _; split; reflexivity].
Qed.

Lemma send_to_storage_sent (rows : list reading) (w : world) :
  sent (snd (send_to_storage env rows w))
  = sent w ++ (if negb (String.eqb (STORAGE_URL env) EmptyString)
               then [POST (STORAGE_URL env) rows] else []).
Proof.
  destruct (String.eqb_spec (STORAGE_URL env) EmptyString) as [Heq|Hne];
    cbn [negb].
  - rewrite (send_to_storage_off env rows w Heq). cbn [snd].
    symmetry. apply app_nil_r.
  - destruct (requests_post env (STORAGE_URL env) rows) as [r|e] eqn:Hp.
    + rewrite (send_to_storage_answered env rows w r Hne Hp). reflexivity.
    + rewrite (send_to_storage_raised env rows w e Hne Hp). reflexivity.
Qed.

Lemma summarize_sent (rs : list reading) (w : world) :
  sent (snd (summarize json_dumps py_str env rs w))
  = sent w ++ storage_posts env rs.
Proof.
  unfold storage_posts. destruct rs as [|r rs].
  - rewrite summarize_empty. cbn [snd sent length Nat.eqb negb andb].
    symmetry. apply app_nil_r.
  - destruct (summarize_nonempty json_dumps py_str env (r :: rs) w)
      as [c ->]; [discriminate|].
    cbn [length Nat.eqb negb andb].
    unfold Run.bind at 1, write_outputs. unfold Run.bind at 1.
    pose proof (send_to_storage_sent (r :: rs) (World (fs w) c (ticks w) (sent w)))
      as Hs.
    pose proof (X := send_to_storage_safe env (r :: rs)
                       (World (fs w) c (ticks w) (sent w))).
    destruct X as [Hok _].
    destruct (send_to_storage env (r :: rs) _) as [[[]|e] w1];
      cbn [fst snd sent] in *; [|discriminate Hok].
    pose proof (no_send_write_files json_dumps py_str env (r :: rs) w1) as Hn.
    unfold no_send in Hn.
    destruct (write_files json_dumps py_str env (r :: rs) w1) as [[[]|e] w2];
      cbn [fst snd] in *; cbn [Run.ret snd]; congruence.
Qed.

(** The requests of a run up to the summary. *)
Lemma gather_sends (w : world) :
  exists gets k,
    sent (snd (gather json_dumps py_str env w)) = sent w ++ gets
    /\ Forall (fun r => exists url h, r = GET url h) gets
    /\ Forall (expected_request env) gets
    /\ (k <= length DEVICE_IDS)%nat
    /\ (length gets <= S k)%nat
    /\ (gets = []
        \/ map request_url gets
           = (ENDPOINT +:+ token_path)
             :: map (fun d => ENDPOINT +:+ status_path d)
                    (take k DEVICE_IDS)).
Proof.
  assert (Hexp : forall api l n,
             endpoint api = ENDPOINT ->
             map request_url l
             = map (fun d => endpoint api +:+ status_path d)
                   (take n DEVICE_IDS) ->
             Forall (signed_get json_dumps env api) l ->
             Forall (expected_request env) l
             /\ Forall (fun r => exists url h, r = GET url h) l).
  { intros api l n Hep Hurl Hsig. split.
    - apply Forall_forall. intros r Hr.
      rewrite Forall_forall in Hsig.
      destruct (Hsig r Hr) as (path & m & h & -> & _).
      assert (Hin : In (request_url (GET (endpoint api +:+ path) h))
                       (map request_url l)).
      { apply in_map. apply list_elem_of_In. exact Hr. }
      rewrite Hurl in Hin. apply in_map_iff in Hin.
      destruct Hin as (d & Hd & Hin). cbn [expected_request request_url] in *.
      right. exists d. split.
      + apply list_elem_of_In. apply list_elem_of_In in Hin.
        exact (subseteq_take n DEVICE_IDS d Hin).
      + rewrite <- Hd, Hep. reflexivity.
    - apply (Forall_impl _ _ _ Hsig).
      intros r (path & m & h & -> & _). eexists _, _. reflexivity. }
  destruct (credentials_missing env) eqn:Hm.
  - destruct (gather_missing json_dumps py_str env w Hm) as [c ->].
    cbn [snd sent]. exists [], 0%nat.
    split; [symmetry; apply app_nil_r|]. split; [constructor|].
    split; [constructor|]. split; [lia|]. split; [cbn [length]; lia|].
    left. reflexivity.
  - rewrite (gather_connect json_dumps py_str env w Hm).
    rewrite (connect_cases json_dumps py_str env (fresh_client env)
               (started env w) _
               (sign_get json_dumps _ (fresh_client env) token_path
                  EmptyString eq_refl)).
    cbn [endpoint fresh_client started fs console ticks sent].
    set (h := get_headers _ _ _ _).
    set (g := GET (ENDPOINT +:+ token_path) h).
    assert (Hg : Forall (fun r => exists url h0, r = GET url h0) [g]
                 /\ Forall (expected_request env) [g]).
    { split; (constructor; [|constructor]).
      - eexists _, _. reflexivity.
      - left. reflexivity. }
    destruct Hg as [Hg1 Hg2].
    assert (Hone : exists gets k,
               sent w ++ [g] = sent w ++ gets
               /\ Forall (fun r => exists url h0, r = GET url h0) gets
               /\ Forall (expected_request env) gets
               /\ (k <= length DEVICE_IDS)%nat
               /\ (length gets <= S k)%nat
               /\ (gets = []
                   \/ map request_url gets
                      = (ENDPOINT +:+ token_path)
                        :: map (fun d => ENDPOINT +:+ status_path d)
                               (take k DEVICE_IDS))).
    { exists [g], 0%nat. split; [reflexivity|]. split; [exact Hg1|].
      split; [exact Hg2|]. split; [lia|]. split; [cbn [length]; lia|].
      right. reflexivity. }
    destruct (requests_get env _ h) as [resp|e]; [|exact Hone].
    destruct (json resp) as [result|e]; [|exact Hone].
    destruct (Py.get result "success") as [success|e]; [|exact Hone].
    destruct (Py.truthy success); [|exact Hone].
    destruct (Py.getitem result "result") as [r|e]; [|exact Hone].
    destruct (Py.getitem r "access_token") as [tok|e]; [|exact Hone].
    clear Hone. cbn [say fs console ticks sent].
    match goal with
    | |- context [fetch_devices _ _ _ ?ts ?b ?devs (?api, ?w1)] =>
        pose proof (fetch_devices_runs json_dumps py_str env ts devs b api w1)
          as (_ & _ & _ & l & Hsent & Hurl & Hsig & Hlen & _);
        destruct (fetch_devices json_dumps py_str env ts b devs (api, w1))
          as [[rs|e] [api2 w2]]
    end; cbn [fst snd sent endpoint say] in *;
      destruct (Hexp (API ENDPOINT _ _ tok) l (length l) eq_refl Hurl Hsig)
        as [He Hgets];
      (exists ([g] ++ l), (length l);
       split; [rewrite Hsent, <- app_assoc; reflexivity|];
       split; [apply Forall_app; split; assumption|];
       split; [apply Forall_app; split; assumption|];
       split; [exact Hlen|];
       split; [rewrite length_app; cbn [length]; lia|];
       right; cbn [app map request_url]; rewrite Hurl; reflexivity).
Qed.

(** X9: whatever the network and the file system do, a run sends at most
    five requests, in this order: the token request, the status request
    of each listed device in the order of the list, then one POST to
    the configured storage address; nothing else and nothing to another
    address.  The POST is made exactly when the run reaches the summary
    with a batch that is not empty and a storage address is set, and its
    body is that batch. *)
Theorem X9_requests_of_a_run (w : world) :
  let batch := match fst (gather json_dumps py_str env w) with
               | Py.Ok (inr rs) => rs
               | _ => []
               end in
  exists gets posts k,
    sent (snd (main json_dumps py_str env w)) = sent w ++ gets ++ posts
    /\ Forall (fun r => exists url h, r = GET url h) gets
    /\ (gets = []
        \/ map request_url gets
           = (ENDPOINT +:+ token_path)
             :: map (fun d => ENDPOINT +:+ status_path d)
                    (take k DEVICE_IDS))
    /\ (k <= length DEVICE_IDS)%nat
    /\ (length gets <= S k)%nat
    /\ Forall (expected_request env) (gets ++ posts)
    /\ (length (gets ++ posts) <= 5)%nat
    /\ (batch <> [] /\ STORAGE_URL env <> EmptyString ->
        posts = [POST (STORAGE_URL env) batch])
    /\ (batch = [] \/ STORAGE_URL env = EmptyString -> posts = []).
Proof.
  intros batch. subst batch.
  destruct (gather_sends w) as (gets & k & Hsent & Hget & Hexp & Hk & Hlen
                                & Hurl).
  rewrite main_gather. unfold Run.bind.
  destruct (gather json_dumps py_str env w) as [[[code|rs]|e] w'];
    cbn [fst snd finish Run.ret] in *.
  - exists gets, [], k. rewrite app_nil_r.
    split; [exact Hsent|]. split; [exact Hget|]. split; [exact Hurl|].
    split; [exact Hk|]. split; [exact Hlen|]. split; [exact Hexp|].
    split; [cbn [length DEVICE_IDS] in Hk; lia|].
    split; [intros [H _]; contradiction|reflexivity].
  - exists gets, (storage_posts env rs), k.
    rewrite summarize_sent, Hsent, <- app_assoc.
    split; [reflexivity|]. split; [exact Hget|]. split; [exact Hurl|].
    split; [exact Hk|]. split; [exact Hlen|].
    unfold storage_posts.
    destruct rs as [|r rs]; cbn [length Nat.eqb negb andb].
    + rewrite app_nil_r. split; [exact Hexp|].
      split; [cbn [length DEVICE_IDS] in Hk; lia|].
      split; [intros [H _]; contradiction|reflexivity].
    + destruct (String.eqb_spec (STORAGE_URL env) EmptyString) as [Heq|Hne];
        cbn [negb].
      * rewrite app_nil_r. split; [exact Hexp|].
        split; [cbn [length DEVICE_IDS] in Hk; lia|].
        split; [intros [_ H]; contradiction|reflexivity].
      * split; [apply Forall_app; split; [exact Hexp|];
                constructor; [split; [reflexivity|exact Hne]|constructor]|].
        split; [rewrite length_app; cbn [length DEVICE_IDS] in *; lia|].
        split; [reflexivity|].
        intros [H|H]; [discriminate H|contradiction].
  - exists gets, [], k. rewrite app_nil_r.
    split; [exact Hsent|]. split; [exact Hget|]. split; [exact Hurl|].
    split; [exact Hk|]. split; [exact Hlen|]. split; [exact Hexp|].
    split; [cbn [length DEVICE_IDS] in Hk; lia|].
    split; [intros [H _]; contradiction|reflexivity].
Qed.

End RunRequests.

(** * The manifest *)

Lemma substring_all (s : string) : substring 0 (String.length s) s = s.
Proof.
  induction s as [|c s IH]; [reflexivity|].
  cbn [String.length substring]. f_equal. exact IH.
Qed.

Lemma length_app_str (a b : string) :
  String.length (a +:+ b) = (String.length a + String.length b)%nat.
Proof.
  induction a as [|c a IH]; [reflexivity|].
  rewrite app_cons. cbn [String.length Nat.add]. f_equal. exact IH.
Qed.

Lemma substring_app_r (a b : string) :
  substring (String.length a) (String.length b) (a +:+ b) = b.
Proof.
  induction a as [|c a IH]; [apply substring_all|].
  rewrite app_cons. cbn [String.length substring]. exact IH.
Qed.

Lemma prefix_app (a b : string) : String.prefix a (a +:+ b) = true.
Proof.
  induction a as [|c a IH]; [destruct b; reflexivity|].
  rewrite app_cons. cbn [String.prefix].
  destruct (ascii_dec c c) as [_|Hc]; [exact IH|contradiction].
Qed.

Lemma prefix_split (p s : string) :
  String.prefix p s = true ->
  s = p +:+ substring (String.length p)
                      (String.length s - String.length p) s.
Proof.
  revert s. induction p as [|c p IH]; intros s.
  - intros _. cbn. rewrite Nat.sub_0_r. symmetry. apply substring_all.
  - destruct s as [|c' s]; cbn [String.prefix]; [discriminate|].
    destruct (ascii_dec c c') as [<-|_]; [|discriminate].
    intros Hp. rewrite app_cons. cbn [String.length substring Nat.sub].
    f_equal. exact (IH s Hp).
Qed.

Lemma startswith_app (a b : string) : startswith (a +:+ b) a = true.
Proof. apply prefix_app. Qed.

Lemma endswith_app (a b : string) : endswith (a +:+ b) b = true.
Proof.
  unfold endswith. rewrite length_app_str.
  replace (String.length a + String.length b - String.length b)%nat
    with (String.length a) by lia.
  rewrite substring_app_r, String.eqb_refl, andb_true_r.
  apply Nat.leb_le. lia.
Qed.

Global Instance str_le_total : Total str_le.
Proof. intros a b. apply String.leb_total. Qed.

Lemma first_component_no_slash (s : string) :
  has_slash (first_component s) = false.
Proof.
  unfold has_slash. induction s as [|c s IH]; [reflexivity|].
  cbn [first_component]. destruct (Ascii.eqb "/" c) eqn:E; [reflexivity|].
  cbn [list_ascii_of_string existsb]. rewrite E. exact IH.
Qed.

(** A path is its first component followed by nothing or by a slash and
    the rest. *)
Lemma first_component_split (s : string) :
  exists rest,
    s = first_component s +:+ rest
    /\ (rest = EmptyString \/ exists r, rest = String "/" r).
Proof.
  induction s as [|c s (rest & IH & Hrest)].
  - exists EmptyString. split; [reflexivity|left; reflexivity].
  - cbn [first_component]. destruct (Ascii.eqb "/" c) eqn:E.
    + apply Ascii.eqb_eq in E. subst c. exists (String "/" s).
      split; [reflexivity|]. right. exists s. reflexivity.
    + exists rest. split; [rewrite app_cons, <- IH; reflexivity|exact Hrest].
Qed.

Lemma first_component_app (name rest : string) :
  has_slash name = false ->
  (rest = EmptyString \/ exists r, rest = String "/" r) ->
  first_component (name +:+ rest) = name.
Proof.
  unfold has_slash. intros Hname Hrest.
  induction name as [|c name IH].
  - destruct Hrest as [->|[r ->]]; reflexivity.
  - cbn [list_ascii_of_string existsb] in Hname.
    apply orb_false_elim in Hname. destruct Hname as [Hc Hname].
    rewrite app_cons. cbn [first_component]. rewrite Hc.
    f_equal. exact (IH Hname).
Qed.

Section Manifest.
Variable json_dumps : Py.value -> string.
Variable py_str : Py.value -> string.
Variable env : environment.

(** [os.listdir]: each entry of the directory once, a file directly
    under it or a sub-directory that holds a path. *)
Lemma listdir_names (d : string) (w : world) :
  os_error env (Listdir d) = None ->
  exists names,
    listdir env d w = (Py.Ok names, w)
    /\ NoDup names
    /\ forall name,
         name ∈ names
         <-> name <> EmptyString /\ has_slash name = false
             /\ exists rest,
                  is_Some (fs w !! ((d +:+ "/") +:+ name +:+ rest))
                  /\ (rest = EmptyString \/ exists r, rest = String "/" r).
Proof.
  intros Hos. unfold listdir, os, Run.bind, Run.get_fs, Run.ret.
  rewrite Hos. cbn [fst snd]. eexists. split; [reflexivity|].
  split; [apply NoDup_remove_dups|].
  intros name. rewrite elem_of_remove_dups, list_elem_of_omap.
  generalize (d +:+ "/"). intros dir. split.
  - intros ([k v] & Hin & Hf). apply elem_of_map_to_list in Hin.
    cbn [fst] in Hf. unfold entry_under in Hf.
    destruct (startswith k dir) eqn:Hp; [|discriminate Hf].
    apply prefix_split in Hp. revert Hf Hp.
    generalize (substring (String.length dir)
                  (String.length k - String.length dir) k).
    intros sub Hf Hp. cbn zeta in Hf.
    destruct (String.eqb (first_component sub) EmptyString) eqn:Hne;
      [discriminate Hf|].
    injection Hf as Hname. apply String.eqb_neq in Hne.
    destruct (first_component_split sub) as (rest & Hsub & Hrest).
    rewrite Hname in Hne, Hsub. split; [exact Hne|].
    split; [rewrite <- Hname; apply first_component_no_slash|].
    exists rest. split; [|exact Hrest].
    rewrite <- Hsub, <- Hp. exists v. exact Hin.
  - intros (Hne & Hs & rest & [v Hv] & Hrest).
    exists (dir +:+ name +:+ rest, v).
    split; [apply elem_of_map_to_list; exact Hv|]. cbn [fst].
    unfold entry_under, startswith.
    rewrite prefix_app, (length_app_str dir (name +:+ rest)).
    replace (String.length dir + String.length (name +:+ rest)
             - String.length dir)%nat
      with (String.length (name +:+ rest)) by lia.
    rewrite substring_app_r. cbn zeta.
    rewrite (first_component_app name rest Hs Hrest).
    apply String.eqb_neq in Hne. rewrite Hne. reflexivity.
Qed.

(** X11: when the directory can be listed and the manifest opened, the
    manifest is rewritten with the JSON list of exactly the names of the
    entries of data, files and sub-directories alike (the listing is not
    filtered on regular files), that start with TROFICDORD and end with
    .csv, each once, in ascending order; no other file changes, nothing
    is printed; manifest.json itself is never listed. *)
Theorem X11_manifest_content (w : world) :
  os_error env (Listdir "data") = None ->
  os_error env (Open manifest_path "w") = None ->
  exists files,
    update_manifest json_dumps env "data" w
    = (Py.Ok tt,
       World (<[manifest_path := json_dumps (Py.VList (map Py.VStr files))]>
                (fs w))
             (console w) (ticks w) (sent w))
    /\ Sorted str_le files
    /\ NoDup files
    /\ (forall name,
          name ∈ files
          <-> is_daily_csv name = true /\ has_slash name = false
              /\ exists rest,
                   is_Some (fs w !! ("data/" +:+ name +:+ rest))
                   /\ (rest = EmptyString \/ exists r, rest = String "/" r))
    /\ "manifest.json" ∉ files.
Proof.
  intros Hlist Hopen.
  destruct (listdir_names "data" w Hlist) as (names & Hrun & Hdup & Hnames).
  set (files := merge_sort str_le
                  (filter (fun f => is_daily_csv f) names)).
  assert (Hin : forall name,
             name ∈ files
             <-> is_daily_csv name = true /\ has_slash name = false
                 /\ exists rest,
                      is_Some (fs w !! ("data/" +:+ name +:+ rest))
                      /\ (rest = EmptyString
                          \/ exists r, rest = String "/" r)).
  { intros name. unfold files. rewrite merge_sort_Permutation.
    rewrite list_elem_of_filter, Hnames, Is_true_true. split.
    - intros (Hd & _ & Hs & Hrest). repeat split; assumption.
    - intros (Hd & Hs & Hrest). split; [exact Hd|].
      split; [|split; assumption].
      intros ->. discriminate Hd. }
  exists files.
  split; [|split; [apply Sorted_merge_sort; exact _|split; [|split]]].
  - unfold update_manifest, Run.try_except. unfold Run.bind at 1.
    rewrite Hrun. unfold Run.bind at 1, os at 1.
    change ("data" +:+ "/" +:+ "manifest.json") with manifest_path.
    rewrite Hopen. cbn [Run.ret]. reflexivity.
  - unfold files. rewrite merge_sort_Permutation.
    apply NoDup_filter. exact Hdup.
  - exact Hin.
  - intros H. apply Hin in H. destruct H as [H _]. discriminate H.
Qed.

End Manifest.

Lemma X11_manifest_content_witness :
  exists files,
    fs (snd (update_manifest dumps_basic sample_env "data" nested_world))
       !! manifest_path
    = Some (dumps_basic (Py.VList (map Py.VStr files)))
    /\ "TROFICDORD20240101.csv" ∈ files
    /\ "TROFICDORD_sub.csv" ∈ files
    /\ "notes.txt" ∉ files.
Proof.
  destruct (X11_manifest_content dumps_basic sample_env nested_world
              eq_refl eq_refl) as (files & Hrun & _ & _ & Hin & _).
  exists files. split; [|split; [|split]].
  - rewrite Hrun. cbn [snd fs]. apply lookup_insert_eq.
  - apply Hin. split; [reflexivity|]. split; [reflexivity|].
    exists EmptyString. split; [|left; reflexivity].
    exists "old"%string. reflexivity.
  - apply Hin. split; [reflexivity|]. split; [reflexivity|].
    exists "/inner.txt"%string. split; [|right; eexists; reflexivity].
    exists "i"%string. reflexivity.
  - intros H. apply Hin in H. destruct H as [H _]. discriminate H.
Defined.

(** * The files of the output stage *)

Lemma has_slash_app (a b : string) :
  has_slash (a +:+ b) = has_slash a || has_slash b.
Proof.
  unfold has_slash. induction a as [|c a IH]; [reflexivity|].
  rewrite app_cons. cbn [list_ascii_of_string existsb].
  rewrite IH. apply orb_assoc.
Qed.

Lemma csv_name_daily (today : string) :
  is_daily_csv (csv_name_of today) = true.
Proof.
  unfold is_daily_csv, csv_name_of. apply andb_true_intro. split.
  - apply startswith_app.
  - rewrite <- app_assoc_str. apply endswith_app.
Qed.

Section Files.
Variable json_dumps : Py.value -> string.
Variable py_str : Py.value -> string.
Variable env : environment.

Lemma update_manifest_failed (w : world) (msg : string) :
  os_error env (Listdir "data") = Some msg
  \/ os_error env (Listdir "data") = None
     /\ os_error env (Open manifest_path "w") = Some msg ->
  update_manifest json_dumps env "data" w
  = (Py.Ok tt, say w ("Could not update manifest on main branch: " +:+ msg)).
Proof.
  intros H. unfold update_manifest, Run.try_except.
  unfold Run.bind at 1. unfold listdir. unfold Run.bind at 1, os at 1.
  destruct H as [H|[H1 H2]].
  - rewrite H. reflexivity.
  - rewrite H1. unfold Run.ret at 1. unfold Run.bind at 1, Run.get_fs at 1.
    unfold Run.ret at 1. unfold Run.bind at 1, os at 1.
    change ("data" +:+ "/" +:+ "manifest.json") with manifest_path.
    rewrite H2. reflexivity.
Qed.

(** The output stage when the CSV file can be opened. *)
Lemma write_files_run (rows : list reading) (w : world) :
  let csv := csv_path_of (date_today env (ticks w)) in
  os_error env (Open csv "a") = None ->
  exists c1 c2,
    write_files json_dumps py_str env rows w
    = (Py.Ok tt,
       World (fs (snd (update_manifest json_dumps env "data"
                         (World (<[csv := appended py_str (fs w !! csv) rows]>
                                   (fs w))
                                c1 (S (ticks w)) (sent w)))))
             c2 (S (ticks w)) (sent w)).
Proof.
  intros csv Hopen. unfold write_files. rewrite bind_tick.
  destruct (ensure_dir_runs env "data"
              (World (fs w) (console w) (S (ticks w)) (sent w)))
    as [c1 H1].
  rewrite (bind_ok _ _ _ _ _ H1).
  rewrite (bind_ok _ _ _ _ _
             (append_to_csv_opened py_str env csv rows _ Hopen)).
  cbn [fs console ticks sent].
  rewrite bind_print. cbn [fs console ticks sent].
  match goal with
  | |- context [Run.bind (update_manifest _ _ _) _ ?w1] =>
      destruct (update_manifest_runs json_dumps env w1)
        as (f & c2 & H2 & _);
      rewrite (bind_ok _ _ _ _ _ H2);
      assert (Hf : f = fs (snd (update_manifest json_dumps env "data" w1)))
        by (rewrite H2; reflexivity)
  end.
  rewrite !bind_print. cbn [fs console ticks sent].
  match goal with
  | |- context [print_rows _ _ ?w1] =>
      destruct (print_rows_runs py_str rows w1) as [c3 H3]; rewrite H3
  end.
  cbn [fs console ticks sent]. eexists _, c3. rewrite Hf. reflexivity.
Qed.

Lemma write_files_refused (rows : list reading) (w : world) (msg : string) :
  os_error env (Open (csv_path_of (date_today env (ticks w))) "a")
  = Some msg ->
  exists c,
    write_files json_dumps py_str env rows w
    = (Py.Raise (Py.LibraryError msg),
       World (fs w) c (S (ticks w)) (sent w)).
Proof.
  intros Hopen. unfold write_files. rewrite bind_tick.
  destruct (ensure_dir_runs env "data"
              (World (fs w) (console w) (S (ticks w)) (sent w)))
    as [c1 H1].
  rewrite (bind_ok _ _ _ _ _ H1).
  rewrite (bind_raise _ _ _ _ _
             (append_to_csv_refused py_str env _ rows _ msg Hopen)).
  cbn [fs console ticks sent]. exists c1. reflexivity.
Qed.

(** X12: a failure to list the directory or to open the manifest is
    caught: the manifest update prints one line and returns normally,
    so the output stage still returns normally, with the readings
    appended to the CSV file of the day and every other file, the old
    manifest included, as it was. *)
Theorem X12_manifest_failure_swallowed (rows : list reading) (w : world)
    (msg : string) :
  let csv := csv_path_of (date_today env (ticks w)) in
  os_error env (Open csv "a") = None ->
  (os_error env (Listdir "data") = Some msg
   \/ os_error env (Listdir "data") = None
      /\ os_error env (Open manifest_path "w") = Some msg) ->
  let out := write_files json_dumps py_str env rows w in
  fst out = Py.Ok tt
  /\ fs (snd out) = <[csv := appended py_str (fs w !! csv) rows]> (fs w)
  /\ fs (snd out) !! manifest_path = fs w !! manifest_path
  /\ forall w1,
       update_manifest json_dumps env "data" w1
       = (Py.Ok tt,
          say w1 ("Could not update manifest on main branch: " +:+ msg)).
Proof.
  intros csv Hopen Hfail out. subst out.
  destruct (write_files_run rows w Hopen) as (c1 & c2 & ->).
  rewrite (update_manifest_failed _ msg Hfail). cbn [fst snd fs say].
  split; [reflexivity|]. split; [reflexivity|].
  split; [|intros w1; apply (update_manifest_failed w1 msg Hfail)].
  apply lookup_insert_ne. apply csv_path_not_manifest.
Qed.

(** X13: the CSV append is not guarded: when the file of the day cannot
    be opened, a run with readings ends with that exception (process
    status 1) after the batch was posted to the storage address, if one
    is set; no file is written, the manifest included. *)
Theorem X13_csv_failure_fatal (rs : list reading) (w : world) (msg : string) :
  rs <> [] ->
  os_error env (Open (csv_path_of (date_today env (ticks w))) "a")
  = Some msg ->
  let out := summarize json_dumps py_str env rs w in
  fst out = Py.Raise (Py.LibraryError msg)
  /\ exit_code (fst out) = 1
  /\ fs (snd out) = fs w
  /\ sent (snd out) = sent w ++ storage_posts env rs.
Proof.
  intros Hrs Hopen out. subst out.
  pose proof (summarize_sent json_dumps py_str env rs w) as Hsent.
  assert (H : exists c l,
             summarize json_dumps py_str env rs w
             = (Py.Raise (Py.LibraryError msg),
                World (fs w) c (S (ticks w)) l)).
  { destruct (summarize_nonempty json_dumps py_str env rs w Hrs) as [c ->].
    unfold Run.bind at 1. unfold write_outputs. unfold Run.bind at 1.
    destruct (send_to_storage_safe env rs
                (World (fs w) c (ticks w) (sent w)))
      as [Hok [Hfs Hticks]].
    destruct (send_to_storage env rs _) as [[[]|e] w1];
      cbn [fst snd fs ticks] in Hok, Hfs, Hticks; [|discriminate Hok].
    rewrite <- Hticks in Hopen.
    destruct (write_files_refused rs w1 msg Hopen) as [c1 ->].
    eexists _, _. rewrite Hfs, Hticks. reflexivity. }
  destruct H as (c & l & H). rewrite H in Hsent |- *.
  cbn [fst snd fs sent exit_code] in *.
  repeat split; assumption.
Qed.

End Files.

Lemma X12_manifest_failure_swallowed_witness :
  let out := write_files dumps_basic str_basic
               (answering granted granted unlistable) [sample_reading]
               archive_world in
  fst out = Py.Ok tt
  /\ fs (snd out) !! manifest_path = None
  /\ is_Some (fs (snd out) !! csv_path_of "20240102").
Proof.
  intros out.
  destruct (X12_manifest_failure_swallowed dumps_basic str_basic
              (answering granted granted unlistable) [sample_reading]
              archive_world "Permission denied" eq_refl
              (or_introl eq_refl))
    as (H1 & H2 & H3 & _).
  split; [exact H1|]. split.
  - subst out. rewrite H3. reflexivity.
  - subst out. rewrite H2. eexists. apply lookup_insert_eq.
Defined.

Lemma X13_csv_failure_fatal_witness :
  let out := summarize dumps_basic str_basic
               (answering granted granted read_only) [sample_reading]
               empty_world in
  fst out = Py.Raise (Py.LibraryError "Read-only file system")
  /\ fs (snd out) = ∅
  /\ sent (snd out) = [POST "https://storage.example/hook" [sample_reading]].
Proof.
  intros out.
  assert (Hrs : [sample_reading] <> []) by discriminate.
  destruct (X13_csv_failure_fatal dumps_basic str_basic
              (answering granted granted read_only) [sample_reading]
              empty_world "Read-only file system" Hrs eq_refl)
    as (H1 & _ & H2 & H3).
  split; [exact H1|]. split; [exact H2|exact H3].
Defined.

Section Listing.
Variable json_dumps : Py.value -> string.
Variable py_str : Py.value -> string.
Variable env : environment.

(** X14: when nothing fails on the file system, the manifest the output
    stage writes lists the CSV file of the day it has just written: it
    is the JSON list of a sorted list of daily file names to which the
    name of the day's file belongs. *)
Theorem X14_manifest_lists_today (rows : list reading) (w : world) :
  let today := date_today env (ticks w) in
  has_slash today = false ->
  os_error env (Open (csv_path_of today) "a") = None ->
  os_error env (Listdir "data") = None ->
  os_error env (Open manifest_path "w") = None ->
  let out := write_files json_dumps py_str env rows w in
  fst out = Py.Ok tt
  /\ exists files,
       fs (snd out) !! manifest_path
       = Some (json_dumps (Py.VList (map Py.VStr files)))
       /\ csv_name_of today ∈ files
       /\ Sorted str_le files
       /\ forall name, name ∈ files -> is_daily_csv name = true.
Proof.
  intros today Hslash Hcsv Hlist Hopen out. subst out.
  destruct (write_files_run json_dumps py_str env rows w Hcsv)
    as (c1 & c2 & ->).
  fold today. cbn [fst snd fs]. split; [reflexivity|].
  set (w1 := World _ c1 _ _).
  destruct (listdir_names env "data" w1 Hlist)
    as (names & Hrun & _ & Hnames).
  exists (merge_sort str_le (filter (fun f => is_daily_csv f) names)).
  split; [|split; [|split]].
  - unfold update_manifest, Run.try_except. unfold Run.bind at 1.
    rewrite Hrun. unfold Run.bind at 1, os at 1.
    change ("data" +:+ "/" +:+ "manifest.json") with manifest_path.
    rewrite Hopen. cbn [Run.ret Run.bind Run.get_fs Run.put_fs fst snd fs].
    apply lookup_insert_eq.
  - rewrite merge_sort_Permutation, list_elem_of_filter, Is_true_true.
    split; [apply csv_name_daily|]. apply Hnames.
    split; [intros H; discriminate H|]. split.
    + unfold csv_name_of. rewrite !has_slash_app, Hslash. reflexivity.
    + exists EmptyString. split; [|left; reflexivity].
      rewrite app_empty_r.
      replace (("data" +:+ "/") +:+ csv_name_of today)
        with (csv_path_of today) by reflexivity.
      eexists. subst w1. cbn [fs]. apply lookup_insert_eq.
  - apply Sorted_merge_sort. exact _.
  - intros name.
    rewrite merge_sort_Permutation, list_elem_of_filter, Is_true_true.
    intros [H _]. exact H.
Qed.

(** X15: the rows echoed on the console and the rows written to the CSV
    file are the same texts: the echo prints one line per reading, in
    order, and the file receives those lines, each followed by a line
    feed, after what was written before. *)
Theorem X15_echo_matches_file (rows : list reading) (w : world)
    (written : string) :
  let lines := map (row_text py_str) rows in
  print_rows py_str rows w
  = (Py.Ok tt, World (fs w) (console w ++ lines) (ticks w) (sent w))
  /\ write_rows py_str written rows = written +:+ unlines lines
  /\ length lines = length rows.
Proof.
  intros lines. subst lines. split; [|split].
  - revert w. induction rows as [|r rows IH]; intros w.
    + cbn [print_rows map Run.ret]. rewrite app_nil_r.
      destruct w; reflexivity.
    + cbn [print_rows map]. rewrite bind_print, IH.
      cbn [fs console ticks sent]. rewrite <- app_assoc. reflexivity.
  - rewrite write_rows_data_lines, data_lines_unlines. reflexivity.
  - apply length_map.
Qed.

End Listing.

Lemma X14_manifest_lists_today_witness :
  exists files,
    fs (snd (write_files dumps_basic str_basic sample_env [sample_reading]
               archive_world)) !! manifest_path
    = Some (dumps_basic (Py.VList (map Py.VStr files)))
    /\ "TROFICDORD20240102.csv" ∈ files.
Proof.
  destruct (X14_manifest_lists_today dumps_basic str_basic sample_env
              [sample_reading] archive_world eq_refl eq_refl eq_refl eq_refl)
    as (_ & files & H1 & H2 & _).
  exists files. split; [exact H1|exact H2].
Defined.

(** * The extractor on a whole status *)

Lemma extract_loop_app (st : Py.value * Py.value) (l1 l2 : list Py.value) :
  extract_loop st (l1 ++ l2)
  = Py.rbind (extract_loop st l1) (fun st' => extract_loop st' l2).
Proof.
  revert st. induction l1 as [|dp l1 IH]; intros st; [reflexivity|].
  cbn [app extract_loop].
  destruct (extract_step st dp) as [st'|e]; cbn [Py.rbind]; [apply IH|].
  reflexivity.
Qed.

Lemma extract_step_not_dict (st : Py.value * Py.value) (dp : Py.value) :
  Py.isinstance_dict dp = false ->
  extract_step st dp = Py.Raise Py.AttributeError.
Proof.
  intros H. destruct dp; try reflexivity. discriminate H.
Qed.

(** X16: the loop keeps the last point of each kind: a point with a
    temperature code appended to a status replaces the temperature,
    whatever the earlier points gave, and leaves the humidity as it was;
    a point with a humidity code does the converse; the earlier points
    count only through the pair they produced. *)
Theorem X16_last_point_wins (dps : list Py.value) (temp hum : Py.value)
    (c : string) (v : Py.value) :
  extract_temp_humidity (Py.VList dps) = Py.Ok (temp, hum) ->
  converts v = true ->
  (In c temperature_codes ->
   extract_temp_humidity (Py.VList (dps ++ [point c v]))
   = Py.Ok (if Py.isinstance_int_float v then spec_temperature v else v, hum))
  /\ (In c humidity_codes ->
      extract_temp_humidity (Py.VList (dps ++ [point c v]))
      = Py.Ok (temp, if Py.isinstance_int_float v then spec_humidity v else v))
  /\ (forall more,
        extract_temp_humidity (Py.VList (dps ++ more))
        = extract_loop (temp, hum) more).
Proof.
  unfold extract_temp_humidity. cbn [Py.iter Py.rbind]. intros Hdps Hv.
  assert (Happ : forall more,
             extract_loop (Py.VNone, Py.VNone) (dps ++ more)
             = extract_loop (temp, hum) more).
  { intros more. rewrite extract_loop_app, Hdps. reflexivity. }
  split; [|split; [|exact Happ]].
  - intros Hc. rewrite Happ. cbn [extract_loop].
    rewrite (extract_step_temperature c v _ Hc). cbn [snd].
    destruct (Py.isinstance_int_float v) eqn:Hn; [|reflexivity].
    rewrite (gt_int_abs v 50 Hn). unfold spec_temperature.
    destruct (abs_exceeds v 50); [|reflexivity].
    rewrite (truediv_converts v Hn Hv). reflexivity.
  - intros Hc. rewrite Happ. cbn [extract_loop].
    rewrite (extract_step_humidity c v _ Hc). cbn [fst].
    destruct (Py.isinstance_int_float v) eqn:Hn; [|reflexivity].
    rewrite gt_int_exceeds. unfold spec_humidity.
    destruct (exceeds v 100); [|reflexivity].
    rewrite (truediv_converts v Hn Hv). reflexivity.
Qed.

Lemma X16_last_point_wins_witness :
  extract_temp_humidity
    (Py.VList [point "temperature" (Py.VInt 999);
               point "humidity" (Py.VInt 45);
               point "temp_current" (Py.VInt 235)])
  = Py.Ok (Py.VFloat f_23_5, Py.VInt 45).
Proof.
  exact (proj1 (X16_last_point_wins
                  [point "temperature" (Py.VInt 999);
                   point "humidity" (Py.VInt 45)]
                  (Py.VFloat (S754_finite false 7029837543348634 (-46)))
                  (Py.VInt 45) "temp_current" (Py.VInt 235)
                  eq_refl eq_refl)
               (or_introl eq_refl)).
Defined.

(** X17: what the extractor does with a status that is not a list of
    dicts.  None, a boolean or a number cannot be iterated: TypeError.
    An empty list, dict or string gives (None, None).  A list is read up
    to its first element that is not a dict, where the call ends with an
    AttributeError whatever follows; a non-empty dict or string is
    iterated over its keys or characters, which are strings, and ends
    the same way. *)
Theorem X17_extract_errors :
  (forall v,
     match v with
     | Py.VList _ | Py.VDict _ | Py.VStr _ => True
     | _ => extract_temp_humidity v = Py.Raise Py.TypeError
     end)
  /\ extract_temp_humidity (Py.VList []) = Py.Ok (Py.VNone, Py.VNone)
  /\ extract_temp_humidity (Py.VDict []) = Py.Ok (Py.VNone, Py.VNone)
  /\ extract_temp_humidity (Py.VStr EmptyString) = Py.Ok (Py.VNone, Py.VNone)
  /\ (forall l1 dp l2 st,
        extract_loop (Py.VNone, Py.VNone) l1 = Py.Ok st ->
        Py.isinstance_dict dp = false ->
        extract_temp_humidity (Py.VList (l1 ++ dp :: l2))
        = Py.Raise Py.AttributeError)
  /\ (forall d, d <> [] ->
        extract_temp_humidity (Py.VDict d) = Py.Raise Py.AttributeError)
  /\ (forall s, s <> EmptyString ->
        extract_temp_humidity (Py.VStr s) = Py.Raise Py.AttributeError).
Proof.
  split; [intros v; destruct v; try exact I; reflexivity|].
  split; [reflexivity|]. split; [reflexivity|]. split; [reflexivity|].
  split; [|split].
  - intros l1 dp l2 st Hl1 Hdp. unfold extract_temp_humidity.
    cbn [Py.iter Py.rbind]. rewrite extract_loop_app, Hl1.
    cbn [Py.rbind extract_loop].
    rewrite (extract_step_not_dict st dp Hdp). reflexivity.
  - intros [|[k x] d] Hd; [contradiction|]. reflexivity.
  - intros [|ch s] Hs; [contradiction|]. reflexivity.
Qed.

(** * The files a run touches *)

Section Touched.
Variable json_dumps : Py.value -> string.
Variable py_str : Py.value -> string.
Variable env : environment.

Lemma write_files_touch (rows : list reading) (w : world) (q : string) :
  q <> manifest_path ->
  let after := fs (snd (write_files json_dumps py_str env rows w)) in
  after !! q = fs w !! q
  \/ q = csv_path_of (date_today env (ticks w))
     /\ after !! q = Some (appended py_str (fs w !! q) rows).
Proof.
  intros Hq after. subst after.
  destruct (os_error env (Open (csv_path_of (date_today env (ticks w))) "a"))
    as [msg|] eqn:Hopen.
  - destruct (write_files_refused json_dumps py_str env rows w msg Hopen)
      as [c ->].
    left. reflexivity.
  - destruct (write_files_run json_dumps py_str env rows w Hopen)
      as (c1 & c2 & ->).
    cbn [snd fs].
    match goal with
    | |- context [update_manifest _ _ _ ?w1] =>
        destruct (update_manifest_runs json_dumps env w1)
          as (f & c & -> & Hf)
    end.
    cbn [snd fs] in *. rewrite (Hf q Hq).
    destruct (decide (q = csv_path_of (date_today env (ticks w))))
      as [->|Hne].
    + right. split; [reflexivity|]. apply lookup_insert_eq.
    + left. apply lookup_insert_ne. congruence.
Qed.

Lemma main_files (w : world) :
  fs (snd (main json_dumps py_str env w)) = fs w
  \/ exists rs w1,
       fs w1 = fs w
       /\ fs (snd (main json_dumps py_str env w))
          = fs (snd (write_files json_dumps py_str env rs w1)).
Proof.
  rewrite main_gather. unfold Run.bind.
  pose proof (quiet_gather json_dumps py_str env w) as [Hfs _].
  destruct (gather json_dumps py_str env w) as [[[code|rs]|e] w'];
    cbn [snd] in Hfs; cbn [finish Run.ret snd]; [left; exact Hfs| |
                                                  left; exact Hfs].
  destruct rs as [|r rs].
  - left. rewrite summarize_empty. exact Hfs.
  - right.
    destruct (summarize_nonempty json_dumps py_str env (r :: rs) w')
      as [c ->]; [discriminate|].
    unfold Run.bind at 1. unfold write_outputs. unfold Run.bind at 1.
    destruct (send_to_storage_safe env (r :: rs)
                (World (fs w') c (ticks w') (sent w')))
      as [Hok [Hsame _]].
    destruct (send_to_storage env (r :: rs) _) as [[[]|e] w1];
      cbn [fst snd fs] in Hok, Hsame; [|discriminate Hok].
    exists (r :: rs), w1. split; [congruence|].
    destruct (write_files json_dumps py_str env (r :: rs) w1)
      as [[[]|e] w2]; reflexivity.
Qed.

(** X18: a run only ever appends.  Apart from the manifest, a file that
    is not a daily CSV file is after the run what it was before, and a
    file that existed keeps its whole content as the beginning of its new
    content: no run truncates, rewrites or deletes a CSV file. *)
Theorem X18_files_of_a_run (w : world) :
  let after := fs (snd (main json_dumps py_str env w)) in
  (forall q,
     q <> manifest_path -> (forall today, q <> csv_path_of today) ->
     after !! q = fs w !! q)
  /\ (forall q old,
        q <> manifest_path -> fs w !! q = Some old ->
        exists suffix, after !! q = Some (old +:+ suffix)).
Proof.
  intros after. subst after.
  destruct (main_files w) as [->|(rs & w1 & Hfs & ->)].
  - split; [reflexivity|]. intros q old _ Hold. exists EmptyString.
    rewrite app_empty_r. exact Hold.
  - split.
    + intros q Hq Hcsv.
      destruct (write_files_touch rs w1 q Hq) as [->|[Heq _]];
        [rewrite Hfs; reflexivity|].
      exfalso. exact (Hcsv _ Heq).
    + intros q old Hq Hold. rewrite <- Hfs in Hold.
      destruct (write_files_touch rs w1 q Hq) as [->|[_ ->]].
      * exists EmptyString. rewrite app_empty_r. exact Hold.
      * rewrite Hold. cbn [appended]. eexists. reflexivity.
Qed.

(** X20: [ensure_dir] never raises: a failure to create the directory
    is caught and printed on one line, and nothing else changes.  The
    output stage then goes on to open the CSV file; when that fails too,
    as it does when data is not a directory, the run ends with the
    exception of the open, after the line about the directory and with
    no file written. *)
Theorem X20_dir_failure_swallowed (path : string) (w : world) :
  ensure_dir env path w
  = (Py.Ok tt,
     match os_error env (Makedirs path) with
     | Some msg =>
         say w ("Could not create directory " +:+ path +:+ " " +:+ msg)
     | None => w
     end)
  /\ (forall rows msg msg2,
        os_error env (Makedirs "data") = Some msg ->
        os_error env (Open (csv_path_of (date_today env (ticks w))) "a")
        = Some msg2 ->
        write_files json_dumps py_str env rows w
        = (Py.Raise (Py.LibraryError msg2),
           World (fs w)
                 (console w ++ ["Could not create directory data " +:+ msg])
                 (S (ticks w)) (sent w))).
Proof.
  assert (Hdir : forall p w1,
             ensure_dir env p w1
             = (Py.Ok tt,
                match os_error env (Makedirs p) with
                | Some msg =>
                    say w1 ("Could not create directory " +:+ p +:+ " "
                            +:+ msg)
                | None => w1
                end)).
  { intros p w1. unfold ensure_dir, Run.try_except, os.
    destruct (os_error env (Makedirs p)); reflexivity. }
  split; [apply Hdir|].
  intros rows msg msg2 Hmk Hopen. unfold write_files. rewrite bind_tick.
  rewrite (bind_ok _ _ _ _ _ (Hdir "data" _)). rewrite Hmk.
  rewrite (bind_raise _ _ _ _ _
             (append_to_csv_refused py_str env _ rows _ msg2 Hopen)).
  reflexivity.
Qed.

(** X19: [connect] does not turn every bad answer into False.  A JSON
    body that is not an object, or one that reports success without the
    token (no [result], a [result] that is not an object, no
    [access_token]) makes it end with an exception: AttributeError,
    KeyError or TypeError; the token is left as it was and the one
    request has been sent. *)
Theorem X19_connect_malformed_answer (api : SimpleTuyaAPI) (w : world)
    (h : headers) (resp : response) (result : Py.value) :
  sign_request_at json_dumps (time_ms env (ticks w)) api "GET" token_path
    Py.VNone = Py.Ok h ->
  requests_get env (endpoint api +:+ token_path) h = Py.Ok resp ->
  json resp = Py.Ok result ->
  let out := connect json_dumps py_str env (api, w) in
  let raises e :=
    out = (Py.Raise e,
           (api, World (fs w) (console w) (S (ticks w))
                   (sent w ++ [GET (endpoint api +:+ token_path) h]))) in
  (Py.isinstance_dict result = false -> raises Py.AttributeError)
  /\ (forall d ok,
        result = Py.VDict d -> Py.assoc "success" d = Some ok ->
        Py.truthy ok = true ->
        (Py.assoc "result" d = None -> raises Py.KeyError)
        /\ (forall r, Py.assoc "result" d = Some r ->
              Py.isinstance_dict r = false -> raises Py.TypeError)
        /\ (forall rd, Py.assoc "result" d = Some (Py.VDict rd) ->
              Py.assoc "access_token" rd = None -> raises Py.KeyError)).
Proof.
  intros Hsign Hget Hjson out raises. subst out raises.
  rewrite (connect_cases json_dumps py_str env api w h Hsign).
  cbn zeta. rewrite Hget, Hjson. split.
  - intros Hd. destruct result; try reflexivity. discriminate Hd.
  - intros d ok -> Hok Ht. cbn [Py.get Py.getitem]. rewrite Hok.
    change (default Py.VNone (Some ok)) with ok. rewrite Ht.
    split; [|split].
    + intros ->. reflexivity.
    + intros r -> Hr. destruct r; try reflexivity. discriminate Hr.
    + intros rd -> Hrd. cbn [Py.getitem]. rewrite Hrd. reflexivity.
Qed.

End Touched.

Lemma X20_dir_failure_swallowed_witness :
  write_files dumps_basic str_basic (answering granted granted blocked_dir)
    [sample_reading] empty_world
  = (Py.Raise (Py.LibraryError "Not a directory"),
     World ∅ ["Could not create directory data File exists"] 1 []).
Proof.
  exact (proj2 (X20_dir_failure_swallowed dumps_basic str_basic
                  (answering granted granted blocked_dir) "data" empty_world)
               [sample_reading] "File exists" "Not a directory"
               eq_refl eq_refl).
Defined.

Lemma X19_connect_malformed_answer_witness :
  fst (connect dumps_basic str_basic
         (answering (Py.Ok (Response 200 (Py.Ok tokenless_body))) granted
            no_os_error)
         (API ENDPOINT "id" "key" Py.VNone, empty_world))
  = Py.Raise Py.KeyError.
Proof.
  pose (env := answering (Py.Ok (Response 200 (Py.Ok tokenless_body)))
                 granted no_os_error).
  pose (api := API ENDPOINT "id" "key" Py.VNone).
  refine (f_equal fst
            (proj2 (proj2 (proj2
               (X19_connect_malformed_answer dumps_basic str_basic env api
                  empty_world
                  (get_headers api EmptyString 1700000000000 token_path)
                  (Response 200 (Py.Ok tokenless_body)) tokenless_body
                  (sign_get dumps_basic _ api token_path EmptyString eq_refl)
                  eq_refl eq_refl)
               _ (Py.VBool true) eq_refl eq_refl eq_refl))
               [] eq_refl eq_refl)).
Defined.

(** The slice of the access id counts characters, not bytes: the first
    two characters of a text that starts with a two-byte character are
    its first three bytes. *)
Example take_chars_two_byte_character :
  take_chars 2 (String (ascii_of_nat 195) (String (ascii_of_nat 169) "bc"))
  = String (ascii_of_nat 195) (String (ascii_of_nat 169) "b")
  /\ take_chars 8 "abcdefghij" = "abcdefgh"%string
  /\ take_chars 8 "id" = "id"%string.
Proof. repeat split; reflexivity. Qed.
